(** * p5.core.primitives: shape constructors and adaptive arc tessellation

    A shallow embedding of [p5/core/primitives.py].

    Conventions of the embedding.
    - Python numbers ([int] and [float]) are real numbers ([R]); rounding of
      floating-point operations is not modelled.  Integers that the code
      uses as counts and indices ([acc], [inc], table indices, step counts)
      are [Z].
    - A positional argument (an item of [args]) is a [pyval]: a number or
      a sequence (tuple, list, [Point], [Vector]) of values.  Where the code
      computes with an argument, a sequence in the place of a number is a
      [TypeError].
    - A Python exception is a [Raise e] result; the module-level variables
      and the renderer object form the [State] threaded through every call.
    - [Point], [PShape], [SType], the stroke-cap constants, [SINCOS] and the
      curve evaluators live in modules that are imported by the file; they
      are either parameters of a section or modelled as documented below. *)

From Stdlib Require Import Reals ZArith List String Bool Lia Lra Psatz.
Import ListNotations.

Local Open Scope string_scope.
Local Open Scope list_scope.
Local Open Scope Z_scope.

(** ** Exceptions and results *)

Inductive exn : Type :=
| ValueError (msg : string)
| TypeError
| ZeroDivisionError
| IndexError.

Inductive result (A : Type) : Type :=
| Ok (a : A)
| Raise (e : exn).

Arguments Ok {A} a.
Arguments Raise {A} e.

(** ** Python values *)

#[warnings="-register-all"]
Inductive pyval : Type :=
| Num (r : R)
| Tup (items : list pyval).

(** A mode keyword or module variable: [None] or a string. *)
Definition pymode : Type := option string.

Definition mode_eq (m : pymode) (s : string) : bool :=
  match m with
  | Some s' => String.eqb s' s
  | None => false
  end.

(** [if mode is None: mode = default] *)
Definition or_default (mode default : pymode) : pymode :=
  match mode with
  | None => default
  | Some _ => mode
  end.

(** [str(mode)], as formatted into error messages. *)
Definition show_mode (m : pymode) : string :=
  match m with
  | Some s => s
  | None => "None"
  end.

(** [x] where a number is required.  A sequence found where the code
    computes with a number is a [TypeError], raised where the model first
    reads the number. *)
Definition as_num (v : pyval) : result R :=
  match v with
  | Num r => Ok r
  | Tup _ => Raise TypeError
  end.

(** A starred argument: the items of a sequence. *)
Definition star (v : pyval) : result (list pyval) :=
  match v with
  | Tup items => Ok items
  | Num _ => Raise TypeError
  end.

(** [a, = args] *)
Definition unpack1 (args : list pyval) : result pyval :=
  match args with
  | [a] => Ok a
  | [] => Raise (ValueError "not enough values to unpack (expected 1, got 0)")
  | _ => Raise (ValueError "too many values to unpack (expected 1)")
  end.

(** [a, b = args] *)
Definition unpack2 (args : list pyval) : result (pyval * pyval) :=
  match args with
  | [a; b] => Ok (a, b)
  | [] | [_] => Raise (ValueError "not enough values to unpack (expected 2)")
  | _ => Raise (ValueError "too many values to unpack (expected 2)")
  end.

(** ** Integer helpers: [int()], [%], [range], indexing *)

(** [int(x)] truncates towards zero. *)
Definition py_int (x : R) : Z :=
  if Rlt_dec x 0 then - Int_part (- x) else Int_part x.

(** [a % b] *)
Definition py_mod (a b : Z) : result Z :=
  if b =? 0 then Raise ZeroDivisionError else Ok (a mod b).

(** [i / n] on two integers (true division). *)
Definition py_truediv (i n : Z) : result R :=
  if n =? 0 then Raise ZeroDivisionError else Ok (IZR i / IZR n)%R.

(** Number of elements of [range(start, stop, step)] for [step <> 0]. *)
Definition range_len (start stop step : Z) : nat :=
  if 0 <? step
  then Z.to_nat ((stop - start + step - 1) / step)
  else Z.to_nat ((start - stop - step - 1) / (- step)).

(** The elements of [range(start, stop, step)] for [step <> 0]. *)
Definition range_list (start stop step : Z) : list Z :=
  map (fun k => start + Z.of_nat k * step) (seq 0 (range_len start stop step)).

(** [range(start, stop, step)] *)
Definition py_range (start stop step : Z) : result (list Z) :=
  if step =? 0
  then Raise (ValueError "range() arg 3 must not be zero")
  else Ok (range_list start stop step).

(** [l[i]], with Python's negative indices. *)
Definition py_getitem {A : Type} (l : list A) (i : Z) : result A :=
  let n := Z.of_nat (List.length l) in
  let j := if i <? 0 then i + n else i in
  if (j <? 0) || (n <=? j) then Raise IndexError
  else match nth_error l (Z.to_nat j) with
       | Some a => Ok a
       | None => Raise IndexError
       end.

(** ** Points

    Modelled from the spec: [pmath.Point] is not part of the file.  The
    specification describes it as a 3-component coordinate (x, y, z) whose
    z defaults to 0 for 2D calls.  Components are numbers; anything else
    given to the constructor is a [TypeError]. *)

Record Point : Type := mkPoint { p_x : R; p_y : R; p_z : R }.

(** The constructor call [Point] applied to the unpacked [items]. *)
Definition Point_new (items : list pyval) : result Point :=
  match items with
  | [Num x; Num y] => Ok (mkPoint x y 0)
  | [Num x; Num y; Num z] => Ok (mkPoint x y z)
  | _ => Raise TypeError
  end.

(** [Point] applied to the unpacked sequence [v] (a starred argument). *)
Definition Point_star (v : pyval) : result Point :=
  match star v with
  | Ok items => Point_new items
  | Raise e => Raise e
  end.

(** A vertex is a tuple of numbers. *)
Definition vertex : Type := list R.

Definition Point_tuple (p : Point) : vertex := [p_x p; p_y p; p_z p].

Definition Point_val (p : Point) : pyval :=
  Tup [Num (p_x p); Num (p_y p); Num (p_z p)].

(** ** Shapes

    Modelled from the spec: [PShape], [Geometry] and [SType] are not part
    of the file.  A shape is an ordered vertex sequence, a topology tag and
    an ordered list of child shapes; a [Geometry] is a flattened buffer
    without children.  Style attributes are not read by this file. *)

Inductive SType : Type :=
| POINTS | LINES | LINE_STRIP | TRIANGLES | QUADS | TRIANGLE_FAN | TESS.

#[warnings="-register-all"]
Inductive PShape : Type :=
| Shape (shape_type : SType) (vertices : list vertex) (children : list PShape)
| Geometry.

Definition shape_type (s : PShape) : option SType :=
  match s with Shape t _ _ => Some t | Geometry => None end.

Definition vertices (s : PShape) : list vertex :=
  match s with Shape _ vs _ => vs | Geometry => [] end.

Definition children (s : PShape) : list PShape :=
  match s with Shape _ _ cs => cs | Geometry => [] end.

(** ** Transform matrices (4x4, applied to homogeneous column vectors) *)

Record vec4 : Type := V4 { v_0 : R; v_1 : R; v_2 : R; v_3 : R }.

Record matrix : Type := Mat { row_0 : vec4; row_1 : vec4; row_2 : vec4; row_3 : vec4 }.

Section LinearAlgebra.
Local Open Scope R_scope.

Definition row_dot (r v : vec4) : R :=
  v_0 r * v_0 v + v_1 r * v_1 v + v_2 r * v_2 v + v_3 r * v_3 v.

(** [m.dot(v)] *)
Definition mat_dot (m : matrix) (v : vec4) : vec4 :=
  V4 (row_dot (row_0 m) v) (row_dot (row_1 m) v)
     (row_dot (row_2 m) v) (row_dot (row_3 m) v).

(** [a - b], [a * b] (element-wise) and [np.sum(a)]. *)
Definition vec_sub (a b : vec4) : vec4 :=
  V4 (v_0 a - v_0 b) (v_1 a - v_1 b) (v_2 a - v_2 b) (v_3 a - v_3 b).

Definition vec_mul (a b : vec4) : vec4 :=
  V4 (v_0 a * v_0 b) (v_1 a * v_1 b) (v_2 a * v_2 b) (v_3 a * v_3 b).

Definition vec_sum (a : vec4) : R := v_0 a + v_1 a + v_2 a + v_3 a.

(** Uniform scaling by [s]; [scale_matrix 1] is the identity. *)
Definition scale_matrix (s : R) : matrix :=
  Mat (V4 s 0 0 0) (V4 0 s 0 0) (V4 0 0 s 0) (V4 0 0 0 1).

Definition identity_matrix : matrix := scale_matrix 1.
End LinearAlgebra.

(** ** Renderer and module state *)

(** The stroke-cap constants of [p5.core.constants]; [OtherCap] stands for
    any other value stored in the renderer. *)
Inductive StrokeCap : Type :=
| ROUND | SQUARE | PROJECT | OtherCap (v : Z).

Definition cap_eq (a b : StrokeCap) : bool :=
  match a, b with
  | ROUND, ROUND | SQUARE, SQUARE | PROJECT, PROJECT => true
  | OtherCap v, OtherCap w => v =? w
  | _, _ => false
  end.

Record Renderer : Type := mkRenderer {
  transform_matrix : matrix;
  stroke_cap : StrokeCap;
  stroke_weight : R;
  (** the shapes passed to [render], oldest first *)
  rendered : list PShape
}.

Record State : Type := mkState {
  _rect_mode : pymode;
  _ellipse_mode : pymode;
  (** [p5.renderer] *)
  renderer : Renderer;
  (** [curves.bezier_resolution] and [curves.curve_resolution] *)
  bezier_resolution : Z;
  curve_resolution : Z
}.

(** The module as loaded: [_rect_mode = 'CORNER'], [_ellipse_mode = 'CENTER']. *)
Definition initial_state (r : Renderer) (bres cres : Z) : State :=
  mkState (Some "CORNER") (Some "CENTER") r bres cres.

Definition set_renderer (r : Renderer) (st : State) : State :=
  mkState (_rect_mode st) (_ellipse_mode st) r
          (bezier_resolution st) (curve_resolution st).

(** ** The state-and-exception monad of the module *)

Definition M (A : Type) : Type := State -> result A * State.

Definition ret {A : Type} (a : A) : M A := fun st => (Ok a, st).

Definition raise {A : Type} (e : exn) : M A := fun st => (Raise e, st).

Definition bind {A B : Type} (c : M A) (k : A -> M B) : M B :=
  fun st =>
    match c st with
    | (Ok a, st') => k a st'
    | (Raise e, st') => (Raise e, st')
    end.

Definition lift {A : Type} (r : result A) : M A := fun st => (r, st).

Definition get : M State := fun st => (Ok st, st).

Definition put (st : State) : M unit := fun _ => (Ok tt, st).

Declare Scope py_scope.
Delimit Scope py_scope with py.

Notation "x <- c ;; k" := (bind c (fun x => k))
  (at level 61, c at next level, right associativity) : py_scope.
Notation "' pat <- c ;; k" := (bind c (fun x => match x with pat => k end))
  (at level 61, pat pattern, c at next level, right associativity) : py_scope.
Notation "c ;; k" := (bind c (fun _ => k))
  (at level 61, right associativity) : py_scope.

Local Open Scope py_scope.

(** The state after the renderer has rendered [s]: the collaborator records
    the shape and changes nothing else. *)
Definition after_render (s : PShape) (st : State) : State :=
  let r := renderer st in
  set_renderer (mkRenderer (transform_matrix r) (stroke_cap r) (stroke_weight r)
                           (rendered r ++ [s])) st.

(** [p5.renderer.render(shape)] *)
Definition render (shape : PShape) : M unit :=
  fun st => (Ok tt, after_render shape st).

(** [draw_shape(shape)] *)
Fixpoint draw_shape (shape : PShape) : M unit :=
  render shape ;;
  match shape with
  | Geometry => ret tt
  | Shape _ _ cs =>
      (fix each (l : list PShape) : M unit :=
         match l with
         | [] => ret tt
         | child_shape :: l' => draw_shape child_shape ;; each l'
         end) cs
  end.

(** The decorator [_draw_on_return]. *)
Definition _draw_on_return (func : M PShape) : M PShape :=
  s <- func ;;
  draw_shape s ;;
  ret s.

(** Binding on plain results, for the code that does not touch the state. *)
Definition rbind {A B : Type} (r : result A) (k : A -> result B) : result B :=
  match r with
  | Ok a => k a
  | Raise e => Raise e
  end.

Declare Scope res_scope.
Delimit Scope res_scope with res.

Notation "x <- c ;; k" := (rbind c (fun x => k))
  (at level 61, c at next level, right associativity) : res_scope.
Notation "' pat <- c ;; k" := (rbind c (fun x => match x with pat => k end))
  (at level 61, pat pattern, c at next level, right associativity) : res_scope.

(** ** Module constants *)

Definition MIN_POINT_ACCURACY : Z := 20.
Definition MAX_POINT_ACCURACY : Z := 200.
Definition POINT_ACCURACY_FACTOR : Z := 10.

(** [mode in ['OPEN', 'CHORD']] and [mode in ['PIE', None]] *)
Definition is_open_or_chord (mode : pymode) : bool :=
  mode_eq mode "OPEN" || mode_eq mode "CHORD".

Definition is_pie_or_unset (mode : pymode) : bool :=
  mode_eq mode "PIE" || match mode with None => true | Some _ => false end.

Definition is_chord_or_pie (mode : pymode) : bool :=
  mode_eq mode "CHORD" || mode_eq mode "PIE".

(** ** Arc tessellation *)

Section Primitives.
Local Open Scope R_scope.

(** The distance between the projected centre and the projected point
    offset by the radii ([np.sqrt(np.sum(sdiff * sdiff))]). *)
Definition projected_size (tm : matrix) (c1x c1y rx ry : R) : R :=
  let s1 := mat_dot tm (V4 c1x c1y 0 1) in
  let c2x := c1x + rx in
  let c2y := c1y + ry in
  let s2 := mat_dot tm (V4 c2x c2y 0 1) in
  let sdiff := vec_sub s2 s1 in
  sqrt (vec_sum (vec_mul sdiff sdiff)).

(** [acc = min(MAX_POINT_ACCURACY, max(MIN_POINT_ACCURACY, int(size_acc)))] *)
Definition point_accuracy (size : R) : Z :=
  let size_acc := (size * PI * 2) / IZR POINT_ACCURACY_FACTOR in
  Z.min MAX_POINT_ACCURACY (Z.max MIN_POINT_ACCURACY (py_int size_acc)).

(** ** The sine/cosine table

    Modelled from the spec: [pmath.utils.SINCOS] is not part of the file.
    The specification describes a fixed-size, precomputed sequence of
    (sin, cos) pairs spanning one full turn; [sincos_table n] is that
    table with [n] entries. *)
Definition sincos_table (n : nat) : list (R * R) :=
  map (fun i => (sin (2 * PI * INR i / INR n), cos (2 * PI * INR i / INR n)))
      (seq 0 n).

(** [pmath.utils.SINCOS], and the evaluators [curves.bezier_point] and
    [curves.curve_point] of the math collaborator (which may reject their
    control points). *)
Variable SINCOS : list (R * R).
Variables bezier_point curve_point :
  pyval -> pyval -> pyval -> pyval -> R -> result (list R).

Definition sclen : Z := Z.of_nat (List.length SINCOS).

(** The vertex built from table entry [idx % sclen]. *)
Definition arc_vertex (c1x c1y rx ry : R) (idx : Z) : result vertex :=
  (i <- py_mod idx sclen ;;
   sc <- py_getitem SINCOS i ;;
   Ok [c1x + rx * snd sc; c1y + ry * fst sc; 0])%res.

(** The [for idx in range(...)] loop, appending one vertex per index. *)
Fixpoint tess_loop (c1x c1y rx ry : R) (idxs : list Z) (vertices : list vertex)
  : result (list vertex) :=
  match idxs with
  | [] => Ok vertices
  | idx :: rest =>
      (v <- arc_vertex c1x c1y rx ry idx ;;
       tess_loop c1x c1y rx ry rest (vertices ++ [v]))%res
  end.

(** [Arc._tessellate], given the renderer's transform matrix. *)
Definition Arc__tessellate (tm : matrix) (center radii : Point)
           (start_angle stop_angle : R) (arc_mode : pymode)
  : result (list vertex) :=
  let rx := p_x radii in
  let ry := p_y radii in
  let c1x := p_x center in
  let c1y := p_y center in
  let acc := point_accuracy (projected_size tm c1x c1y rx ry) in
  let inc := py_int (IZR sclen / IZR acc) in
  let start_index := py_int ((start_angle / (PI * 2)) * IZR sclen) in
  let end_index := py_int ((stop_angle / (PI * 2)) * IZR sclen) in
  let vertices := if is_pie_or_unset arc_mode then [[c1x; c1y; 0]] else [] in
  (idxs <- py_range start_index end_index inc ;;
   vertices <- tess_loop c1x c1y rx ry idxs vertices ;;
   v <- arc_vertex c1x c1y rx ry end_index ;;
   let vertices := vertices ++ [v] in
   if is_chord_or_pie arc_mode
   then (v0 <- py_getitem vertices 0%Z ;; Ok (vertices ++ [v0]))
   else Ok vertices)%res.

(** [Arc(center, radii, start_angle, stop_angle, mode)] *)
Definition Arc (center radii : Point) (start_angle stop_angle : R)
           (mode : pymode) : M PShape :=
  let gl_type := if is_open_or_chord mode then TESS else TRIANGLE_FAN in
  (st <- get ;;
   vs <- lift (Arc__tessellate (transform_matrix (renderer st))
                               center radii start_angle stop_angle mode) ;;
   ret (Shape gl_type vs []))%py.

(** ** Polylines and polygons *)

(** [line( *args )] *)
Definition line (args : list pyval) : M PShape :=
  _draw_on_return
    ('(p1, p2) <-
       match args with
       | [a; b] => ret (a, b)
       | [a; b; c; d] => ret (Tup [a; b], Tup [c; d])
       | [a; b; c; d; e; f] => ret (Tup [a; b; c], Tup [d; e; f])
       | _ => raise (ValueError "Unexpected number of arguments passed to line()")
       end ;;
     p1 <- lift (Point_star p1) ;;
     p2 <- lift (Point_star p2) ;;
     ret (Shape LINES [Point_tuple p1; Point_tuple p2] []))%py.

(** The arity dispatch shared by [bezier] and [curve]: four points, eight
    scalars or twelve scalars. *)
Definition split_control_points (args : list pyval)
  : option (pyval * pyval * pyval * pyval) :=
  match args with
  | [a; b; c; d] => Some (a, b, c, d)
  | [a1; a2; b1; b2; c1; c2; d1; d2] =>
      Some (Tup [a1; a2], Tup [b1; b2], Tup [c1; c2], Tup [d1; d2])
  | [a1; a2; a3; b1; b2; b3; c1; c2; c3; d1; d2; d3] =>
      Some (Tup [a1; a2; a3], Tup [b1; b2; b3], Tup [c1; c2; c3], Tup [d1; d2; d3])
  | _ => None
  end.

Definition control_points (fname : string) (args : list pyval)
  : M (pyval * pyval * pyval * pyval) :=
  match split_control_points args with
  | Some points => ret points
  | None =>
      raise (ValueError ("Unexpected number of arguments passed to " ++ fname ++ "()")%string)
  end.

(** The sampling loop: [t = i / steps], [vertices.append(p[:3])]. *)
Fixpoint sample_loop (evaluate : R -> result (list R)) (steps : Z)
         (indices : list Z) (vertices : list vertex) : result (list vertex) :=
  match indices with
  | [] => Ok vertices
  | i :: rest =>
      (t <- py_truediv i steps ;;
       p <- evaluate t ;;
       sample_loop evaluate steps rest (vertices ++ [firstn 3 p]))%res
  end.

(** [bezier( *args )] *)
Definition bezier (args : list pyval) : M PShape :=
  _draw_on_return
    ('(start, control_point_1, control_point_2, stop) <-
       control_points "bezier" args ;;
     st <- get ;;
     let steps := bezier_resolution st in
     indices <- lift (py_range 0 (steps + 1) 1) ;;
     vertices <- lift (sample_loop
                         (bezier_point start control_point_1 control_point_2 stop)
                         steps indices []) ;;
     ret (Shape LINE_STRIP vertices []))%py.

(** [curve( *args )] *)
Definition curve (args : list pyval) : M PShape :=
  _draw_on_return
    ('(point_1, point_2, point_3, point_4) <- control_points "curve" args ;;
     st <- get ;;
     let steps := curve_resolution st in
     indices <- lift (py_range 0 (steps + 1) 1) ;;
     vertices <- lift (sample_loop (curve_point point_1 point_2 point_3 point_4)
                                   steps indices []) ;;
     ret (Shape LINE_STRIP vertices []))%py.

(** [triangle( *args )] *)
Definition triangle (args : list pyval) : M PShape :=
  _draw_on_return
    ('(p1, p2, p3) <-
       match args with
       | [a1; a2; b1; b2; c1; c2] => ret (Tup [a1; a2], Tup [b1; b2], Tup [c1; c2])
       | [a; b; c] => ret (a, b, c)
       | _ => raise (ValueError "Unexpected number of arguments passed to triangle()")
       end ;;
     p1 <- lift (Point_star p1) ;;
     p2 <- lift (Point_star p2) ;;
     p3 <- lift (Point_star p3) ;;
     ret (Shape TRIANGLES [Point_tuple p1; Point_tuple p2; Point_tuple p3] []))%py.

(** [quad( *args )] *)
Definition quad (args : list pyval) : M PShape :=
  _draw_on_return
    ('(p1, p2, p3, p4) <-
       match args with
       | [a1; a2; b1; b2; c1; c2; d1; d2] =>
           ret (Tup [a1; a2], Tup [b1; b2], Tup [c1; c2], Tup [d1; d2])
       | [a; b; c; d] => ret (a, b, c, d)
       | _ => raise (ValueError "Unexpected number of arguments passed to quad()")
       end ;;
     p1 <- lift (Point_star p1) ;;
     p2 <- lift (Point_star p2) ;;
     p3 <- lift (Point_star p3) ;;
     p4 <- lift (Point_star p4) ;;
     ret (Shape QUADS [Point_tuple p1; Point_tuple p2; Point_tuple p3; Point_tuple p4] []))%py.

(** ** Rectangles *)

(** [rect( *args, mode=None )] *)
Definition rect (args : list pyval) (mode : pymode) : M PShape :=
  ('(coordinate, args) <-
     match args with
     | [a; b; c; d] => ret (Tup [a; b], [c; d])
     | [a; b; c] => ret (a, [b; c])
     | _ => raise (ValueError "Unexpected number of arguments passed to rect()")
     end ;;
   st <- get ;;
   let mode := or_default mode (_rect_mode st) in
   '(corner, width, height) <-
     (if mode_eq mode "CORNER" then
        let corner := coordinate in
        '(width, height) <- lift (unpack2 args) ;;
        ret (corner, width, height)
      else if mode_eq mode "CENTER" then
        center <- lift (Point_star coordinate) ;;
        '(width, height) <- lift (unpack2 args) ;;
        w <- lift (as_num width) ;;
        h <- lift (as_num height) ;;
        let corner := mkPoint (p_x center - w / 2) (p_y center - h / 2) (p_z center) in
        ret (Point_val corner, width, height)
      else if mode_eq mode "RADIUS" then
        center <- lift (Point_star coordinate) ;;
        '(half_width, half_height) <- lift (unpack2 args) ;;
        hw <- lift (as_num half_width) ;;
        hh <- lift (as_num half_height) ;;
        let corner := mkPoint (p_x center - hw) (p_y center - hh) (p_z center) in
        let width := 2 * hw in
        let height := 2 * hh in
        ret (Point_val corner, Num width, Num height)
      else if mode_eq mode "CORNERS" then
        corner <- lift (Point_star coordinate) ;;
        corner_2 <- lift (unpack1 args) ;;
        corner_2 <- lift (Point_star corner_2) ;;
        let width := p_x corner_2 - p_x corner in
        let height := p_y corner_2 - p_y corner in
        ret (Point_val corner, Num width, Num height)
      else
        raise (ValueError ("Unknown rect mode " ++ show_mode mode)%string)) ;;
   p1 <- lift (Point_star corner) ;;
   width <- lift (as_num width) ;;
   let p2 := mkPoint (p_x p1 + width) (p_y p1) (p_z p1) in
   height <- lift (as_num height) ;;
   let p3 := mkPoint (p_x p2) (p_y p2 + height) (p_z p2) in
   let p4 := mkPoint (p_x p1) (p_y p3) (p_z p3) in
   quad [Point_val p1; Point_val p2; Point_val p3; Point_val p4])%py.

(** [square( *args, mode=None )] *)
Definition square (args : list pyval) (mode : pymode) : M PShape :=
  ('(coordinate, side_length) <-
     match args with
     | [a; b] => ret (a, b)
     | [a; b; c] => ret (Tup [a; b], c)
     | _ => raise (ValueError "Unexpected number of arguments passed to square()")
     end ;;
   st <- get ;;
   let mode := or_default mode (_rect_mode st) in
   if mode_eq mode "CORNERS"
   then raise (ValueError "Cannot draw square with CORNERS mode")
   else rect [coordinate; side_length; side_length] mode)%py.

(** [rect_mode(mode='CORNER')] *)
Definition rect_mode (mode : pymode) : M unit :=
  (st <- get ;;
   put (mkState mode (_ellipse_mode st) (renderer st)
                (bezier_resolution st) (curve_resolution st)))%py.

(** ** Arcs, ellipses and circles *)

(** [arc( *args, mode=None, ellipse_mode=None )] *)
Definition arc (args : list pyval) (mode : pymode) (ellipse_mode : pymode)
  : M PShape :=
  _draw_on_return
    ('(coordinate, width, height, start_angle, stop_angle) <-
       match args with
       | [a; b; c; d; e] => ret (a, b, c, d, e)
       | [a; b; c; d; e; f] => ret (Tup [a; b], c, d, e, f)
       | _ => raise (ValueError "Unexpected number of arguments passed to arc()")
       end ;;
     st <- get ;;
     let emode := or_default ellipse_mode (_ellipse_mode st) in
     '(center, dim) <-
       (if mode_eq emode "CORNER" then
          corner <- lift (Point_star coordinate) ;;
          w <- lift (as_num width) ;;
          h <- lift (as_num height) ;;
          let dim := mkPoint (w / 2) (h / 2) 0 in
          let center := mkPoint (p_x corner + p_x dim) (p_y corner + p_y dim)
                                (p_z corner) in
          ret (center, dim)
        else if mode_eq emode "CENTER" then
          center <- lift (Point_star coordinate) ;;
          w <- lift (as_num width) ;;
          h <- lift (as_num height) ;;
          let dim := mkPoint (w / 2) (h / 2) 0 in
          ret (center, dim)
        else if mode_eq emode "RADIUS" then
          center <- lift (Point_star coordinate) ;;
          w <- lift (as_num width) ;;
          h <- lift (as_num height) ;;
          let dim := mkPoint w h 0 in
          ret (center, dim)
        else
          raise (ValueError ("Unknown arc mode " ++ show_mode emode)%string)) ;;
     start_angle <- lift (as_num start_angle) ;;
     stop_angle <- lift (as_num stop_angle) ;;
     Arc center dim start_angle stop_angle mode)%py.

(** [ellipse( *args, mode=None )] *)
Definition ellipse (args : list pyval) (mode : pymode) : M PShape :=
  ('(coordinate, args) <-
     match args with
     | [a; b; c] => ret (a, [b; c])
     | [a; b; c; d] => ret (Tup [a; b], [c; d])
     | _ => raise (ValueError "Unexpected number of arguments passed to ellipse()")
     end ;;
   st <- get ;;
   let mode := or_default mode (_ellipse_mode st) in
   '(width, height, mode) <-
     (if mode_eq mode "CORNERS" then
        corner <- lift (Point_star coordinate) ;;
        corner_2 <- lift (unpack1 args) ;;
        corner_2 <- lift (Point_star corner_2) ;;
        let width := p_x corner_2 - p_x corner in
        let height := p_y corner_2 - p_y corner in
        ret (Num width, Num height, Some "CORNER")
      else
        '(width, height) <- lift (unpack2 args) ;;
        ret (width, height, mode)) ;;
   arc [coordinate; width; height; Num 0; Num (PI * 2)] (Some "CHORD") mode)%py.

(** [circle( *args, mode=None )] *)
Definition circle (args : list pyval) (mode : pymode) : M PShape :=
  ('(coordinate, radius) <-
     match args with
     | [a; b] => ret (a, b)
     | [a; b; c] => ret (Tup [a; b], c)
     | _ => raise (ValueError "Unexpected number of arguments passed to circle()")
     end ;;
   st <- get ;;
   let mode := or_default mode (_ellipse_mode st) in
   if mode_eq mode "CORNERS"
   then raise (ValueError "Cannot create circle in CORNERS mode")
   else ellipse [coordinate; radius; radius] mode)%py.

(** [ellipse_mode(mode='CENTER')] *)
Definition ellipse_mode (mode : pymode) : M unit :=
  (st <- get ;;
   put (mkState (_rect_mode st) mode (renderer st)
                (bezier_resolution st) (curve_resolution st)))%py.

(** ** Points *)

(** [point(x, y, z=0)].  The [SQUARE] branch is [pass]: like a stroke cap
    that matches no branch, it falls through to the final [raise]. *)
Definition point (x y z : pyval) : M PShape :=
  (st <- get ;;
   let cap := stroke_cap (renderer st) in
   let weight := stroke_weight (renderer st) in
   returned <-
     (if cap_eq cap SQUARE then ret None
      else if cap_eq cap PROJECT then
        s <- square [Tup [x; y; z]; Num weight] (Some "CENTER") ;; ret (Some s)
      else if cap_eq cap ROUND then
        s <- circle [Tup [x; y; z]; Num (weight / 2)] (Some "CENTER") ;; ret (Some s)
      else ret None) ;;
   match returned with
   | Some s => ret s
   | None => raise (ValueError "Unknown stroke_cap value")
   end)%py.

End Primitives.

(** ** create_shape

    The keyword arguments of a call, restricted to the two keywords the
    constructors of this file declare: each is absent ([None]) or present
    with a value.  A keyword a constructor does not declare is a
    [TypeError], raised when the call is bound, before its body runs. *)
Record kwargs : Type := mkKwargs {
  kw_mode : option pymode;
  kw_ellipse_mode : option pymode
}.

Definition no_kwargs : kwargs := mkKwargs None None.

(** The value a keyword parameter with default [None] receives. *)
Definition kw_value (kw : option pymode) : pymode :=
  match kw with
  | Some v => v
  | None => None
  end.

Definition kw_absent (kw : option pymode) : bool :=
  match kw with
  | Some _ => false
  | None => true
  end.

(** The outcome of [create_shape]: the dictionary lookup fails with a
    KeyError, or the function found is called. *)
Inductive created : Type :=
| KeyError
| Called (out : result PShape * State).

Section CreateShape.

Variable SINCOS : list (R * R).

(** [PShape()], the generic shape of [empty_shape].  [PShape] is not part
    of the file, so the shape it builds without arguments is a parameter. *)
Variable generic_shape : PShape.

(** [shape_map], as an association list from kind to the call
    [f( *args, **kwargs )]. *)
Definition shape_map : list (pymode * (list pyval -> kwargs -> M PShape)) :=
  [ (Some "arc",
     fun args kw => arc SINCOS args (kw_value (kw_mode kw))
                        (kw_value (kw_ellipse_mode kw)));
    (Some "circle",
     fun args kw => if kw_absent (kw_ellipse_mode kw)
                    then circle SINCOS args (kw_value (kw_mode kw))
                    else raise TypeError);
    (Some "ellipse",
     fun args kw => if kw_absent (kw_ellipse_mode kw)
                    then ellipse SINCOS args (kw_value (kw_mode kw))
                    else raise TypeError);
    (Some "line",
     fun args kw => if kw_absent (kw_mode kw) && kw_absent (kw_ellipse_mode kw)
                    then line args
                    else raise TypeError);
    (Some "point",
     fun args kw => if kw_absent (kw_mode kw) && kw_absent (kw_ellipse_mode kw)
                    then match args with
                         | [x; y] => point SINCOS x y (Num 0)
                         | [x; y; z] => point SINCOS x y z
                         | _ => raise TypeError
                         end
                    else raise TypeError);
    (Some "quad",
     fun args kw => if kw_absent (kw_mode kw) && kw_absent (kw_ellipse_mode kw)
                    then quad args
                    else raise TypeError);
    (Some "rect",
     fun args kw => if kw_absent (kw_ellipse_mode kw)
                    then rect args (kw_value (kw_mode kw))
                    else raise TypeError);
    (Some "square",
     fun args kw => if kw_absent (kw_ellipse_mode kw)
                    then square args (kw_value (kw_mode kw))
                    else raise TypeError);
    (Some "triangle",
     fun args kw => if kw_absent (kw_mode kw) && kw_absent (kw_ellipse_mode kw)
                    then triangle args
                    else raise TypeError);
    (None, fun _ _ => ret generic_shape) ].

Definition kind_eqb (a b : pymode) : bool :=
  match a, b with
  | Some s, Some s' => String.eqb s s'
  | None, None => true
  | _, _ => false
  end.

(** [shape_map[kind]] *)
Fixpoint lookup_kind (kind : pymode)
         (entries : list (pymode * (list pyval -> kwargs -> M PShape)))
  : option (list pyval -> kwargs -> M PShape) :=
  match entries with
  | [] => None
  | (k, f) :: rest => if kind_eqb kind k then Some f else lookup_kind kind rest
  end.

(** [create_shape(kind=None, *args, **kwargs)] *)
Definition create_shape (kind : pymode) (args : list pyval) (kw : kwargs)
           (st : State) : created :=
  match lookup_kind kind shape_map with
  | Some f => Called (f args kw st)
  | None => KeyError
  end.

End CreateShape.

(** The kinds [create_shape] knows. *)
Definition shape_kinds : list string :=
  ["arc"; "circle"; "ellipse"; "line"; "point"; "quad"; "rect"; "square"; "triangle"].

(** ** Reference notions used in the statements *)

Section Reference.
Local Open Scope R_scope.

Variable SINCOS : list (R * R).

(** The table entry selected by index [idx], reduced modulo the length. *)
Definition table_entry (idx : Z) : R * R :=
  nth (Z.to_nat (idx mod sclen SINCOS)) SINCOS (0, 0).

(** The vertex the tessellation emits for table index [idx]. *)
Definition arc_point (c1x c1y rx ry : R) (idx : Z) : vertex :=
  [c1x + rx * snd (table_entry idx); c1y + ry * fst (table_entry idx); 0].

(** The subdivision count, stride and table indices of an arc. *)
Definition arc_acc (tm : matrix) (center radii : Point) : Z :=
  point_accuracy (projected_size tm (p_x center) (p_y center) (p_x radii) (p_y radii)).

Definition arc_inc (tm : matrix) (center radii : Point) : Z :=
  sclen SINCOS / arc_acc tm center radii.

Definition angle_index (angle : R) : Z :=
  py_int ((angle / (PI * 2)) * IZR (sclen SINCOS)).

(** The indices walked from the start angle, then the stop index itself. *)
Definition arc_indices (tm : matrix) (center radii : Point)
           (start_angle stop_angle : R) : list Z :=
  range_list (angle_index start_angle) (angle_index stop_angle)
             (arc_inc tm center radii)
  ++ [angle_index stop_angle].

(** The vertices on the ellipse itself: one per walked index. *)
Definition arc_body (tm : matrix) (center radii : Point)
           (start_angle stop_angle : R) : list vertex :=
  map (arc_point (p_x center) (p_y center) (p_x radii) (p_y radii))
      (arc_indices tm center radii start_angle stop_angle).

(** The fan origin placed before the body, and the closing vertex after it. *)
Definition arc_prefix (center : Point) (mode : pymode) : list vertex :=
  if is_pie_or_unset mode then [[p_x center; p_y center; 0]] else [].

Definition arc_closure (first : vertex) (mode : pymode) : list vertex :=
  if is_chord_or_pie mode then [first] else [].

Definition arc_vertices (tm : matrix) (center radii : Point)
           (start_angle stop_angle : R) (mode : pymode) : list vertex :=
  let open := arc_prefix center mode ++ arc_body tm center radii start_angle stop_angle in
  open ++ arc_closure (hd [] open) mode.

End Reference.

(** The point of the ellipse with centre [center] and radii [radii] at the
    angle of table index [idx] in a table of [n] entries per turn. *)
Definition ellipse_point (n : nat) (center radii : Point) (idx : Z) : vertex :=
  [(p_x center + p_x radii * cos (2 * PI * IZR idx / INR n))%R;
   (p_y center + p_y radii * sin (2 * PI * IZR idx / INR n))%R;
   0%R].


(** [ceil(a / b)] for positive [b]. *)
Definition ceil_div (a b : Z) : Z := (a + b - 1) / b.

(** A closed polygon of a full turn, as [ellipse] and [circle] return it:
    tessellated, childless, first vertex equal to the last, and a vertex
    count fixed by the table length and a subdivision count [acc]. *)
Definition closed_full_turn (SINCOS : list (R * R)) (sh : PShape) : Prop :=
  shape_type sh = Some TESS /\
  children sh = [] /\
  hd [] (vertices sh) = last (vertices sh) [] /\
  exists acc : Z,
    (20 <= acc <= 200)%Z /\ (acc <= sclen SINCOS)%Z /\
    Z.of_nat (List.length (vertices sh))
    = (ceil_div (sclen SINCOS) (sclen SINCOS / acc) + 2)%Z /\
    (acc + 2 <= Z.of_nat (List.length (vertices sh)) <= 2 * acc + 1)%Z.

(** A renderer that has drawn nothing yet. *)
Definition fresh_renderer (tm : matrix) (cap : StrokeCap) (weight : R) : Renderer :=
  mkRenderer tm cap weight [].

(** A sketch state as the module is loaded: default modes, nothing drawn,
    curve resolutions of 20 steps. *)
Definition sketch_state (tm : matrix) (cap : StrokeCap) (weight : R) : State :=
  initial_state (fresh_renderer tm cap weight) 20 20.

(** The coordinate modes named by the documentation. *)
Definition recognized_mode (m : pymode) : Prop :=
  In m [Some "CORNER"; Some "CENTER"; Some "RADIUS"; Some "CORNERS"].

(** The evaluator accepts the control points at every parameter. *)
Definition accepts (evaluate : R -> result (list R)) : Prop :=
  forall t : R, exists p : list R, evaluate t = Ok p.

(** [sh] is the polyline of [evaluate] sampled at [i / steps] for
    [i = 0 .. steps]; each vertex is the slice [p[:3]] of the evaluated
    point [p], which is [p] itself when [p] has at most three components. *)
Definition sampled_polyline (evaluate : R -> result (list R)) (steps : Z)
           (sh : PShape) : Prop :=
  shape_type sh = Some LINE_STRIP /\
  Z.of_nat (List.length (vertices sh)) = steps + 1 /\
  (forall i : Z, 0 <= i <= steps ->
     exists p : list R,
       evaluate (IZR i / IZR steps)%R = Ok p /\
       nth_error (vertices sh) (Z.to_nat i) = Some (firstn 3 p) /\
       ((List.length p <= 3)%nat -> firstn 3 p = p)) /\
  (exists p0 : list R,
     evaluate 0%R = Ok p0 /\ hd_error (vertices sh) = Some (firstn 3 p0)) /\
  (exists p1 : list R,
     evaluate 1%R = Ok p1 /\ last (vertices sh) [] = firstn 3 p1).

(** The call returns, having rendered it once, the polyline of [evaluate]
    sampled with [steps] steps. *)
Definition returns_sampled (call : M PShape) (evaluate : R -> result (list R))
           (steps : Z) (st : State) : Prop :=
  exists sh : PShape,
    call st = (Ok sh, after_render sh st) /\
    sampled_polyline evaluate steps sh.

(** ** Sample evaluators

    Modelled from the spec: [curves.bezier_point] and [curves.curve_point]
    are not part of the file.  The specification describes the classic
    cubic Bezier blend of (start, control_1, control_2, stop) and the cubic
    Catmull-Rom blend of four consecutive points; these instances are used
    to run [bezier] and [curve] on concrete inputs. *)

Definition blend (w0 w1 w2 w3 : R) (p0 p1 p2 p3 : Point) : list R :=
  [(w0 * p_x p0 + w1 * p_x p1 + w2 * p_x p2 + w3 * p_x p3)%R;
   (w0 * p_y p0 + w1 * p_y p1 + w2 * p_y p2 + w3 * p_y p3)%R;
   (w0 * p_z p0 + w1 * p_z p1 + w2 * p_z p2 + w3 * p_z p3)%R].

Definition cubic_bezier_point (start control_1 control_2 stop : pyval) (t : R)
  : result (list R) :=
  (p0 <- Point_star start ;;
   p1 <- Point_star control_1 ;;
   p2 <- Point_star control_2 ;;
   p3 <- Point_star stop ;;
   let t_ := (1 - t)%R in
   Ok (blend (t_ * t_ * t_) (3 * t * t_ * t_) (3 * t * t * t_) (t * t * t)
             p0 p1 p2 p3))%res.

Definition catmull_rom_point (point_1 point_2 point_3 point_4 : pyval) (t : R)
  : result (list R) :=
  (p0 <- Point_star point_1 ;;
   p1 <- Point_star point_2 ;;
   p2 <- Point_star point_3 ;;
   p3 <- Point_star point_4 ;;
   Ok (blend ((- t + 2 * t * t - t * t * t) / 2)
             ((2 - 5 * t * t + 3 * t * t * t) / 2)
             ((t + 4 * t * t - 3 * t * t * t) / 2)
             ((- t * t + t * t * t) / 2)
             p0 p1 p2 p3))%res.

(** ** Reference notions for drawing

    The shapes of a tree in the order a depth-first walk meets them, parent
    before children. *)
Fixpoint preorder (s : PShape) : list PShape :=
  match s with
  | Geometry => [Geometry]
  | Shape _ _ cs =>
      s :: (fix each (l : list PShape) : list PShape :=
              match l with
              | [] => []
              | child_shape :: l' => preorder child_shape ++ each l'
              end) cs
  end.

(** Induction over a shape and, through the list, over its children. *)
Fixpoint PShape_tree_ind (P : PShape -> Prop) (HG : P Geometry)
         (HS : forall t vs cs, Forall P cs -> P (Shape t vs cs)) (s : PShape) : P s :=
  match s with
  | Geometry => HG
  | Shape t vs cs =>
      HS t vs cs
         ((fix each (l : list PShape) : Forall P l :=
             match l with
             | [] => Forall_nil P
             | c :: l' => Forall_cons c (PShape_tree_ind P HG HS c) (each l')
             end) cs)
  end.

(** The state after the renderer has rendered the shapes of [l] in order. *)
Definition render_all (l : list PShape) (st : State) : State :=
  fold_left (fun st' s => after_render s st') l st.

(** The outcome of a constructor that draws what it returns: on success the
    returned shape has no children and the state is the one after rendering
    it once; on failure the state is untouched. *)
Definition drawn_once (st : State) (out : result PShape * State) : Prop :=
  match out with
  | (Ok sh, st') => children sh = [] /\ sh <> Geometry /\ st' = after_render sh st
  | (Raise _, st') => st' = st
  end.

(** A computation that only reads the state and yields a childless shape. *)
Definition reads_only (c : M PShape) (st : State) : Prop :=
  (exists e : exn, c st = (Raise e, st)) \/
  (exists (t : SType) (vs : list vertex), c st = (Ok (Shape t vs []), st)).

(** The state with the two module-level modes replaced. *)
Definition with_modes (rmode emode : pymode) (st : State) : State :=
  mkState rmode emode (renderer st) (bezier_resolution st) (curve_resolution st).

(** An outcome with the two module-level modes of its state replaced. *)
Definition reframe {A : Type} (rmode emode : pymode) (out : result A * State)
  : result A * State :=
  (fst out, with_modes rmode emode (snd out)).

(** * Properties *)

(** ** Integer conversion *)

Lemma py_int_nonneg (x : R) : (0 <= x)%R -> py_int x = Int_part x.
Proof.
  intros Hx. unfold py_int. destruct (Rlt_dec x 0) as [Hneg|_]; [lra|reflexivity].
Qed.

Lemma py_int_bounds (x : R) :
  (0 <= x)%R -> (IZR (py_int x) <= x < IZR (py_int x) + 1)%R.
Proof.
  intros Hx. rewrite (py_int_nonneg x Hx).
  destruct (base_Int_part x) as [Hlo Hhi]. lra.
Qed.

Lemma py_int_unique (x : R) (n : Z) :
  (IZR n <= x < IZR n + 1)%R -> 0 <= n -> py_int x = n.
Proof.
  intros [Hlo Hhi] Hn.
  assert (Hx : (0 <= x)%R) by (apply IZR_le in Hn; lra).
  rewrite (py_int_nonneg x Hx). symmetry. apply Int_part_spec. lra.
Qed.

Lemma py_int_IZR (n : Z) : py_int (IZR n) = n.
Proof.
  unfold py_int. destruct (Rlt_dec (IZR n) 0) as [Hneg|Hpos].
  - rewrite <- opp_IZR. rewrite <- (Int_part_spec (IZR (- n)) (- n)); [lia|lra].
  - symmetry. apply Int_part_spec. lra.
Qed.

Lemma py_int_ge_0 (x : R) : (0 <= x)%R -> 0 <= py_int x.
Proof.
  intros Hx. destruct (py_int_bounds x Hx) as [_ Hhi].
  assert (H : (IZR (-1) < IZR (py_int x))%R) by (simpl; lra).
  apply lt_IZR in H. lia.
Qed.

Lemma py_int_le (x y : R) : (0 <= x <= y)%R -> py_int x <= py_int y.
Proof.
  intros [Hx Hxy].
  destruct (py_int_bounds x Hx) as [Hlo _].
  destruct (py_int_bounds y (Rle_trans _ _ _ Hx Hxy)) as [_ Hhi].
  assert (H : (IZR (py_int x) < IZR (py_int y + 1))%R) by (rewrite plus_IZR; lra).
  apply lt_IZR in H. lia.
Qed.

Lemma py_int_ge (x : R) (n : Z) : (IZR n <= x)%R -> 0 <= n -> n <= py_int x.
Proof.
  intros Hn Hn0.
  assert (Hx : (0 <= x)%R) by (apply IZR_le in Hn0; lra).
  rewrite <- (py_int_IZR n). apply py_int_le. split; [|exact Hn].
  apply IZR_le in Hn0. exact Hn0.
Qed.

Lemma py_int_lt (x : R) (n : Z) : (0 <= x < IZR n)%R -> py_int x < n.
Proof.
  intros [Hx Hn].
  destruct (py_int_bounds x Hx) as [Hlo _].
  assert (H : (IZR (py_int x) < IZR n)%R) by lra.
  apply lt_IZR in H. exact H.
Qed.

(** [int(a / b)] on non-negative integers is the integer quotient. *)
Lemma py_int_div (a b : Z) : 0 <= a -> 0 < b -> py_int (IZR a / IZR b) = a / b.
Proof.
  intros Ha Hb.
  assert (HbR : (0 < IZR b)%R) by (apply IZR_lt in Hb; exact Hb).
  apply py_int_unique; [|apply Z.div_pos; lia].
  pose proof (Z.mul_div_le a b Hb) as Hlo.
  pose proof (Z.mul_succ_div_gt a b Hb) as Hhi.
  apply IZR_le in Hlo. apply IZR_lt in Hhi.
  rewrite mult_IZR in Hlo. rewrite mult_IZR, succ_IZR in Hhi.
  split.
  - apply (Rmult_le_reg_l (IZR b)); [exact HbR|].
    replace (IZR b * (IZR a / IZR b))%R with (IZR a) by (field; lra). exact Hlo.
  - apply (Rmult_lt_reg_l (IZR b)); [exact HbR|].
    replace (IZR b * (IZR a / IZR b))%R with (IZR a) by (field; lra). exact Hhi.
Qed.

(** ** Ranges and indexing *)

Lemma py_range_pos (start stop step : Z) :
  0 < step -> py_range start stop step = Ok (range_list start stop step).
Proof.
  intros Hstep. unfold py_range.
  destruct (Z.eqb_spec step 0) as [H0|_]; [lia|reflexivity].
Qed.

Lemma range_len_pos (start stop step : Z) :
  0 < step -> range_len start stop step = Z.to_nat (ceil_div (stop - start) step).
Proof.
  intros Hstep. unfold range_len, ceil_div.
  destruct (Z.ltb_spec 0 step) as [_|H]; [reflexivity|lia].
Qed.

Lemma range_list_length (start stop step : Z) :
  0 < step ->
  List.length (range_list start stop step) = Z.to_nat (ceil_div (stop - start) step).
Proof.
  intros Hstep. unfold range_list.
  rewrite length_map, length_seq. apply range_len_pos. exact Hstep.
Qed.

Lemma range_list_empty (start stop step : Z) :
  0 < step -> stop <= start -> range_list start stop step = [].
Proof.
  intros Hstep Hle. unfold range_list.
  rewrite (range_len_pos _ _ _ Hstep). unfold ceil_div.
  assert (Hq : (stop - start + step - 1) / step <= 0).
  { apply Z.lt_succ_r. apply Z.div_lt_upper_bound; lia. }
  replace (Z.to_nat ((stop - start + step - 1) / step)) with 0%nat by lia.
  reflexivity.
Qed.

Lemma range_list_unit_length (n : Z) :
  List.length (range_list 0 n 1) = Z.to_nat n.
Proof.
  rewrite range_list_length by lia. unfold ceil_div.
  rewrite Z.div_1_r. f_equal. lia.
Qed.

Lemma range_list_unit_nth (n : Z) (i : nat) :
  Z.of_nat i < n -> nth_error (range_list 0 n 1) i = Some (Z.of_nat i).
Proof.
  intros Hi. unfold range_list.
  rewrite (range_len_pos 0 n 1) by lia. unfold ceil_div.
  rewrite Z.div_1_r, nth_error_map, nth_error_seq.
  destruct (Nat.ltb_spec i (Z.to_nat (n - 0 + 1 - 1))) as [_|H]; [|lia].
  cbn [option_map Nat.add]. f_equal. lia.
Qed.

Lemma py_getitem_nth {A : Type} (l : list A) (i : Z) (d : A) :
  0 <= i < Z.of_nat (List.length l) ->
  py_getitem l i = Ok (nth (Z.to_nat i) l d).
Proof.
  intros [Hlo Hhi]. unfold py_getitem.
  destruct (Z.ltb_spec i 0) as [H|_]; [lia|].
  destruct (Z.ltb_spec i 0) as [H|_]; [lia|].
  destruct (Z.leb_spec (Z.of_nat (List.length l)) i) as [H|_]; [lia|].
  simpl. destruct (nth_error l (Z.to_nat i)) as [a|] eqn:E.
  - rewrite (nth_error_nth _ _ d E). reflexivity.
  - apply nth_error_None in E. lia.
Qed.

(** ** The tessellation loop *)

Section TessellationFacts.
Local Open Scope R_scope.

Variable SINCOS : list (R * R).

Lemma arc_vertex_total (c1x c1y rx ry : R) (idx : Z) :
  (0 < sclen SINCOS)%Z ->
  arc_vertex SINCOS c1x c1y rx ry idx = Ok (arc_point SINCOS c1x c1y rx ry idx).
Proof.
  intros Hlen. unfold arc_vertex, arc_point, table_entry, py_mod.
  destruct (Z.eqb_spec (sclen SINCOS) 0) as [H0|_]; [lia|].
  cbn [rbind].
  rewrite (py_getitem_nth SINCOS _ (0, 0)).
  - reflexivity.
  - unfold sclen in *. apply Z.mod_pos_bound. exact Hlen.
Qed.

Lemma tess_loop_total (c1x c1y rx ry : R) (idxs : list Z) (vs : list vertex) :
  (0 < sclen SINCOS)%Z ->
  tess_loop SINCOS c1x c1y rx ry idxs vs
  = Ok (vs ++ map (arc_point SINCOS c1x c1y rx ry) idxs).
Proof.
  intros Hlen. revert vs.
  induction idxs as [|idx rest IH]; intros vs; cbn [tess_loop map].
  - rewrite app_nil_r. reflexivity.
  - rewrite (arc_vertex_total _ _ _ _ _ Hlen). cbn [rbind].
    rewrite IH, <- app_assoc. reflexivity.
Qed.

Lemma point_accuracy_range (size : R) :
  (MIN_POINT_ACCURACY <= point_accuracy size <= MAX_POINT_ACCURACY)%Z.
Proof. unfold point_accuracy, MIN_POINT_ACCURACY, MAX_POINT_ACCURACY. lia. Qed.

Lemma arc_acc_range (tm : matrix) (center radii : Point) :
  (20 <= arc_acc tm center radii <= 200)%Z.
Proof. apply point_accuracy_range. Qed.

Lemma arc_inc_pos (tm : matrix) (center radii : Point) :
  (MAX_POINT_ACCURACY <= sclen SINCOS)%Z ->
  (0 < arc_inc SINCOS tm center radii)%Z.
Proof.
  intros Hlen. unfold arc_inc, MAX_POINT_ACCURACY in *.
  pose proof (arc_acc_range tm center radii) as Hacc.
  apply Z.div_str_pos. lia.
Qed.

(** With a table of at least [MAX_POINT_ACCURACY] entries the tessellation
    returns, whatever the angles, and yields [arc_vertices]. *)
Lemma Arc__tessellate_total (tm : matrix) (center radii : Point)
      (start_angle stop_angle : R) (mode : pymode) :
  (MAX_POINT_ACCURACY <= sclen SINCOS)%Z ->
  Arc__tessellate SINCOS tm center radii start_angle stop_angle mode
  = Ok (arc_vertices SINCOS tm center radii start_angle stop_angle mode).
Proof.
  intros Hlen.
  pose proof (arc_inc_pos tm center radii Hlen) as Hinc.
  pose proof (arc_acc_range tm center radii) as Hacc.
  assert (Hpos : (0 < sclen SINCOS)%Z) by (unfold MAX_POINT_ACCURACY in Hlen; lia).
  unfold Arc__tessellate.
  fold (arc_acc tm center radii).
  rewrite (py_int_div (sclen SINCOS) (arc_acc tm center radii)) by lia.
  fold (arc_inc SINCOS tm center radii).
  fold (angle_index SINCOS start_angle) (angle_index SINCOS stop_angle).
  rewrite (py_range_pos _ _ _ Hinc). cbn [rbind].
  rewrite (tess_loop_total _ _ _ _ _ _ Hpos). cbn [rbind].
  rewrite (arc_vertex_total _ _ _ _ _ Hpos). cbn [rbind].
  unfold arc_vertices, arc_closure, arc_body, arc_indices, arc_prefix.
  rewrite map_app. cbn [map]. rewrite app_assoc.
  set (vs := (_ ++ _) ++ [_]).
  destruct (is_chord_or_pie mode); [|rewrite app_nil_r; reflexivity].
  rewrite (py_getitem_nth vs 0%Z []).
  - cbn [rbind]. destruct vs; reflexivity.
  - subst vs. rewrite !length_app. cbn [List.length]. lia.
Qed.

(** The constructor: topology tag from the closure mode, vertices from the
    tessellation, no children; the state is only read. *)
Lemma Arc_run (center radii : Point) (start_angle stop_angle : R)
      (mode : pymode) (st : State) :
  (MAX_POINT_ACCURACY <= sclen SINCOS)%Z ->
  Arc SINCOS center radii start_angle stop_angle mode st
  = (Ok (Shape (if is_open_or_chord mode then TESS else TRIANGLE_FAN)
               (arc_vertices SINCOS (transform_matrix (renderer st))
                             center radii start_angle stop_angle mode) []),
     st).
Proof.
  intros Hlen. unfold Arc, bind, get, lift, ret.
  rewrite (Arc__tessellate_total _ _ _ _ _ _ Hlen). reflexivity.
Qed.

End TessellationFacts.

(** ** Closure modes *)

Lemma mode_eq_true (m : pymode) (s : string) : mode_eq m s = true <-> m = Some s.
Proof.
  destruct m as [s'|]; cbn [mode_eq].
  - rewrite String.eqb_eq. split; [intros ->; reflexivity|intros [= ->]; reflexivity].
  - split; discriminate.
Qed.

Lemma is_open_or_chord_true (m : pymode) :
  is_open_or_chord m = true <-> m = Some "OPEN" \/ m = Some "CHORD".
Proof. unfold is_open_or_chord. rewrite orb_true_iff, !mode_eq_true. tauto. Qed.

Lemma is_chord_or_pie_true (m : pymode) :
  is_chord_or_pie m = true <-> m = Some "CHORD" \/ m = Some "PIE".
Proof. unfold is_chord_or_pie. rewrite orb_true_iff, !mode_eq_true. tauto. Qed.

Lemma is_pie_or_unset_true (m : pymode) :
  is_pie_or_unset m = true <-> m = Some "PIE" \/ m = None.
Proof.
  unfold is_pie_or_unset. rewrite orb_true_iff, mode_eq_true.
  destruct m; split; intros [H|H]; auto; discriminate.
Qed.

Lemma sclen_sincos_table (n : nat) : sclen (sincos_table n) = Z.of_nat n.
Proof. unfold sclen, sincos_table. rewrite length_map, length_seq. reflexivity. Qed.

(** ** Drawing *)

Lemma draw_shape_leaf (t : SType) (vs : list vertex) (st : State) :
  draw_shape (Shape t vs []) st = (Ok tt, after_render (Shape t vs []) st).
Proof. reflexivity. Qed.

Lemma draw_on_return_ok (func : M PShape) (st st' : State)
      (t : SType) (vs : list vertex) :
  func st = (Ok (Shape t vs []), st') ->
  _draw_on_return func st = (Ok (Shape t vs []), after_render (Shape t vs []) st').
Proof. intros H. unfold _draw_on_return, bind. rewrite H. reflexivity. Qed.

Lemma draw_on_return_raise (func : M PShape) (st st' : State) (e : exn) :
  func st = (Raise e, st') -> _draw_on_return func st = (Raise e, st').
Proof. intros H. unfold _draw_on_return, bind. rewrite H. reflexivity. Qed.

(** ** Arc: topology tag, fan origin and closing vertex *)

(** C5.  For every arc, built over a table of at least 200 entries: the
    topology tag is TESS (tessellated polygon) exactly when the closure mode
    is OPEN or CHORD and TRIANGLE_FAN otherwise; the vertex list is a prefix,
    the vertices on the ellipse and a closure, where the prefix is the centre
    exactly when the mode is PIE or unset (and empty otherwise), and the
    closure is the first vertex again exactly when the mode is CHORD or PIE
    (and empty otherwise). *)
Theorem Arc_topology_and_closure (SINCOS : list (R * R)) (center radii : Point)
        (start_angle stop_angle : R) (mode : pymode) (st : State) :
  MAX_POINT_ACCURACY <= sclen SINCOS ->
  exists (sh : PShape) (prefix closure : list vertex),
    Arc SINCOS center radii start_angle stop_angle mode st = (Ok sh, st) /\
    (shape_type sh = Some TESS <-> mode = Some "OPEN" \/ mode = Some "CHORD") /\
    (shape_type sh = Some TRIANGLE_FAN
     <-> ~ (mode = Some "OPEN" \/ mode = Some "CHORD")) /\
    vertices sh
    = prefix
      ++ arc_body SINCOS (transform_matrix (renderer st)) center radii
                  start_angle stop_angle
      ++ closure /\
    arc_body SINCOS (transform_matrix (renderer st)) center radii
             start_angle stop_angle <> [] /\
    (prefix = [[p_x center; p_y center; 0%R]] <-> mode = Some "PIE" \/ mode = None) /\
    (prefix = [] <-> ~ (mode = Some "PIE" \/ mode = None)) /\
    (closure = [hd [] (vertices sh)] <-> mode = Some "CHORD" \/ mode = Some "PIE") /\
    (closure = [] <-> ~ (mode = Some "CHORD" \/ mode = Some "PIE")).
Proof.
  intros Hlen.
  set (tm := transform_matrix (renderer st)).
  exists (Shape (if is_open_or_chord mode then TESS else TRIANGLE_FAN)
                (arc_vertices SINCOS tm center radii start_angle stop_angle mode) []),
         (arc_prefix center mode),
         (arc_closure
            (hd [] (arc_prefix center mode
                    ++ arc_body SINCOS tm center radii start_angle stop_angle))
            mode).
  assert (Hbody : arc_body SINCOS tm center radii start_angle stop_angle <> []).
  { unfold arc_body, arc_indices. rewrite map_app. cbn [map].
    intros H. apply app_eq_nil in H. destruct H as [_ H]. discriminate H. }
  assert (Hhd : hd [] (arc_vertices SINCOS tm center radii start_angle stop_angle mode)
                = hd [] (arc_prefix center mode
                         ++ arc_body SINCOS tm center radii start_angle stop_angle)).
  { unfold arc_vertices. cbv zeta.
    destruct (arc_prefix center mode
              ++ arc_body SINCOS tm center radii start_angle stop_angle) eqn:E.
    - apply app_eq_nil in E. destruct E as [_ E]. contradiction.
    - reflexivity. }
  split; [apply Arc_run; exact Hlen|].
  cbn [shape_type vertices].
  pose proof (is_open_or_chord_true mode) as Hoc.
  pose proof (is_pie_or_unset_true mode) as Hpu.
  pose proof (is_chord_or_pie_true mode) as Hcp.
  rewrite Hhd. unfold arc_prefix, arc_closure in *.
  repeat split.
  - destruct (is_open_or_chord mode); [intros _; apply Hoc; reflexivity|discriminate].
  - intros H. destruct (is_open_or_chord mode); [reflexivity|].
    apply Hoc in H. discriminate H.
  - destruct (is_open_or_chord mode); [discriminate|].
    intros _ H. apply Hoc in H. discriminate H.
  - intros H. destruct (is_open_or_chord mode); [|reflexivity].
    exfalso. apply H, Hoc. reflexivity.
  - unfold arc_vertices, arc_prefix, arc_closure. cbv zeta.
    rewrite <- app_assoc. reflexivity.
  - exact Hbody.
  - destruct (is_pie_or_unset mode); [intros _; apply Hpu; reflexivity|discriminate].
  - intros H. apply Hpu in H. rewrite H. reflexivity.
  - destruct (is_pie_or_unset mode); [discriminate|].
    intros _ H. apply Hpu in H. discriminate H.
  - intros H. destruct (is_pie_or_unset mode); [|reflexivity].
    exfalso. apply H, Hpu. reflexivity.
  - destruct (is_chord_or_pie mode); [intros _; apply Hcp; reflexivity|discriminate].
  - intros H. apply Hcp in H. rewrite H. reflexivity.
  - destruct (is_chord_or_pie mode); [discriminate|].
    intros _ H. apply Hcp in H. discriminate H.
  - intros H. destruct (is_chord_or_pie mode); [|reflexivity].
    exfalso. apply H, Hcp. reflexivity.
Qed.

Lemma Arc_topology_and_closure_witness :
  MAX_POINT_ACCURACY <= sclen (sincos_table 3600) /\
  exists sh : PShape,
    fst (Arc (sincos_table 3600) (mkPoint 0 0 0) (mkPoint 1 1 0) 0%R PI (Some "PIE")
             (sketch_state identity_matrix ROUND 1))
    = Ok sh /\
    shape_type sh = Some TRIANGLE_FAN /\
    hd [] (vertices sh) = [0%R; 0%R; 0%R].
Proof.
  assert (Hlen : MAX_POINT_ACCURACY <= sclen (sincos_table 3600)).
  { rewrite sclen_sincos_table. unfold MAX_POINT_ACCURACY. lia. }
  split; [exact Hlen|].
  destruct (Arc_topology_and_closure (sincos_table 3600) (mkPoint 0 0 0)
              (mkPoint 1 1 0) 0%R PI (Some "PIE")
              (sketch_state identity_matrix ROUND 1) Hlen)
    as (sh & prefix & closure & Hrun & _ & Hfan & Hvs & _ & Hpre & _).
  exists sh. split; [rewrite Hrun; reflexivity|]. split.
  - apply Hfan. intros [H|H]; discriminate H.
  - rewrite Hvs. destruct Hpre as [_ Hpre]. rewrite Hpre; [reflexivity|].
    left; reflexivity.
Defined.

(** ** Full turns: ellipses and circles *)

Lemma ceil_div_spec (a b : Z) :
  0 < b -> b * (ceil_div a b - 1) < a <= b * ceil_div a b.
Proof.
  intros Hb. unfold ceil_div.
  pose proof (Z.mul_div_le (a + b - 1) b Hb).
  pose proof (Z.mul_succ_div_gt (a + b - 1) b Hb).
  lia.
Qed.

(** The number of strides of a full turn, for a stride [L / acc]. *)
Lemma stride_count_bounds (L acc : Z) :
  0 < acc <= L ->
  acc <= ceil_div L (L / acc) <= 2 * acc - 1.
Proof.
  intros [Hacc HL].
  assert (Hacc' : 0 < acc) by lia.
  pose proof (Z.mul_div_le L acc Hacc') as Hlo.
  pose proof (Z.mul_succ_div_gt L acc Hacc') as Hhi.
  assert (Hinc : 0 < L / acc) by (apply Z.div_str_pos; lia).
  pose proof (ceil_div_spec L (L / acc) Hinc) as [Hc1 Hc2].
  set (inc := L / acc) in *. set (n := ceil_div L inc) in *.
  split; nia.
Qed.

Lemma stride_count_exact (L acc : Z) :
  0 < acc <= L -> L mod acc = 0 -> ceil_div L (L / acc) = acc.
Proof.
  intros [Hacc HL] Hmod.
  assert (Hinc : 0 < L / acc) by (apply Z.div_str_pos; lia).
  pose proof (Z.div_mod L acc ltac:(lia)) as Hdm. rewrite Hmod in Hdm.
  pose proof (ceil_div_spec L (L / acc) Hinc) as [Hc1 Hc2].
  set (inc := L / acc) in *. set (n := ceil_div L inc) in *.
  nia.
Qed.

Lemma stride_count_3600 (acc : Z) :
  20 <= acc <= 200 -> ceil_div 3600 (3600 / acc) <= 200.
Proof.
  intros Hacc.
  assert (Hinc : 18 <= 3600 / acc) by (apply Z.div_le_lower_bound; lia).
  pose proof (ceil_div_spec 3600 (3600 / acc) ltac:(lia)) as [Hc1 Hc2].
  set (inc := 3600 / acc) in *. set (n := ceil_div 3600 inc) in *.
  nia.
Qed.

Section FullTurn.
Local Open Scope R_scope.

Variable SINCOS : list (R * R).

Lemma angle_index_zero : angle_index SINCOS 0 = 0%Z.
Proof.
  unfold angle_index.
  replace (0 / (PI * 2) * IZR (sclen SINCOS)) with (IZR 0).
  - apply py_int_IZR.
  - unfold Rdiv. rewrite !Rmult_0_l. reflexivity.
Qed.

Lemma angle_index_full_turn : angle_index SINCOS (PI * 2) = sclen SINCOS.
Proof.
  unfold angle_index.
  replace (PI * 2 / (PI * 2) * IZR (sclen SINCOS)) with (IZR (sclen SINCOS)).
  - apply py_int_IZR.
  - field. apply PI_neq0.
Qed.

(** A CHORD arc over a full turn: one vertex per stride, the vertex at the
    stop angle, and the first vertex again. *)
Lemma full_turn_chord_length (tm : matrix) (center radii : Point) :
  (MAX_POINT_ACCURACY <= sclen SINCOS)%Z ->
  Z.of_nat (List.length (arc_vertices SINCOS tm center radii 0 (PI * 2) (Some "CHORD")))
  = (ceil_div (sclen SINCOS) (sclen SINCOS / arc_acc tm center radii) + 2)%Z.
Proof.
  intros Hlen.
  pose proof (arc_inc_pos SINCOS tm center radii Hlen) as Hinc.
  pose proof (ceil_div_spec (sclen SINCOS) _ Hinc) as [_ Hc].
  unfold arc_vertices, arc_prefix, arc_closure, arc_body, arc_indices.
  cbn [is_pie_or_unset is_chord_or_pie mode_eq String.eqb Ascii.eqb Bool.eqb orb app].
  rewrite angle_index_zero, angle_index_full_turn.
  rewrite !length_app, length_map, length_app, range_list_length by exact Hinc.
  cbn [List.length]. rewrite Z.sub_0_r. fold (arc_inc SINCOS tm center radii).
  unfold MAX_POINT_ACCURACY, arc_inc in *. nia.
Qed.

Lemma chord_first_is_last (tm : matrix) (center radii : Point)
      (start_angle stop_angle : R) :
  let vs := arc_vertices SINCOS tm center radii start_angle stop_angle (Some "CHORD") in
  hd [] vs = last vs [].
Proof.
  unfold arc_vertices, arc_prefix, arc_closure.
  cbn [is_pie_or_unset is_chord_or_pie mode_eq String.eqb Ascii.eqb Bool.eqb orb app].
  rewrite last_last.
  destruct (arc_body SINCOS tm center radii start_angle stop_angle); reflexivity.
Qed.

End FullTurn.

(** ** Running the ellipse constructors *)

Section EllipseRuns.
Local Open Scope R_scope.

Variable SINCOS : list (R * R).

Lemma arc_CENTER_run (coordinate : pyval) (c : Point) (w h a b : R)
      (mode ellipse_mode : pymode) (st : State) :
  Point_star coordinate = Ok c ->
  or_default ellipse_mode (_ellipse_mode st) = Some "CENTER" ->
  arc SINCOS [coordinate; Num w; Num h; Num a; Num b] mode ellipse_mode st
  = _draw_on_return (Arc SINCOS c (mkPoint (w / 2) (h / 2) 0) a b mode) st.
Proof.
  intros Hc Hmode. unfold arc, _draw_on_return, bind, get, ret, lift.
  rewrite Hmode, Hc. reflexivity.
Qed.

Lemma ellipse_CENTER_run (coordinate : pyval) (c : Point) (w h : R)
      (mode : pymode) (st : State) :
  Point_star coordinate = Ok c ->
  or_default mode (_ellipse_mode st) = Some "CENTER" ->
  ellipse SINCOS [coordinate; Num w; Num h] mode st
  = _draw_on_return
      (Arc SINCOS c (mkPoint (w / 2) (h / 2) 0) 0 (PI * 2) (Some "CHORD")) st.
Proof.
  intros Hc Hmode.
  rewrite <- (arc_CENTER_run coordinate c w h 0 (PI * 2) (Some "CHORD")
                             (Some "CENTER") st Hc eq_refl).
  unfold ellipse, bind, get, ret, lift. rewrite Hmode. reflexivity.
Qed.

Lemma circle_CENTER_run (coordinate : pyval) (c : Point) (d : R)
      (mode : pymode) (st : State) :
  Point_star coordinate = Ok c ->
  or_default mode (_ellipse_mode st) = Some "CENTER" ->
  circle SINCOS [coordinate; Num d] mode st
  = _draw_on_return
      (Arc SINCOS c (mkPoint (d / 2) (d / 2) 0) 0 (PI * 2) (Some "CHORD")) st.
Proof.
  intros Hc Hmode.
  rewrite <- (ellipse_CENTER_run coordinate c d d (Some "CENTER") st Hc eq_refl).
  unfold circle, bind, get, ret, lift. rewrite Hmode. reflexivity.
Qed.

(** The shape a CENTER-mode circle of diameter [d] evaluates to. *)
Lemma circle_CENTER_shape (coordinate : pyval) (c : Point) (d : R)
      (mode : pymode) (st : State) :
  (MAX_POINT_ACCURACY <= sclen SINCOS)%Z ->
  Point_star coordinate = Ok c ->
  or_default mode (_ellipse_mode st) = Some "CENTER" ->
  let sh := Shape TESS
                  (arc_vertices SINCOS (transform_matrix (renderer st)) c
                                (mkPoint (d / 2) (d / 2) 0) 0 (PI * 2) (Some "CHORD"))
                  [] in
  circle SINCOS [coordinate; Num d] mode st = (Ok sh, after_render sh st).
Proof.
  intros Hlen Hc Hmode sh.
  rewrite (circle_CENTER_run coordinate c d mode st Hc Hmode).
  apply draw_on_return_ok.
  rewrite (Arc_run SINCOS _ _ _ _ _ st Hlen). reflexivity.
Qed.

End EllipseRuns.

(** ** Projected size and subdivision count *)

Section Accuracy.
Local Open Scope R_scope.

Lemma PI_gt_3 : 3 < PI.
Proof. pose proof PI2_3_2. lra. Qed.



Lemma projected_size_scale_sq (s c1x c1y rx ry : R) :
  projected_size (scale_matrix s) c1x c1y rx ry
  = sqrt (s * s * (rx * rx + ry * ry)).
Proof.
  unfold projected_size, scale_matrix, mat_dot, row_dot, vec_sum, vec_mul, vec_sub.
  cbn [v_0 v_1 v_2 v_3 row_0 row_1 row_2 row_3]. f_equal. ring.
Qed.

Lemma projected_size_scale (s c1x c1y rx ry : R) :
  0 <= s ->
  projected_size (scale_matrix s) c1x c1y rx ry = s * sqrt (rx * rx + ry * ry).
Proof.
  intros Hs. rewrite projected_size_scale_sq.
  rewrite sqrt_mult_alt by nra. rewrite sqrt_square by exact Hs. reflexivity.
Qed.

Lemma size_acc_nonneg (size : R) :
  0 <= size -> 0 <= size * PI * 2 / IZR POINT_ACCURACY_FACTOR.
Proof.
  intros Hs. pose proof PI_RGT_0. unfold POINT_ACCURACY_FACTOR.
  apply Rmult_le_pos; [nra|lra].
Qed.



Lemma point_accuracy_low (size : R) :
  0 <= size -> size * PI * 2 / 10 < 21 -> point_accuracy size = 20%Z.
Proof.
  intros Hs Hlt. unfold point_accuracy.
  pose proof (py_int_lt (size * PI * 2 / IZR POINT_ACCURACY_FACTOR) 21) as H.
  unfold MAX_POINT_ACCURACY, MIN_POINT_ACCURACY, POINT_ACCURACY_FACTOR in *.
  assert (Hlt' : (py_int (size * PI * 2 / 10) < 21)%Z).
  { apply H. split; [apply (size_acc_nonneg size Hs)|exact Hlt]. }
  lia.
Qed.

Lemma point_accuracy_high (size : R) :
  200 <= size * PI * 2 / 10 -> point_accuracy size = 200%Z.
Proof.
  intros Hge. unfold point_accuracy.
  pose proof (py_int_ge (size * PI * 2 / IZR POINT_ACCURACY_FACTOR) 200) as H.
  unfold MAX_POINT_ACCURACY, MIN_POINT_ACCURACY, POINT_ACCURACY_FACTOR in *.
  assert (Hge' : (200 <= py_int (size * PI * 2 / 10))%Z) by (apply H; [exact Hge|lia]).
  lia.
Qed.

(** The circle of diameter 5 under the identity: 20 subdivisions. *)
Lemma circle5_identity_acc (c : Point) :
  arc_acc identity_matrix c (mkPoint (5 / 2) (5 / 2) 0) = 20%Z.
Proof.
  unfold arc_acc, identity_matrix. cbn [p_x p_y].
  rewrite projected_size_scale by lra. rewrite Rmult_1_l.
  assert (Hle : sqrt (5 / 2 * (5 / 2) + 5 / 2 * (5 / 2)) <= 4).
  { rewrite <- (sqrt_square 4) by lra. apply sqrt_le_1_alt. lra. }
  pose proof (sqrt_pos (5 / 2 * (5 / 2) + 5 / 2 * (5 / 2))) as Hpos.
  pose proof PI_4. pose proof PI_RGT_0.
  apply point_accuracy_low; [exact Hpos|]. nra.
Qed.

(** The same circle magnified 100 times: 200 subdivisions. *)
Lemma circle5_scale100_acc (c : Point) :
  arc_acc (scale_matrix 100) c (mkPoint (5 / 2) (5 / 2) 0) = 200%Z.
Proof.
  unfold arc_acc. cbn [p_x p_y].
  rewrite projected_size_scale by lra.
  assert (Hge : 7 / 2 <= sqrt (5 / 2 * (5 / 2) + 5 / 2 * (5 / 2))).
  { rewrite <- (sqrt_square (7 / 2)) by lra. apply sqrt_le_1_alt. lra. }
  pose proof PI_gt_3.
  apply point_accuracy_high. nra.
Qed.

End Accuracy.

(** ** circle((0, 0), 5) *)

(** C1, as amended.  For every current transform and every table of at least
    200 entries, [circle((0, 0), 5)] in the default CENTER mode returns (and
    draws) a tessellated shape whose first and last vertices are equal.  It
    is the subdivision count [acc] that is clamped to 20..200; the vertex
    count is [ceil(L / (L // acc)) + 2] for a table of [L] entries, which
    lies between [acc + 2] and [2 * acc + 1], is [acc + 2] when [acc]
    divides [L], and is at most 202 for the 3600-entry table.  Under the
    identity transform [acc] is 20. *)
Theorem circle_vertex_count (SINCOS : list (R * R)) (st : State) :
  MAX_POINT_ACCURACY <= sclen SINCOS ->
  _ellipse_mode st = Some "CENTER" ->
  exists (sh : PShape) (acc : Z),
    circle SINCOS [Tup [Num 0; Num 0]; Num 5] None st = (Ok sh, after_render sh st) /\
    shape_type sh = Some TESS /\
    acc = arc_acc (transform_matrix (renderer st)) (mkPoint 0 0 0)
                  (mkPoint (5 / 2) (5 / 2) 0) /\
    20 <= acc <= 200 /\
    Z.of_nat (List.length (vertices sh))
    = ceil_div (sclen SINCOS) (sclen SINCOS / acc) + 2 /\
    acc + 2 <= Z.of_nat (List.length (vertices sh)) <= 2 * acc + 1 /\
    (sclen SINCOS mod acc = 0 -> Z.of_nat (List.length (vertices sh)) = acc + 2) /\
    (sclen SINCOS = 3600 -> Z.of_nat (List.length (vertices sh)) <= 202) /\
    (transform_matrix (renderer st) = identity_matrix -> acc = 20) /\
    hd [] (vertices sh) = last (vertices sh) [].
Proof.
  intros Hlen Hmode.
  set (tm := transform_matrix (renderer st)).
  set (c := mkPoint 0 0 0). set (r := mkPoint (5 / 2) (5 / 2) 0).
  pose proof (arc_acc_range tm c r) as Hacc.
  pose proof (full_turn_chord_length SINCOS tm c r Hlen) as Hcount.
  assert (Hbounds : 0 < arc_acc tm c r <= sclen SINCOS)
    by (unfold MAX_POINT_ACCURACY in Hlen; lia).
  exists (Shape TESS (arc_vertices SINCOS tm c r 0 (PI * 2) (Some "CHORD")) []),
         (arc_acc tm c r).
  split.
  { apply (circle_CENTER_shape SINCOS (Tup [Num 0; Num 0]) c 5 None st Hlen eq_refl).
    cbn [or_default]. exact Hmode. }
  cbn [shape_type vertices]. rewrite Hcount.
  pose proof (stride_count_bounds _ _ Hbounds) as Hsb.
  repeat split; try lia.
  - intros Hmod. rewrite (stride_count_exact _ _ Hbounds Hmod). reflexivity.
  - intros H3600. rewrite H3600.
    pose proof (stride_count_3600 (arc_acc tm c r) Hacc). lia.
  - intros Hid. fold tm in Hid. rewrite Hid. apply circle5_identity_acc.
  - apply (chord_first_is_last SINCOS tm c r 0 (PI * 2))%R.
Qed.

Lemma circle_vertex_count_witness :
  MAX_POINT_ACCURACY <= sclen (sincos_table 3600) /\
  _ellipse_mode (sketch_state identity_matrix ROUND 1) = Some "CENTER" /\
  exists sh : PShape,
    fst (circle (sincos_table 3600) [Tup [Num 0; Num 0]; Num 5] None
                (sketch_state identity_matrix ROUND 1))
    = Ok sh /\
    List.length (vertices sh) = 22%nat /\
    hd [] (vertices sh) = last (vertices sh) [].
Proof.
  assert (Hlen : MAX_POINT_ACCURACY <= sclen (sincos_table 3600)).
  { rewrite sclen_sincos_table. unfold MAX_POINT_ACCURACY. lia. }
  split; [exact Hlen|]. split; [reflexivity|].
  destruct (circle_vertex_count (sincos_table 3600)
              (sketch_state identity_matrix ROUND 1) Hlen eq_refl)
    as (sh & acc & Hrun & _ & _ & _ & Hcount & _ & _ & _ & Hid & Hclosed).
  exists sh. split; [rewrite Hrun; reflexivity|]. split; [|exact Hclosed].
  rewrite (Hid eq_refl), sclen_sincos_table in Hcount.
  apply Nat2Z.inj. rewrite Hcount. reflexivity.
Defined.

(** C1, as stated, fails: magnified 100 times, the circle has 202 vertices
    (200 strides over the 3600-entry table, the vertex at the stop angle and
    the repeated first vertex). *)
Lemma circle_scaled_has_202_vertices :
  exists (sh : PShape) (st' : State),
    circle (sincos_table 3600) [Tup [Num 0; Num 0]; Num 5] None
           (sketch_state (scale_matrix 100) ROUND 1)
    = (Ok sh, st') /\
    List.length (vertices sh) = 202%nat /\
    ~ (20 <= List.length (vertices sh) <= 200)%nat.
Proof.
  assert (Hlen : MAX_POINT_ACCURACY <= sclen (sincos_table 3600)).
  { rewrite sclen_sincos_table. unfold MAX_POINT_ACCURACY. lia. }
  set (st := sketch_state (scale_matrix 100) ROUND 1).
  pose proof (circle_CENTER_shape (sincos_table 3600) (Tup [Num 0; Num 0])
                (mkPoint 0 0 0) 5 None st Hlen eq_refl eq_refl) as Hrun.
  cbv zeta in Hrun.
  eexists. eexists. split; [exact Hrun|].
  cbn [vertices].
  assert (Hcount : List.length
                     (arc_vertices (sincos_table 3600) (transform_matrix (renderer st))
                                   (mkPoint 0 0 0) (mkPoint (5 / 2) (5 / 2) 0)
                                   0 (PI * 2) (Some "CHORD")) = 202%nat).
  { apply Nat2Z.inj.
    rewrite (full_turn_chord_length (sincos_table 3600) _ _ _ Hlen).
    change (transform_matrix (renderer st)) with (scale_matrix 100).
    rewrite circle5_scale100_acc, sclen_sincos_table. reflexivity. }
  rewrite Hcount. split; [reflexivity|lia].
Qed.

(** ** The subdivision count *)



(** ** point *)

Lemma bind_ret_some {A : Type} (c : M A) (st : State) (e : exn) :
  bind (bind c (fun s => ret (Some s)))
       (fun returned => match returned with
                        | Some s => ret s
                        | None => raise e
                        end) st
  = c st.
Proof. unfold bind, ret. destruct (c st) as [[a|e'] st']; reflexivity. Qed.

Lemma point_ROUND_is_circle (SINCOS : list (R * R)) (x y z : pyval) (weight : R)
      (rmode emode : pymode) (tm : matrix) (drawn : list PShape) (bres cres : Z) :
  let st := mkState rmode emode (mkRenderer tm ROUND weight drawn) bres cres in
  point SINCOS x y z st
  = circle SINCOS [Tup [x; y; z]; Num (weight / 2)] (Some "CENTER") st.
Proof.
  intros st. unfold point. unfold bind at 1. unfold get at 1.
  cbn [renderer stroke_cap stroke_weight st cap_eq].
  apply bind_ret_some.
Qed.

(** C2 does not hold of the code.  With the ROUND stroke cap,
    [point(x, y, z)] is [circle((x, y, z), stroke_weight / 2, mode='CENTER')];
    in CENTER mode that argument is the diameter, so the arc that is built
    has radii [stroke_weight / 4]: the diameter of the drawn circle is half
    the stroke weight, not the stroke weight. *)
Theorem point_ROUND_halves_the_diameter (SINCOS : list (R * R)) (x y z weight : R)
        (rmode emode : pymode) (tm : matrix) (drawn : list PShape) (bres cres : Z) :
  let st := mkState rmode emode (mkRenderer tm ROUND weight drawn) bres cres in
  point SINCOS (Num x) (Num y) (Num z) st
  = circle SINCOS [Tup [Num x; Num y; Num z]; Num (weight / 2)] (Some "CENTER") st /\
  point SINCOS (Num x) (Num y) (Num z) st
  = _draw_on_return
      (Arc SINCOS (mkPoint x y z) (mkPoint (weight / 2 / 2) (weight / 2 / 2) 0)
           0 (PI * 2) (Some "CHORD")) st.
Proof.
  intros st.
  pose proof (point_ROUND_is_circle SINCOS (Num x) (Num y) (Num z) weight
                rmode emode tm drawn bres cres) as Hpoint.
  cbv zeta in Hpoint. fold st in Hpoint.
  split; [exact Hpoint|].
  rewrite Hpoint.
  apply (circle_CENTER_run SINCOS (Tup [Num x; Num y; Num z]) (mkPoint x y z));
    reflexivity.
Qed.

(** The sibling path: with the PROJECT cap the square has the stroke weight
    as its side. *)
Lemma point_PROJECT_square (SINCOS : list (R * R)) (x y z weight : R)
      (rmode emode : pymode) (tm : matrix) (drawn : list PShape) (bres cres : Z) :
  let st := mkState rmode emode (mkRenderer tm PROJECT weight drawn) bres cres in
  let cx := (x - weight / 2)%R in
  let cy := (y - weight / 2)%R in
  let sh := Shape QUADS [[cx; cy; z]; [(cx + weight)%R; cy; z];
                         [(cx + weight)%R; (cy + weight)%R; z];
                         [cx; (cy + weight)%R; z]] [] in
  point SINCOS (Num x) (Num y) (Num z) st
  = square [Tup [Num x; Num y; Num z]; Num weight] (Some "CENTER") st /\
  point SINCOS (Num x) (Num y) (Num z) st = (Ok sh, after_render sh st).
Proof.
  intros st cx cy sh.
  assert (Hpoint : point SINCOS (Num x) (Num y) (Num z) st
                   = square [Tup [Num x; Num y; Num z]; Num weight] (Some "CENTER") st).
  { unfold point. unfold bind at 1. unfold get at 1.
    cbn [renderer stroke_cap stroke_weight st cap_eq].
    apply bind_ret_some. }
  split; [exact Hpoint|]. rewrite Hpoint. reflexivity.
Qed.

(** C3 does not hold of the code.  With the SQUARE stroke cap the branch is
    [pass], so [point] reaches the final [raise]: it returns no shape and
    draws nothing, for every point.  In general [point] is [square] for the
    PROJECT cap, [circle] for the ROUND cap, and raises
    'Unknown stroke_cap value' for every other cap, SQUARE included. *)
Theorem point_SQUARE_raises (SINCOS : list (R * R)) (x y z : pyval) (weight : R)
        (cap : StrokeCap) (rmode emode : pymode) (tm : matrix)
        (drawn : list PShape) (bres cres : Z) :
  let st_of := fun c => mkState rmode emode (mkRenderer tm c weight drawn) bres cres in
  point SINCOS x y z (st_of SQUARE)
  = (Raise (ValueError "Unknown stroke_cap value"), st_of SQUARE) /\
  point SINCOS x y z (st_of cap)
  = match cap with
    | PROJECT => square [Tup [x; y; z]; Num weight] (Some "CENTER") (st_of cap)
    | ROUND =>
        circle SINCOS [Tup [x; y; z]; Num (weight / 2)] (Some "CENTER") (st_of cap)
    | SQUARE | OtherCap _ =>
        (Raise (ValueError "Unknown stroke_cap value"), st_of cap)
    end.
Proof.
  intros st_of. split; [reflexivity|].
  destruct cap as [| | |v]; try reflexivity.
  - unfold point. unfold bind at 1. unfold get at 1.
    cbn [renderer stroke_cap stroke_weight st_of cap_eq].
    apply bind_ret_some.
  - unfold point. unfold bind at 1. unfold get at 1.
    cbn [renderer stroke_cap stroke_weight st_of cap_eq].
    apply bind_ret_some.
Qed.

(** ** rect: coordinate modes *)

Section RectModes.
Local Open Scope R_scope.

(** The quad [rect] builds from a corner, a width and a height. *)
Lemma rect_CORNER_run (x y w h : R) (mode : pymode) (st : State) :
  or_default mode (_rect_mode st) = Some "CORNER" ->
  let sh := Shape QUADS [[x; y; 0]; [x + w; y; 0]; [x + w; y + h; 0]; [x; y + h; 0]] [] in
  rect [Tup [Num x; Num y]; Num w; Num h] mode st = (Ok sh, after_render sh st).
Proof.
  intros Hmode sh. unfold rect, bind, get, ret, lift.
  rewrite Hmode. reflexivity.
Qed.

(** CENTER mode: the canonical corner is the centre minus half the extent,
    and adding half the extent to the corner gives the centre back. *)
Lemma rect_CENTER_round_trip (cx cy w h : R) (mode : pymode) (st : State) :
  or_default mode (_rect_mode st) = Some "CENTER" ->
  exists corner_x corner_y width height : R,
    let sh := Shape QUADS [[corner_x; corner_y; 0];
                           [corner_x + width; corner_y; 0];
                           [corner_x + width; corner_y + height; 0];
                           [corner_x; corner_y + height; 0]] [] in
    rect [Tup [Num cx; Num cy]; Num w; Num h] mode st = (Ok sh, after_render sh st) /\
    corner_x = cx - w / 2 /\ corner_y = cy - h / 2 /\
    width = w /\ height = h /\
    corner_x + width / 2 = cx /\ corner_y + height / 2 = cy.
Proof.
  intros Hmode. exists (cx - w / 2), (cy - h / 2), w, h. cbv zeta.
  split; [|repeat split; lra].
  unfold rect, bind, get, ret, lift. rewrite Hmode. reflexivity.
Qed.

(** RADIUS mode: the corner is the centre minus the half extents, the
    width and height are twice the half extents. *)
Lemma rect_RADIUS_round_trip (cx cy hw hh : R) (mode : pymode) (st : State) :
  or_default mode (_rect_mode st) = Some "RADIUS" ->
  exists corner_x corner_y width height : R,
    let sh := Shape QUADS [[corner_x; corner_y; 0];
                           [corner_x + width; corner_y; 0];
                           [corner_x + width; corner_y + height; 0];
                           [corner_x; corner_y + height; 0]] [] in
    rect [Tup [Num cx; Num cy]; Num hw; Num hh] mode st = (Ok sh, after_render sh st) /\
    corner_x = cx - hw /\ corner_y = cy - hh /\
    width = 2 * hw /\ height = 2 * hh /\
    corner_x + width / 2 = cx /\ corner_y + height / 2 = cy /\
    width / 2 = hw /\ height / 2 = hh.
Proof.
  intros Hmode. exists (cx - hw), (cy - hh), (2 * hw), (2 * hh). cbv zeta.
  split; [|repeat split; lra].
  unfold rect, bind, get, ret, lift. rewrite Hmode. reflexivity.
Qed.

(** The example of the specification: centre (10, 10), width 4, height 6. *)
Lemma rect_CENTER_example (st : State) :
  let sh := Shape QUADS [[8; 7; 0]; [12; 7; 0]; [12; 13; 0]; [8; 13; 0]] [] in
  rect [Tup [Num 10; Num 10]; Num 4; Num 6] (Some "CENTER") st
  = (Ok sh, after_render sh st) /\
  8 + 4 / 2 = 10 /\ 7 + 6 / 2 = 10.
Proof.
  intros sh. split; [|split; lra].
  destruct (rect_CENTER_round_trip 10 10 4 6 (Some "CENTER") st eq_refl)
    as (x & y & w & h & Hrun & -> & -> & -> & -> & _).
  cbv zeta in Hrun. rewrite Hrun. subst sh.
  replace (10 - 4 / 2) with 8 by lra.
  replace (10 - 6 / 2) with 7 by lra.
  replace (8 + 4) with 12 by lra.
  replace (7 + 6) with 13 by lra.
  reflexivity.
Qed.

End RectModes.

(** C6, at the failing inputs.  CENTER and RADIUS round-trip
    ([rect_CENTER_round_trip], [rect_RADIUS_round_trip]), but no call of
    [rect] in CORNERS mode returns: the arity dispatch always leaves two
    trailing arguments, and the CORNERS branch unpacks exactly one.  The call
    shape of the docstring, [rect(corner, opposite_corner)], is rejected by
    the arity check; [rect(x1, y1, x2, y2)] fails in the unpacking. *)
Theorem rect_CORNERS_never_returns (args : list pyval) (st : State) :
  (exists e : exn, rect args (Some "CORNERS") st = (Raise e, st)) /\
  rect [Tup [Num 0; Num 0]; Tup [Num 4; Num 6]] (Some "CORNERS") st
  = (Raise (ValueError "Unexpected number of arguments passed to rect()"), st) /\
  rect [Num 0; Num 0; Num 4; Num 6] (Some "CORNERS") st
  = (Raise (ValueError "too many values to unpack (expected 1)"), st) /\
  rect [Tup [Num 0; Num 0]; Num 4; Num 6] (Some "CORNERS") st
  = (Raise (ValueError "too many values to unpack (expected 1)"), st).
Proof.
  split; [|repeat split; reflexivity].
  destruct args as [|a [|b [|c [|d [|e rest]]]]];
    try (eexists; reflexivity).
  - unfold rect, bind, get, ret, lift, raise. cbn [or_default mode_eq].
    cbn [String.eqb Ascii.eqb Bool.eqb andb].
    destruct (Point_star a) as [p|e]; eexists; reflexivity.
  - unfold rect, bind, get, ret, lift, raise. cbn [or_default mode_eq].
    cbn [String.eqb Ascii.eqb Bool.eqb andb].
    destruct (Point_star (Tup [a; b])) as [p|e]; eexists; reflexivity.
Qed.

(** ** bezier and curve *)

Lemma last_nth_error {A : Type} (l : list A) (x d : A) :
  nth_error l (pred (List.length l)) = Some x -> last l d = x.
Proof.
  induction l as [|a l IH]; cbn [List.length pred].
  - discriminate.
  - destruct l as [|b l'].
    + cbn. intros [= ->]. reflexivity.
    + intros H. change (last (a :: b :: l') d) with (last (b :: l') d).
      apply IH. exact H.
Qed.

Lemma firstn_3_point (p : list R) : (List.length p <= 3)%nat -> firstn 3 p = p.
Proof. intros H. apply firstn_all2. exact H. Qed.

Lemma split_control_points_arity (args : list pyval) :
  In (List.length args) [4; 8; 12]%nat <-> split_control_points args <> None.
Proof.
  destruct args as [|a1 [|a2 [|a3 [|a4 [|a5 [|a6 [|a7 [|a8 [|a9 [|a10 [|a11
                   [|a12 [|a13 rest]]]]]]]]]]]]];
    cbn [split_control_points List.length In];
    split; intros H; try congruence; try lia; auto 8;
    exfalso; repeat (destruct H as [H|H]; [lia|]); exact H.
Qed.

Section Sampling.
Local Open Scope R_scope.

Variable evaluate : R -> result (list R).
Variable steps : Z.
Hypothesis steps_positive : (1 <= steps)%Z.
Hypothesis evaluate_accepts : accepts evaluate.

Lemma sample_loop_total (indices : list Z) (vs : list vertex) :
  exists new : list vertex,
    sample_loop evaluate steps indices vs = Ok (vs ++ new) /\
    List.length new = List.length indices /\
    forall (k : nat) (i : Z),
      nth_error indices k = Some i ->
      exists p : list R,
        evaluate (IZR i / IZR steps) = Ok p /\ nth_error new k = Some (firstn 3 p).
Proof.
  revert vs. induction indices as [|i rest IH]; intros vs.
  - exists []. cbn [sample_loop]. rewrite app_nil_r.
    split; [reflexivity|]. split; [reflexivity|].
    intros k j H. destruct k; discriminate H.
  - destruct (evaluate_accepts (IZR i / IZR steps)) as [p Hp].
    destruct (IH (vs ++ [firstn 3 p])) as (new & Hrun & Hlen & Hnth).
    exists (firstn 3 p :: new).
    cbn [sample_loop]. unfold py_truediv.
    destruct (Z.eqb_spec steps 0) as [H0|_]; [lia|].
    cbn [rbind]. rewrite Hp. cbn [rbind]. rewrite Hrun, <- app_assoc.
    split; [reflexivity|]. split; [cbn [List.length]; rewrite Hlen; reflexivity|].
    intros k j H. destruct k as [|k].
    + cbn in H. injection H as <-. exists p. split; [exact Hp|reflexivity].
    + cbn in H. apply Hnth in H. exact H.
Qed.

Lemma sampled_shape :
  exists vs : list vertex,
    sample_loop evaluate steps (range_list 0 (steps + 1) 1) [] = Ok vs /\
    sampled_polyline evaluate steps (Shape LINE_STRIP vs []).
Proof.
  destruct (sample_loop_total (range_list 0 (steps + 1) 1) [])
    as (new & Hrun & Hlen & Hnth).
  rewrite range_list_unit_length in Hlen.
  exists new. split; [exact Hrun|].
  assert (Hat : forall i : Z, (0 <= i <= steps)%Z ->
              exists p, evaluate (IZR i / IZR steps) = Ok p /\
                        nth_error new (Z.to_nat i) = Some (firstn 3 p)).
  { intros i Hi. apply Hnth.
    rewrite range_list_unit_nth by lia. f_equal. lia. }
  unfold sampled_polyline. cbn [shape_type vertices].
  split; [reflexivity|]. split; [lia|]. split; [|split].
  - intros i Hi. destruct (Hat i Hi) as (p & Hp & Hv).
    exists p. split; [exact Hp|]. split; [exact Hv|apply firstn_3_point].
  - destruct (Hat 0%Z ltac:(lia)) as (p & Hp & Hv).
    replace (IZR 0 / IZR steps) with 0 in Hp
      by (unfold Rdiv; rewrite Rmult_0_l; reflexivity).
    exists p. split; [exact Hp|].
    destruct new; [discriminate Hv|exact Hv].
  - destruct (Hat steps ltac:(lia)) as (p & Hp & Hv).
    replace (IZR steps / IZR steps) with 1 in Hp.
    2:{ field. apply not_0_IZR. lia. }
    exists p. split; [exact Hp|].
    apply last_nth_error. rewrite Hlen.
    replace (pred (Z.to_nat (steps + 1))) with (Z.to_nat steps) by lia.
    exact Hv.
Qed.

End Sampling.

Section Curves.

Variables bezier_point curve_point :
  pyval -> pyval -> pyval -> pyval -> R -> result (list R).

Lemma bezier_run (args : list pyval) (a b c d : pyval) (st : State) :
  1 <= bezier_resolution st ->
  split_control_points args = Some (a, b, c, d) ->
  accepts (bezier_point a b c d) ->
  exists sh : PShape,
    bezier bezier_point args st = (Ok sh, after_render sh st) /\
    sampled_polyline (bezier_point a b c d) (bezier_resolution st) sh.
Proof.
  intros Hsteps Hsplit Hacc.
  destruct (sampled_shape (bezier_point a b c d) (bezier_resolution st) Hsteps Hacc)
    as (vs & Hrun & Hpoly).
  exists (Shape LINE_STRIP vs []). split; [|exact Hpoly].
  unfold bezier. apply draw_on_return_ok.
  unfold control_points, bind, get, ret, lift. rewrite Hsplit.
  rewrite py_range_pos by lia. rewrite Hrun. reflexivity.
Qed.

Lemma curve_run (args : list pyval) (a b c d : pyval) (st : State) :
  1 <= curve_resolution st ->
  split_control_points args = Some (a, b, c, d) ->
  accepts (curve_point a b c d) ->
  exists sh : PShape,
    curve curve_point args st = (Ok sh, after_render sh st) /\
    sampled_polyline (curve_point a b c d) (curve_resolution st) sh.
Proof.
  intros Hsteps Hsplit Hacc.
  destruct (sampled_shape (curve_point a b c d) (curve_resolution st) Hsteps Hacc)
    as (vs & Hrun & Hpoly).
  exists (Shape LINE_STRIP vs []). split; [|exact Hpoly].
  unfold curve. apply draw_on_return_ok.
  unfold control_points, bind, get, ret, lift. rewrite Hsplit.
  rewrite py_range_pos by lia. rewrite Hrun. reflexivity.
Qed.

Lemma curves_bad_arity (args : list pyval) (st : State) :
  split_control_points args = None ->
  bezier bezier_point args st
  = (Raise (ValueError "Unexpected number of arguments passed to bezier()"), st) /\
  curve curve_point args st
  = (Raise (ValueError "Unexpected number of arguments passed to curve()"), st).
Proof.
  intros Hsplit. split; apply draw_on_return_raise;
    unfold control_points, bind, raise; rewrite Hsplit; reflexivity.
Qed.

(** C7.  [bezier], with a step count of at least 1, returns (and draws) a
    LINE_STRIP shape of exactly [steps + 1] vertices, the i-th being the
    evaluator's output at [t = i / steps] (sliced to three components),
    the first at [t = 0] and the last at [t = 1], in each of its three
    calling conventions, for control points the evaluator accepts: four
    arguments are the four control points themselves, eight scalars are
    grouped in pairs and twelve scalars in triples, in order.  So does
    [curve] with its own step count.  With any other number of arguments
    both raise a ValueError and draw nothing. *)
Theorem bezier_and_curve_are_sampled_polylines (args : list pyval) (st : State) :
  (1 <= bezier_resolution st ->
   (forall a b c d : pyval,
       accepts (bezier_point a b c d) ->
       returns_sampled (bezier bezier_point [a; b; c; d])
                       (bezier_point a b c d) (bezier_resolution st) st) /\
   (forall x1 y1 x2 y2 x3 y3 x4 y4 : pyval,
       accepts (bezier_point (Tup [x1; y1]) (Tup [x2; y2])
                             (Tup [x3; y3]) (Tup [x4; y4])) ->
       returns_sampled (bezier bezier_point [x1; y1; x2; y2; x3; y3; x4; y4])
                       (bezier_point (Tup [x1; y1]) (Tup [x2; y2])
                                     (Tup [x3; y3]) (Tup [x4; y4]))
                       (bezier_resolution st) st) /\
   (forall x1 y1 z1 x2 y2 z2 x3 y3 z3 x4 y4 z4 : pyval,
       accepts (bezier_point (Tup [x1; y1; z1]) (Tup [x2; y2; z2])
                             (Tup [x3; y3; z3]) (Tup [x4; y4; z4])) ->
       returns_sampled
         (bezier bezier_point [x1; y1; z1; x2; y2; z2; x3; y3; z3; x4; y4; z4])
         (bezier_point (Tup [x1; y1; z1]) (Tup [x2; y2; z2])
                       (Tup [x3; y3; z3]) (Tup [x4; y4; z4]))
         (bezier_resolution st) st)) /\
  (1 <= curve_resolution st ->
   (forall a b c d : pyval,
       accepts (curve_point a b c d) ->
       returns_sampled (curve curve_point [a; b; c; d])
                       (curve_point a b c d) (curve_resolution st) st) /\
   (forall x1 y1 x2 y2 x3 y3 x4 y4 : pyval,
       accepts (curve_point (Tup [x1; y1]) (Tup [x2; y2])
                            (Tup [x3; y3]) (Tup [x4; y4])) ->
       returns_sampled (curve curve_point [x1; y1; x2; y2; x3; y3; x4; y4])
                       (curve_point (Tup [x1; y1]) (Tup [x2; y2])
                                    (Tup [x3; y3]) (Tup [x4; y4]))
                       (curve_resolution st) st) /\
   (forall x1 y1 z1 x2 y2 z2 x3 y3 z3 x4 y4 z4 : pyval,
       accepts (curve_point (Tup [x1; y1; z1]) (Tup [x2; y2; z2])
                            (Tup [x3; y3; z3]) (Tup [x4; y4; z4])) ->
       returns_sampled
         (curve curve_point [x1; y1; z1; x2; y2; z2; x3; y3; z3; x4; y4; z4])
         (curve_point (Tup [x1; y1; z1]) (Tup [x2; y2; z2])
                      (Tup [x3; y3; z3]) (Tup [x4; y4; z4]))
         (curve_resolution st) st)) /\
  (~ In (List.length args) [4; 8; 12]%nat ->
   (exists msg : string, bezier bezier_point args st = (Raise (ValueError msg), st)) /\
   (exists msg : string, curve curve_point args st = (Raise (ValueError msg), st))).
Proof.
  split; [|split].
  - intros Hb. repeat match goal with |- _ /\ _ => split end; intros;
      unfold returns_sampled;
      match goal with
      | Hacc : accepts (bezier_point ?a ?b ?c ?d) |- exists sh, bezier _ ?l _ = _ /\ _ =>
          exact (bezier_run l a b c d st Hb eq_refl Hacc)
      end.
  - intros Hc. repeat match goal with |- _ /\ _ => split end; intros;
      unfold returns_sampled;
      match goal with
      | Hacc : accepts (curve_point ?a ?b ?c ?d) |- exists sh, curve _ ?l _ = _ /\ _ =>
          exact (curve_run l a b c d st Hc eq_refl Hacc)
      end.
  - intros Harity.
    assert (Hsplit : split_control_points args = None).
    { destruct (split_control_points args) eqn:E; [|reflexivity].
      exfalso. apply Harity. apply split_control_points_arity.
      rewrite E. discriminate. }
    destruct (curves_bad_arity args st Hsplit) as [H1 H2].
    split; eexists; eassumption.
Qed.

End Curves.

Lemma bezier_and_curve_are_sampled_polylines_witness :
  let args := [Num 0; Num 0; Num 1; Num 2; Num 3; Num 2; Num 4; Num 0] in
  let st := sketch_state identity_matrix ROUND 1 in
  1 <= bezier_resolution st /\
  accepts (cubic_bezier_point (Tup [Num 0; Num 0]) (Tup [Num 1; Num 2])
                              (Tup [Num 3; Num 2]) (Tup [Num 4; Num 0])) /\
  ~ In (List.length [Num 0; Num 0; Num 1]) [4; 8; 12]%nat /\
  (exists sh : PShape,
     fst (bezier cubic_bezier_point args st) = Ok sh /\
     shape_type sh = Some LINE_STRIP /\
     List.length (vertices sh) = 21%nat /\
     hd_error (vertices sh) = Some [0; 0; 0]%R /\
     last (vertices sh) [] = [4; 0; 0]%R) /\
  exists msg : string,
    bezier cubic_bezier_point [Num 0; Num 0; Num 1] st = (Raise (ValueError msg), st).
Proof.
  intros args st.
  assert (Hb : 1 <= bezier_resolution st) by (cbn; lia).
  assert (Hacc : accepts (cubic_bezier_point (Tup [Num 0; Num 0]) (Tup [Num 1; Num 2])
                                             (Tup [Num 3; Num 2]) (Tup [Num 4; Num 0]))).
  { intros t. eexists. reflexivity. }
  assert (Hbad : ~ In (List.length [Num 0; Num 0; Num 1]) [4; 8; 12]%nat).
  { cbn [List.length In]. intros [H|[H|[H|H]]]; try discriminate H. exact H. }
  split; [exact Hb|]. split; [exact Hacc|]. split; [exact Hbad|]. split.
  - destruct (bezier_and_curve_are_sampled_polylines cubic_bezier_point
                catmull_rom_point args st) as (Hbez & _).
    destruct (Hbez Hb) as (_ & Height & _).
    destruct (Height (Num 0) (Num 0) (Num 1) (Num 2) (Num 3) (Num 2) (Num 4) (Num 0)
                     Hacc) as (sh & Hrun & Htype & Hlen & _ & Hfirst & Hlast).
    exists sh. split; [fold args in Hrun; rewrite Hrun; reflexivity|].
    split; [exact Htype|]. split; [apply Nat2Z.inj; rewrite Hlen; reflexivity|].
    destruct Hfirst as (p0 & Hp0 & Hhd). destruct Hlast as (p1 & Hp1 & Hla).
    cbn in Hp0, Hp1. injection Hp0 as <-. injection Hp1 as <-.
    split.
    + rewrite Hhd. unfold blend. cbn [firstn p_x p_y p_z].
      do 2 f_equal; [lra|f_equal; [lra|f_equal; lra]].
    + rewrite Hla. unfold blend. cbn [firstn p_x p_y p_z].
      f_equal; [lra|f_equal; [lra|f_equal; lra]].
  - destruct (bezier_and_curve_are_sampled_polylines cubic_bezier_point
                catmull_rom_point [Num 0; Num 0; Num 1] st) as (_ & _ & Hraise).
    destruct (Hraise Hbad) as [H _]. exact H.
Defined.

(** ** Rejected calls draw nothing *)

Ltac arity_case :=
  let H := fresh "H" in
  try (intros H);
  first [ exfalso; apply H; cbn [List.length In]; tauto
        | eexists; reflexivity ].

(** C8.  [rect], [square], [ellipse], [circle] and [arc] called with an
    unsupported number of positional arguments raise a ValueError and leave
    the state, hence the renderer's record of rendered shapes, as it was;
    so do [square] and [circle] called with [mode='CORNERS'], whatever
    their arguments. *)
Theorem rejected_calls_draw_nothing (SINCOS : list (R * R)) (args : list pyval)
        (mode arc_mode ellipse_mode : pymode) (st : State) :
  (~ In (List.length args) [3; 4]%nat ->
   exists msg : string, rect args mode st = (Raise (ValueError msg), st)) /\
  (~ In (List.length args) [2; 3]%nat ->
   exists msg : string, square args mode st = (Raise (ValueError msg), st)) /\
  (~ In (List.length args) [3; 4]%nat ->
   exists msg : string, ellipse SINCOS args mode st = (Raise (ValueError msg), st)) /\
  (~ In (List.length args) [2; 3]%nat ->
   exists msg : string, circle SINCOS args mode st = (Raise (ValueError msg), st)) /\
  (~ In (List.length args) [5; 6]%nat ->
   exists msg : string,
     arc SINCOS args arc_mode ellipse_mode st = (Raise (ValueError msg), st)) /\
  (exists msg : string,
     square args (Some "CORNERS") st = (Raise (ValueError msg), st)) /\
  (exists msg : string,
     circle SINCOS args (Some "CORNERS") st = (Raise (ValueError msg), st)).
Proof.
  destruct args as [|a [|b [|c [|d [|e [|f [|g rest]]]]]]];
    repeat split; arity_case.
Qed.

Lemma rejected_calls_draw_nothing_witness :
  let st := sketch_state identity_matrix ROUND 1 in
  ~ In (List.length [Num 1; Num 2]) [3; 4]%nat /\
  ~ In (List.length [Num 1; Num 2; Num 3; Num 4]) [5; 6]%nat /\
  (exists msg : string, rect [Num 1; Num 2] None st = (Raise (ValueError msg), st)) /\
  (exists msg : string,
     arc (sincos_table 3600) [Num 1; Num 2; Num 3; Num 4] None None st
     = (Raise (ValueError msg), st)) /\
  rendered (renderer st) = [].
Proof.
  intros st.
  assert (H2 : ~ In (List.length [Num 1; Num 2]) [3; 4]%nat).
  { cbn [List.length In]. intros [H|[H|H]]; [discriminate H|discriminate H|exact H]. }
  assert (H4 : ~ In (List.length [Num 1; Num 2; Num 3; Num 4]) [5; 6]%nat).
  { cbn [List.length In]. intros [H|[H|H]]; [discriminate H|discriminate H|exact H]. }
  split; [exact H2|]. split; [exact H4|].
  split; [|split; [|reflexivity]].
  - destruct (rejected_calls_draw_nothing (sincos_table 3600) [Num 1; Num 2]
                None None None st) as (Hrect & _).
    exact (Hrect H2).
  - destruct (rejected_calls_draw_nothing (sincos_table 3600)
                [Num 1; Num 2; Num 3; Num 4] None None None st)
      as (_ & _ & _ & _ & Harc & _).
    exact (Harc H4).
Defined.

(** ** Mode setters *)

Lemma unrecognized_mode_eq (m : pymode) :
  ~ recognized_mode m ->
  mode_eq m "CORNER" = false /\ mode_eq m "CENTER" = false /\
  mode_eq m "RADIUS" = false /\ mode_eq m "CORNERS" = false.
Proof.
  intros H. unfold recognized_mode in H. cbn [In] in H.
  repeat split; apply not_true_is_false; intros E;
    apply mode_eq_true in E; apply H; subst m; tauto.
Qed.

(** C10.  [rect_mode(m)] and [ellipse_mode(m)] store any value [m] and
    return; when [m] is none of 'CORNER', 'CENTER', 'RADIUS', 'CORNERS', the
    next call of [rect] or [square] (after [rect_mode]), or of [ellipse],
    [circle] or [arc] (after [ellipse_mode]), made with a supported number
    of arguments and no explicit mode, raises a ValueError. *)
Theorem unknown_mode_is_stored_then_rejected (SINCOS : list (R * R)) (m : pymode)
        (st : State) :
  let st_r := mkState m (_ellipse_mode st) (renderer st)
                      (bezier_resolution st) (curve_resolution st) in
  let st_e := mkState (_rect_mode st) m (renderer st)
                      (bezier_resolution st) (curve_resolution st) in
  rect_mode m st = (Ok tt, st_r) /\
  ellipse_mode m st = (Ok tt, st_e) /\
  (~ recognized_mode m ->
   forall (args : list pyval) (arc_mode : pymode),
     (In (List.length args) [3; 4]%nat ->
      exists msg : string, rect args None st_r = (Raise (ValueError msg), st_r)) /\
     (In (List.length args) [2; 3]%nat ->
      exists msg : string, square args None st_r = (Raise (ValueError msg), st_r)) /\
     (In (List.length args) [3; 4]%nat ->
      exists msg : string,
        ellipse SINCOS args None st_e = (Raise (ValueError msg), st_e)) /\
     (In (List.length args) [2; 3]%nat ->
      exists msg : string,
        circle SINCOS args None st_e = (Raise (ValueError msg), st_e)) /\
     (In (List.length args) [5; 6]%nat ->
      exists msg : string,
        arc SINCOS args arc_mode None st_e = (Raise (ValueError msg), st_e))).
Proof.
  intros st_r st_e.
  split; [reflexivity|]. split; [reflexivity|].
  intros Hm args arc_mode.
  pose proof (unrecognized_mode_eq m Hm) as Hmodes.
  assert (Hd : or_default m m = m) by (destruct m; reflexivity).
  destruct args as [|a [|b [|c [|d [|e [|f [|g rest]]]]]]];
    repeat split; cbn [List.length In].
  all: try (intros [E|[E|E]]; first [discriminate E | contradiction E]).
  all: intros _;
    unfold square, rect, circle, ellipse, arc, _draw_on_return,
      bind, get, ret, raise, lift;
    subst st_r st_e;
    destruct Hmodes as (H1 & H2 & H3 & H4);
    repeat (progress (cbn [or_default _rect_mode _ellipse_mode unpack2];
                      rewrite ?Hd, ?H1, ?H2, ?H3, ?H4));
    eexists; reflexivity.
Qed.

Lemma unknown_mode_is_stored_then_rejected_witness :
  let st := sketch_state identity_matrix ROUND 1 in
  let args := [Tup [Num 0; Num 0]; Num 4; Num 6] in
  ~ recognized_mode (Some "DIAGONAL") /\
  In (List.length args) [3; 4]%nat /\
  fst (rect_mode (Some "DIAGONAL") st) = Ok tt /\
  _rect_mode (snd (rect_mode (Some "DIAGONAL") st)) = Some "DIAGONAL" /\
  exists msg : string,
    fst (bind (rect_mode (Some "DIAGONAL")) (fun _ => rect args None) st)
    = Raise (ValueError msg).
Proof.
  intros st args.
  assert (Hm : ~ recognized_mode (Some "DIAGONAL")).
  { unfold recognized_mode. cbn [In].
    intros [H|[H|[H|[H|H]]]]; try discriminate H. exact H. }
  assert (Harity : In (List.length args) [3; 4]%nat) by (left; reflexivity).
  split; [exact Hm|]. split; [exact Harity|].
  destruct (unknown_mode_is_stored_then_rejected (sincos_table 3600)
              (Some "DIAGONAL") st) as (Hset & _ & Hlater).
  destruct (Hlater Hm args None) as (Hrect & _).
  destruct (Hrect Harity) as [msg Hraise].
  split; [rewrite Hset; reflexivity|]. split; [rewrite Hset; reflexivity|].
  exists msg. unfold bind. rewrite Hset, Hraise. reflexivity.
Defined.

(** ** Angles outside one turn *)

Section Wrapping.
Local Open Scope R_scope.

Lemma sin_period_Z (x : R) (k : Z) : sin (x + 2 * IZR k * PI) = sin x.
Proof.
  destruct (Z.le_gt_cases 0 k) as [Hk|Hk].
  - rewrite <- (Z2Nat.id k Hk), <- INR_IZR_INZ. apply sin_period.
  - rewrite <- (sin_period (x + 2 * IZR k * PI) (Z.to_nat (- k))).
    f_equal. rewrite INR_IZR_INZ, Z2Nat.id by lia. rewrite opp_IZR. ring.
Qed.

Lemma cos_period_Z (x : R) (k : Z) : cos (x + 2 * IZR k * PI) = cos x.
Proof.
  destruct (Z.le_gt_cases 0 k) as [Hk|Hk].
  - rewrite <- (Z2Nat.id k Hk), <- INR_IZR_INZ. apply cos_period.
  - rewrite <- (cos_period (x + 2 * IZR k * PI) (Z.to_nat (- k))).
    f_equal. rewrite INR_IZR_INZ, Z2Nat.id by lia. rewrite opp_IZR. ring.
Qed.

Variable n : nat.
Hypothesis n_positive : (0 < n)%nat.

(** The angle of a reduced index and of the index itself differ by whole
    turns. *)
Lemma reduced_angle (idx : Z) :
  2 * PI * IZR idx / INR n
  = 2 * PI * IZR (idx mod Z.of_nat n) / INR n + 2 * IZR (idx / Z.of_nat n) * PI.
Proof.
  assert (Hn : INR n <> 0) by (apply not_0_INR; lia).
  rewrite (Z.div_mod idx (Z.of_nat n)) at 1 by lia.
  rewrite plus_IZR, mult_IZR, <- INR_IZR_INZ. field. exact Hn.
Qed.

Lemma table_entry_sincos (idx : Z) :
  table_entry (sincos_table n) idx
  = (sin (2 * PI * IZR idx / INR n), cos (2 * PI * IZR idx / INR n)).
Proof.
  unfold table_entry. rewrite sclen_sincos_table.
  pose proof (Z.mod_pos_bound idx (Z.of_nat n) ltac:(lia)) as Hmod.
  unfold sincos_table.
  set (f := fun i : nat => (sin (2 * PI * INR i / INR n), cos (2 * PI * INR i / INR n))).
  rewrite (nth_indep _ (0, 0) (f 0%nat)) by (rewrite length_map, length_seq; lia).
  rewrite map_nth, seq_nth by lia. cbn [Nat.add]. subst f. cbv beta.
  rewrite INR_IZR_INZ, Z2Nat.id by lia.
  rewrite (reduced_angle idx), sin_period_Z, cos_period_Z. reflexivity.
Qed.

(** Every emitted vertex lies on the ellipse at the angle of its index,
    however many turns the index is away from the table. *)
Lemma arc_point_on_ellipse (center radii : Point) (idx : Z) :
  arc_point (sincos_table n) (p_x center) (p_y center) (p_x radii) (p_y radii) idx
  = ellipse_point n center radii idx.
Proof.
  unfold arc_point, ellipse_point. rewrite table_entry_sincos. reflexivity.
Qed.

End Wrapping.

(** C9.  Over a sine/cosine table of [n >= 200] entries per turn, the
    tessellation returns for every start and stop angle (no condition on
    their order or size): every table index is reduced modulo [n] into
    [0, n), where the lookup succeeds, and the vertex emitted for index
    [idx] is the point of the ellipse at angle [2 * pi * idx / n], whatever
    number of turns [idx] is away from the table.  When the stop index does
    not exceed the start index (a negative span) the walk is empty and only
    the vertex at the stop angle is emitted. *)
Theorem arc_tessellation_wraps (n : nat) (tm : matrix) (center radii : Point)
        (start_angle stop_angle : R) (mode : pymode) :
  (200 <= n)%nat ->
  let SINCOS := sincos_table n in
  let indices := arc_indices SINCOS tm center radii start_angle stop_angle in
  let open := arc_prefix center mode ++ map (ellipse_point n center radii) indices in
  Arc__tessellate SINCOS tm center radii start_angle stop_angle mode
  = Ok (open ++ arc_closure (hd [] open) mode) /\
  (forall idx : Z,
      In idx indices ->
      0 <= idx mod Z.of_nat n < Z.of_nat n /\
      py_getitem SINCOS (idx mod Z.of_nat n)
      = Ok (sin (2 * PI * IZR idx / INR n), cos (2 * PI * IZR idx / INR n))%R) /\
  (angle_index SINCOS stop_angle <= angle_index SINCOS start_angle ->
   indices = [angle_index SINCOS stop_angle]).
Proof.
  intros Hn SINCOS indices open.
  assert (Hlen : MAX_POINT_ACCURACY <= sclen SINCOS).
  { subst SINCOS. rewrite sclen_sincos_table. unfold MAX_POINT_ACCURACY. lia. }
  assert (Hpos : (0 < n)%nat) by lia.
  split; [|split].
  - rewrite (Arc__tessellate_total SINCOS tm center radii _ _ mode Hlen).
    unfold arc_vertices, arc_body. fold indices. cbv zeta.
    subst open SINCOS.
    rewrite (map_ext _ _ (arc_point_on_ellipse n Hpos center radii)).
    reflexivity.
  - intros idx _.
    pose proof (Z.mod_pos_bound idx (Z.of_nat n) ltac:(lia)) as Hmod.
    split; [exact Hmod|].
    rewrite (py_getitem_nth SINCOS _ (0, 0)%R).
    + rewrite <- (table_entry_sincos n Hpos idx). unfold table_entry.
      subst SINCOS. rewrite sclen_sincos_table. reflexivity.
    + fold (sclen SINCOS). subst SINCOS. rewrite sclen_sincos_table. exact Hmod.
  - intros Hspan. subst indices. unfold arc_indices.
    rewrite range_list_empty; [reflexivity| |exact Hspan].
    apply arc_inc_pos. exact Hlen.
Qed.

Lemma arc_tessellation_wraps_witness :
  (200 <= 3600)%nat /\
  Arc__tessellate (sincos_table 3600) identity_matrix (mkPoint 0 0 0) (mkPoint 1 1 0)
                  PI 0%R (Some "OPEN")
  = Ok [ellipse_point 3600 (mkPoint 0 0 0) (mkPoint 1 1 0) 0].
Proof.
  assert (Hn : (200 <= 3600)%nat) by lia.
  split; [exact Hn|].
  destruct (arc_tessellation_wraps 3600 identity_matrix (mkPoint 0 0 0)
              (mkPoint 1 1 0) PI 0%R (Some "OPEN") Hn) as (Hrun & _ & Hneg).
  rewrite Hrun, Hneg.
  - rewrite angle_index_zero. reflexivity.
  - rewrite angle_index_zero. unfold angle_index. apply py_int_ge_0.
    pose proof PI_RGT_0 as Hpi.
    apply Rmult_le_pos.
    + replace (PI / (PI * 2))%R with (1 / 2)%R by (field; lra). lra.
    + apply IZR_le. rewrite sclen_sincos_table. lia.
Defined.

(** ** The round point, vertex by vertex *)

Lemma range_list_head (start stop step : Z) :
  0 < step -> start < stop ->
  exists rest : list Z, range_list start stop step = start :: rest.
Proof.
  intros Hstep Hlt. unfold range_list.
  rewrite (range_len_pos _ _ _ Hstep).
  pose proof (ceil_div_spec (stop - start) step Hstep) as [_ Hc].
  assert (Hpos : 0 < ceil_div (stop - start) step) by nia.
  destruct (Z.to_nat (ceil_div (stop - start) step)) as [|k] eqn:E; [lia|].
  cbn [seq map]. eexists. f_equal. lia.
Qed.

(** With stroke weight 4 the round point at the origin starts at (1, 0, 0):
    its radius is 1, a quarter of the stroke weight. *)
Lemma point_ROUND_example :
  exists (sh : PShape) (st' : State),
    point (sincos_table 3600) (Num 0) (Num 0) (Num 0)
          (sketch_state identity_matrix ROUND 4)
    = (Ok sh, st') /\
    hd_error (vertices sh) = Some [1%R; 0%R; 0%R].
Proof.
  assert (Hlen : MAX_POINT_ACCURACY <= sclen (sincos_table 3600)).
  { rewrite sclen_sincos_table. unfold MAX_POINT_ACCURACY. lia. }
  set (st := sketch_state identity_matrix ROUND 4).
  pose proof (point_ROUND_is_circle (sincos_table 3600) (Num 0) (Num 0) (Num 0) 4
                (Some "CORNER") (Some "CENTER") identity_matrix [] 20 20) as Hpoint.
  cbv zeta in Hpoint. fold (fresh_renderer identity_matrix ROUND 4) in Hpoint.
  pose proof (circle_CENTER_shape (sincos_table 3600) (Tup [Num 0; Num 0; Num 0])
                (mkPoint 0 0 0) (4 / 2) (Some "CENTER") st Hlen eq_refl eq_refl)
    as Hrun.
  cbv zeta in Hrun.
  eexists. eexists. split.
  { etransitivity; [exact Hpoint|exact Hrun]. }
  cbn [vertices].
  unfold arc_vertices, arc_prefix, arc_closure, arc_body, arc_indices.
  cbn [is_pie_or_unset is_chord_or_pie mode_eq String.eqb Ascii.eqb Bool.eqb orb app].
  rewrite angle_index_zero, angle_index_full_turn.
  destruct (range_list_head 0 (sclen (sincos_table 3600))
              (arc_inc (sincos_table 3600) (transform_matrix (renderer st))
                       (mkPoint 0 0 0) (mkPoint (4 / 2 / 2) (4 / 2 / 2) 0)))
    as [rest Hrest].
  { apply arc_inc_pos. exact Hlen. }
  { rewrite sclen_sincos_table. lia. }
  rewrite Hrest. cbn [app map hd_error].
  rewrite (arc_point_on_ellipse 3600 ltac:(lia) (mkPoint 0 0 0)
                                (mkPoint (4 / 2 / 2) (4 / 2 / 2) 0) 0).
  unfold ellipse_point. cbn [p_x p_y].
  replace (2 * PI * 0 / INR 3600)%R with 0%R
    by (unfold Rdiv; rewrite Rmult_0_r, Rmult_0_l; reflexivity).
  rewrite cos_0, sin_0. do 2 f_equal; [lra|f_equal; lra].
Qed.

(** * Further properties of the module *)

(** ** draw_shape *)

Lemma render_all_app (l1 l2 : list PShape) (st : State) :
  render_all (l1 ++ l2) st = render_all l2 (render_all l1 st).
Proof. unfold render_all. apply fold_left_app. Qed.

Lemma render_all_rendered (l : list PShape) (st : State) :
  rendered (renderer (render_all l st)) = rendered (renderer st) ++ l /\
  transform_matrix (renderer (render_all l st)) = transform_matrix (renderer st) /\
  stroke_cap (renderer (render_all l st)) = stroke_cap (renderer st) /\
  stroke_weight (renderer (render_all l st)) = stroke_weight (renderer st) /\
  _rect_mode (render_all l st) = _rect_mode st /\
  _ellipse_mode (render_all l st) = _ellipse_mode st /\
  bezier_resolution (render_all l st) = bezier_resolution st /\
  curve_resolution (render_all l st) = curve_resolution st.
Proof.
  revert st. induction l as [|s l IH]; intros st.
  - cbn. rewrite app_nil_r. repeat split.
  - change (render_all (s :: l) st) with (render_all l (after_render s st)).
    destruct (IH (after_render s st)) as (H1 & H2 & H3 & H4 & H5 & H6 & H7 & H8).
    rewrite H1, H2, H3, H4, H5, H6, H7, H8. cbn.
    rewrite <- app_assoc. repeat split.
Qed.

Lemma draw_shape_run (s : PShape) :
  forall st : State, draw_shape s st = (Ok tt, render_all (preorder s) st).
Proof.
  induction s as [|t vs cs IH] using PShape_tree_ind; intros st.
  - reflexivity.
  - cbn [draw_shape preorder]. unfold bind at 1. unfold render at 1.
    change (render_all (Shape t vs cs :: ?l) st)
      with (render_all l (after_render (Shape t vs cs) st)).
    generalize (after_render (Shape t vs cs) st). clear st.
    induction IH as [|c cs' Hc _ IHcs]; intros st.
    + reflexivity.
    + unfold bind at 1. rewrite Hc. rewrite render_all_app. apply IHcs.
Qed.

(** X1.  [draw_shape] never fails.  It renders every shape of the tree
    exactly once, in depth-first order with each parent before its children
    and the children in list order, after whatever was rendered before; a
    [Geometry] is rendered and not descended into.  Nothing else of the
    state changes. *)
Theorem draw_shape_preorder (s : PShape) (st : State) :
  exists st' : State,
    draw_shape s st = (Ok tt, st') /\
    rendered (renderer st') = rendered (renderer st) ++ preorder s /\
    hd_error (preorder s) = Some s /\
    transform_matrix (renderer st') = transform_matrix (renderer st) /\
    stroke_cap (renderer st') = stroke_cap (renderer st) /\
    stroke_weight (renderer st') = stroke_weight (renderer st) /\
    _rect_mode st' = _rect_mode st /\
    _ellipse_mode st' = _ellipse_mode st /\
    bezier_resolution st' = bezier_resolution st /\
    curve_resolution st' = curve_resolution st.
Proof.
  exists (render_all (preorder s) st).
  split; [apply draw_shape_run|].
  destruct (render_all_rendered (preorder s) st) as (H1 & H2 & H3 & H4 & H5 & H6 & H7 & H8).
  split; [exact H1|]. split; [destruct s; reflexivity|].
  repeat split; assumption.
Qed.

(** ** Constructors draw what they return, once *)

Lemma draw_on_return_reads_only (c : M PShape) (st : State) :
  reads_only c st -> drawn_once st (_draw_on_return c st).
Proof.
  intros [[e H]|(t & vs & H)].
  - rewrite (draw_on_return_raise c st st e H). reflexivity.
  - rewrite (draw_on_return_ok c st st t vs H). cbn.
    split; [reflexivity|]. split; [discriminate|reflexivity].
Qed.

Ltac case_scrutinee :=
  match goal with
  | |- context [match ?x with _ => _ end] => destruct x
  end.

Ltac settle_reads_only :=
  repeat case_scrutinee;
  first [ left; eexists; reflexivity | right; eexists; eexists; reflexivity ].

Ltac case_inputs :=
  repeat match goal with
         | |- context [match Point_star ?x with _ => _ end] => destruct (Point_star x)
         | |- context [match as_num ?x with _ => _ end] => destruct (as_num x)
         | |- context [if mode_eq ?m ?s then _ else _] => destruct (mode_eq m s)
         end.

Section DrawnOnce.

Variable SINCOS : list (R * R).
Variables bezier_point curve_point :
  pyval -> pyval -> pyval -> pyval -> R -> result (list R).

Lemma line_drawn_once (args : list pyval) (st : State) :
  drawn_once st (line args st).
Proof.
  unfold line. apply draw_on_return_reads_only.
  unfold reads_only, bind, ret, raise, lift.
  destruct args as [|a [|b [|c [|d [|e [|f [|g rest]]]]]]]; settle_reads_only.
Qed.

Lemma triangle_drawn_once (args : list pyval) (st : State) :
  drawn_once st (triangle args st).
Proof.
  unfold triangle. apply draw_on_return_reads_only.
  unfold reads_only, bind, ret, raise, lift.
  destruct args as [|a [|b [|c [|d [|e [|f [|g rest]]]]]]]; settle_reads_only.
Qed.

Lemma quad_drawn_once (args : list pyval) (st : State) :
  drawn_once st (quad args st).
Proof.
  unfold quad. apply draw_on_return_reads_only.
  unfold reads_only, bind, ret, raise, lift.
  destruct args as [|a [|b [|c [|d [|e [|f [|g [|h [|i rest]]]]]]]]];
    settle_reads_only.
Qed.

Lemma bezier_drawn_once (args : list pyval) (st : State) :
  drawn_once st (bezier bezier_point args st).
Proof.
  unfold bezier. apply draw_on_return_reads_only.
  unfold reads_only, control_points, bind, get, ret, raise, lift.
  destruct (split_control_points args) as [[[[a b] c] d]|]; settle_reads_only.
Qed.

Lemma curve_drawn_once (args : list pyval) (st : State) :
  drawn_once st (curve curve_point args st).
Proof.
  unfold curve. apply draw_on_return_reads_only.
  unfold reads_only, control_points, bind, get, ret, raise, lift.
  destruct (split_control_points args) as [[[[a b] c] d]|]; settle_reads_only.
Qed.

Lemma Arc_reads_only (center radii : Point) (a b : R) (mode : pymode) (st : State) :
  reads_only (Arc SINCOS center radii a b mode) st.
Proof.
  unfold reads_only, Arc, bind, get, ret, lift.
  destruct (Arc__tessellate SINCOS _ center radii a b mode) as [vs|e].
  - right. eexists. eexists. reflexivity.
  - left. eexists. reflexivity.
Qed.

Lemma arc_drawn_once (args : list pyval) (mode emode : pymode) (st : State) :
  drawn_once st (arc SINCOS args mode emode st).
Proof.
  unfold arc. apply draw_on_return_reads_only.
  unfold reads_only. unfold bind at 1 2 3 4 5 6.
  destruct args as [|a [|b [|c [|d [|e [|f [|g rest]]]]]]];
    try (left; eexists; reflexivity).
  all: unfold bind, get, ret, raise, lift; case_inputs;
    try (left; eexists; reflexivity);
    apply Arc_reads_only.
Qed.

Lemma rect_drawn_once (args : list pyval) (mode : pymode) (st : State) :
  drawn_once st (rect args mode st).
Proof.
  unfold rect.
  destruct args as [|a [|b [|c [|d [|e rest]]]]]; try reflexivity.
  all: unfold bind, get, ret, raise, lift; cbn [unpack2 unpack1];
    case_inputs; try reflexivity; apply quad_drawn_once.
Qed.

Lemma square_drawn_once (args : list pyval) (mode : pymode) (st : State) :
  drawn_once st (square args mode st).
Proof.
  unfold square.
  destruct args as [|a [|b [|c [|d rest]]]]; try reflexivity.
  all: unfold bind at 1 2; unfold get, ret, raise;
    case_inputs; try reflexivity; apply rect_drawn_once.
Qed.

Lemma ellipse_drawn_once (args : list pyval) (mode : pymode) (st : State) :
  drawn_once st (ellipse SINCOS args mode st).
Proof.
  unfold ellipse.
  destruct args as [|a [|b [|c [|d [|e rest]]]]]; try reflexivity.
  all: unfold bind, get, ret, raise, lift; cbn [unpack2 unpack1];
    case_inputs; try reflexivity; apply arc_drawn_once.
Qed.

Lemma circle_drawn_once (args : list pyval) (mode : pymode) (st : State) :
  drawn_once st (circle SINCOS args mode st).
Proof.
  unfold circle.
  destruct args as [|a [|b [|c [|d rest]]]]; try reflexivity.
  all: unfold bind at 1 2; unfold get, ret, raise;
    case_inputs; try reflexivity; apply ellipse_drawn_once.
Qed.

Lemma point_drawn_once (x y z : pyval) (st : State) :
  drawn_once st (point SINCOS x y z st).
Proof.
  unfold point. unfold bind at 1. unfold get at 1.
  destruct (stroke_cap (renderer st)); cbn [cap_eq]; try reflexivity.
  - rewrite bind_ret_some. apply circle_drawn_once.
  - rewrite bind_ret_some. apply square_drawn_once.
Qed.

(** X2.  Every shape constructor either fails and leaves the state exactly
    as it was, or returns a childless shape and leaves the state exactly as
    it is after rendering that shape once: no constructor renders on
    failure, renders twice, or changes a mode, the transform or the style. *)
Theorem constructors_draw_once (args : list pyval) (x y z : pyval)
        (mode arc_mode ellipse_mode : pymode) (st : State) :
  drawn_once st (line args st) /\
  drawn_once st (bezier bezier_point args st) /\
  drawn_once st (curve curve_point args st) /\
  drawn_once st (triangle args st) /\
  drawn_once st (quad args st) /\
  drawn_once st (rect args mode st) /\
  drawn_once st (square args mode st) /\
  drawn_once st (arc SINCOS args arc_mode ellipse_mode st) /\
  drawn_once st (ellipse SINCOS args mode st) /\
  drawn_once st (circle SINCOS args mode st) /\
  drawn_once st (point SINCOS x y z st).
Proof.
  repeat split.
  - apply line_drawn_once.
  - apply bezier_drawn_once.
  - apply curve_drawn_once.
  - apply triangle_drawn_once.
  - apply quad_drawn_once.
  - apply rect_drawn_once.
  - apply square_drawn_once.
  - apply arc_drawn_once.
  - apply ellipse_drawn_once.
  - apply circle_drawn_once.
  - apply point_drawn_once.
Qed.

End DrawnOnce.

(** ** line, triangle and quad *)

Ltac polygon_success :=
  let H := fresh "H" in
  intros ? ? H; cbn [List.length In];
  unfold line, triangle, quad, _draw_on_return, bind, ret, raise, lift in H;
  revert H; case_inputs; cbn [draw_shape render bind ret];
  intros H; first [discriminate H | injection H as <- <-];
  (split; [auto 10|]); (split; [reflexivity|]);
  repeat eexists.

(** X3.  [line], [triangle] and [quad] return only for 2, 4 or 6 arguments
    (line), 3 or 6 (triangle), 4 or 8 (quad), and then the shape has the
    topology LINES, TRIANGLES or QUADS and exactly 2, 3 or 4 vertices, each
    a full (x, y, z) triple built by [Point]; with any other number of
    arguments they raise a ValueError and the state is untouched. *)
Theorem polygon_constructors (args : list pyval) (st : State) :
  (forall (sh : PShape) (st' : State),
      line args st = (Ok sh, st') ->
      In (List.length args) [2; 4; 6]%nat /\
      shape_type sh = Some LINES /\
      exists p1 p2 : Point, vertices sh = [Point_tuple p1; Point_tuple p2]) /\
  (forall (sh : PShape) (st' : State),
      triangle args st = (Ok sh, st') ->
      In (List.length args) [3; 6]%nat /\
      shape_type sh = Some TRIANGLES /\
      exists p1 p2 p3 : Point,
        vertices sh = [Point_tuple p1; Point_tuple p2; Point_tuple p3]) /\
  (forall (sh : PShape) (st' : State),
      quad args st = (Ok sh, st') ->
      In (List.length args) [4; 8]%nat /\
      shape_type sh = Some QUADS /\
      exists p1 p2 p3 p4 : Point,
        vertices sh = [Point_tuple p1; Point_tuple p2; Point_tuple p3; Point_tuple p4]) /\
  (~ In (List.length args) [2; 4; 6]%nat ->
   exists msg : string, line args st = (Raise (ValueError msg), st)) /\
  (~ In (List.length args) [3; 6]%nat ->
   exists msg : string, triangle args st = (Raise (ValueError msg), st)) /\
  (~ In (List.length args) [4; 8]%nat ->
   exists msg : string, quad args st = (Raise (ValueError msg), st)).
Proof.
  destruct args as [|a [|b [|c [|d [|e [|f [|g [|h [|i rest]]]]]]]]];
    repeat match goal with |- _ /\ _ => split end;
    first [polygon_success | arity_case].
Qed.

Lemma polygon_constructors_witness :
  let st := sketch_state identity_matrix ROUND 1 in
  let sh := Shape LINES [[0; 0; 0]; [3; 4; 0]]%R [] in
  line [Num 0; Num 0; Num 3; Num 4] st = (Ok sh, after_render sh st) /\
  In (List.length [Num 0; Num 0; Num 3; Num 4]) [2; 4; 6]%nat /\
  ~ In (List.length [Num 0; Num 0; Num 3]) [2; 4; 6]%nat /\
  exists msg : string,
    line [Num 0; Num 0; Num 3] st = (Raise (ValueError msg), st).
Proof.
  intros st sh.
  assert (Hrun : line [Num 0; Num 0; Num 3; Num 4] st = (Ok sh, after_render sh st))
    by reflexivity.
  assert (Hbad : ~ In (List.length [Num 0; Num 0; Num 3]) [2; 4; 6]%nat).
  { cbn [List.length In]. intros [H|[H|[H|H]]]; try discriminate H. exact H. }
  split; [exact Hrun|].
  destruct (polygon_constructors [Num 0; Num 0; Num 3; Num 4] st) as (Hline & _).
  destruct (Hline sh _ Hrun) as (Harity & _).
  split; [exact Harity|]. split; [exact Hbad|].
  destruct (polygon_constructors [Num 0; Num 0; Num 3] st) as (_ & _ & _ & Hraise & _).
  exact (Hraise Hbad).
Defined.

(** ** rect and square: the quad that is built *)

Lemma quad_of_points (p1 p2 p3 p4 : Point) (st : State) :
  let sh := Shape QUADS [Point_tuple p1; Point_tuple p2; Point_tuple p3; Point_tuple p4] [] in
  quad [Point_val p1; Point_val p2; Point_val p3; Point_val p4] st
  = (Ok sh, after_render sh st).
Proof. destruct p1, p2, p3, p4. reflexivity. Qed.

Ltac case_inputs_eqn :=
  repeat match goal with
         | |- context [match Point_star ?x with _ => _ end] =>
             destruct (Point_star x) eqn:?
         | |- context [match as_num ?x with _ => _ end] => destruct (as_num x) eqn:?
         | |- context [if mode_eq ?m ?s then _ else _] => destruct (mode_eq m s) eqn:?
         end.

Ltac rect_success :=
  match goal with
  | |- quad [Point_val ?p1; Point_val ?p2; Point_val ?p3; Point_val ?p4] ?st
       = (Ok ?sh, ?st') -> _ =>
      rewrite (quad_of_points p1 p2 p3 p4 st); cbv zeta;
      let H := fresh in intros H; injection H as <- <-
  | |- (Raise _, _) = (Ok _, _) -> _ =>
      let H := fresh in intros H; discriminate H
  end.

(** X4.  Whenever [rect] returns, it was called with 3 or 4 arguments in
    (explicit or stored) mode CORNER, CENTER or RADIUS, and the shape is a
    QUADS shape with the four corners of an axis-aligned rectangle, in the
    order corner, corner + (w, 0), corner + (w, h), corner + (0, h), all
    with the z of the given coordinate. *)
Theorem rect_returns_rectangle (args : list pyval) (mode : pymode)
        (st : State) (sh : PShape) (st' : State) :
  rect args mode st = (Ok sh, st') ->
  In (List.length args) [3; 4]%nat /\
  In (or_default mode (_rect_mode st)) [Some "CORNER"; Some "CENTER"; Some "RADIUS"] /\
  shape_type sh = Some QUADS /\
  exists x y z w h : R,
    vertices sh = [[x; y; z]; [x + w; y; z]; [x + w; y + h; z]; [x; y + h; z]]%R.
Proof.
  destruct args as [|a [|b [|c [|d [|e rest]]]]]; try discriminate.
  all: unfold rect, bind, get, ret, raise, lift; cbn [unpack1 unpack2 List.length In].
  all: case_inputs_eqn; cbn [Point_star star Point_val Point_new p_x p_y p_z];
    case_inputs_eqn; rect_success.
  all: repeat match goal with
              | H : mode_eq _ _ = true |- _ => apply mode_eq_true in H; rewrite H
              end.
  all: (split; [auto|]); (split; [cbn [In]; auto|]); (split; [reflexivity|]);
    cbn [vertices Point_tuple p_x p_y p_z]; repeat eexists.
Qed.

Lemma rect_returns_rectangle_witness :
  let st := sketch_state identity_matrix ROUND 1 in
  let sh := Shape QUADS [[0; 0; 0]; [10; 0; 0]; [10; 10; 0]; [0; 10; 0]]%R [] in
  rect [Tup [Num 0; Num 0]; Num 10; Num 10] (Some "CORNER") st
  = (Ok sh, after_render sh st) /\
  In (or_default (Some "CORNER") (_rect_mode st))
     [Some "CORNER"; Some "CENTER"; Some "RADIUS"] /\
  shape_type sh = Some QUADS.
Proof.
  intros st sh.
  assert (Hrun : rect [Tup [Num 0; Num 0]; Num 10; Num 10] (Some "CORNER") st
                 = (Ok sh, after_render sh st)).
  { pose proof (rect_CORNER_run 0 0 10 10 (Some "CORNER") st eq_refl) as H.
    cbv zeta in H. rewrite H. subst sh.
    replace (0 + 10)%R with 10%R by lra. reflexivity. }
  split; [exact Hrun|].
  destruct (rect_returns_rectangle _ _ _ _ _ Hrun) as (_ & Hmode & Htype & _).
  split; [exact Hmode|exact Htype].
Defined.

(** X5.  Whenever [square] returns, it was called with 2 or 3 arguments in
    a mode other than CORNERS, and the shape is a QUADS shape whose width
    and height are the same number: the corners are corner, corner + (s, 0),
    corner + (s, s), corner + (0, s). *)
Theorem square_returns_square (args : list pyval) (mode : pymode)
        (st : State) (sh : PShape) (st' : State) :
  square args mode st = (Ok sh, st') ->
  In (List.length args) [2; 3]%nat /\
  In (or_default mode (_rect_mode st)) [Some "CORNER"; Some "CENTER"; Some "RADIUS"] /\
  shape_type sh = Some QUADS /\
  exists x y z s : R,
    vertices sh = [[x; y; z]; [x + s; y; z]; [x + s; y + s; z]; [x; y + s; z]]%R.
Proof.
  destruct args as [|a [|b [|c [|d rest]]]]; try discriminate.
  all: unfold square, rect, bind, get, ret, raise, lift;
    cbn [unpack1 unpack2 List.length In].
  all: set (m := or_default mode (_rect_mode st));
    assert (Hm : or_default m (_rect_mode st) = m)
      by (subst m; destruct mode; [reflexivity|];
          cbn [or_default]; destruct (_rect_mode st); reflexivity);
    rewrite ?Hm; clearbody m.
  all: case_inputs_eqn; cbn [Point_star star Point_val Point_new p_x p_y p_z];
    case_inputs_eqn; rect_success.
  all: rewrite ?Hm in *.
  all: repeat match goal with
              | H : mode_eq _ _ = true |- _ => apply mode_eq_true in H; rewrite H
              end.
  all: (split; [auto|]); (split; [cbn [In]; auto|]); (split; [reflexivity|]);
    cbn [vertices Point_tuple p_x p_y p_z]; repeat eexists.
Qed.

Lemma square_returns_square_witness :
  let st := sketch_state identity_matrix ROUND 1 in
  exists (sh : PShape) (st' : State),
    square [Num 1; Num 2; Num 3] None st = (Ok sh, st') /\
    shape_type sh = Some QUADS /\
    In (List.length [Num 1; Num 2; Num 3]) [2; 3]%nat.
Proof.
  intros st.
  eexists. eexists.
  assert (Hrun : square [Num 1; Num 2; Num 3] None st
                 = (Ok (Shape QUADS [[1; 2; 0]; [1 + 3; 2; 0]; [1 + 3; 2 + 3; 0];
                                     [1; 2 + 3; 0]]%R []),
                    after_render (Shape QUADS [[1; 2; 0]; [1 + 3; 2; 0];
                                               [1 + 3; 2 + 3; 0]; [1; 2 + 3; 0]]%R [])
                                 st))
    by reflexivity.
  split; [exact Hrun|].
  destruct (square_returns_square _ _ _ _ _ Hrun) as (Harity & _ & Htype & _).
  split; [exact Htype|exact Harity].
Defined.

(** ** Coordinate modes describe the same shapes *)

Section ModesAgree.
Local Open Scope R_scope.

Variable SINCOS : list (R * R).

(** X6.  The three working modes of [rect] are different descriptions of
    the same rectangles: a CENTER call with centre (cx, cy) and size (w, h),
    a RADIUS call with the same centre and half sizes (w / 2, h / 2), and a
    CORNER call with corner (cx - w / 2, cy - h / 2) and size (w, h) return
    (and render) the same quad. *)
Theorem rect_modes_agree (cx cy w h : R) (st : State) :
  rect [Tup [Num cx; Num cy]; Num (w / 2); Num (h / 2)] (Some "RADIUS") st
  = rect [Tup [Num cx; Num cy]; Num w; Num h] (Some "CENTER") st /\
  rect [Tup [Num (cx - w / 2); Num (cy - h / 2)]; Num w; Num h] (Some "CORNER") st
  = rect [Tup [Num cx; Num cy]; Num w; Num h] (Some "CENTER") st /\
  rect [Num cx; Num cy; Num w; Num h] (Some "CENTER") st
  = rect [Tup [Num cx; Num cy]; Num w; Num h] (Some "CENTER") st.
Proof.
  split; [|split; reflexivity].
  destruct (rect_RADIUS_round_trip cx cy (w / 2) (h / 2) (Some "RADIUS") st eq_refl)
    as (x & y & w' & h' & Hrun & -> & -> & -> & -> & _).
  cbv zeta in Hrun. rewrite Hrun.
  destruct (rect_CENTER_round_trip cx cy w h (Some "CENTER") st eq_refl)
    as (x & y & w' & h' & Hrun' & -> & -> & -> & -> & _).
  cbv zeta in Hrun'. rewrite Hrun'.
  replace (2 * (w / 2)) with w by lra.
  replace (2 * (h / 2)) with h by lra.
  reflexivity.
Qed.

(** X7.  The three modes of [arc] (hence of [ellipse] and [circle]) are
    different descriptions of the same ellipses: a CORNER call with corner
    (x, y) and size (w, h), a CENTER call with centre (x + w / 2, y + h / 2)
    and the same size, and a RADIUS call with that centre and radii
    (w / 2, h / 2) return (and render) the same arc; [circle]'s size
    argument is a diameter in CENTER mode and a radius in RADIUS mode. *)
Theorem ellipse_modes_agree (x y w h a b d : R) (mode : pymode) (c : pyval)
        (st : State) :
  arc SINCOS [Tup [Num x; Num y]; Num w; Num h; Num a; Num b] mode (Some "CORNER") st
  = arc SINCOS [Tup [Num (x + w / 2); Num (y + h / 2)]; Num w; Num h; Num a; Num b]
        mode (Some "CENTER") st /\
  arc SINCOS [Tup [Num (x + w / 2); Num (y + h / 2)]; Num (w / 2); Num (h / 2);
              Num a; Num b] mode (Some "RADIUS") st
  = arc SINCOS [Tup [Num (x + w / 2); Num (y + h / 2)]; Num w; Num h; Num a; Num b]
        mode (Some "CENTER") st /\
  ellipse SINCOS [Tup [Num x; Num y]; Num w; Num h] (Some "CORNER") st
  = ellipse SINCOS [Tup [Num (x + w / 2); Num (y + h / 2)]; Num w; Num h]
            (Some "CENTER") st /\
  circle SINCOS [c; Num d] (Some "RADIUS") st
  = circle SINCOS [c; Num (2 * d)] (Some "CENTER") st /\
  circle SINCOS [c; Num d] (Some "CENTER") st
  = ellipse SINCOS [c; Num d; Num d] (Some "CENTER") st.
Proof.
  repeat split; try reflexivity.
  unfold circle, ellipse, arc, _draw_on_return, bind, get, ret, raise, lift.
  cbn [or_default mode_eq String.eqb Ascii.eqb Bool.eqb unpack2 as_num].
  replace (2 * d / 2) with d by lra. reflexivity.
Qed.

End ModesAgree.

(** ** ellipse in CORNERS mode *)

(** X8.  [ellipse] never returns in CORNERS mode, whether the mode is given
    or stored: the arity dispatch always leaves two trailing arguments and
    the CORNERS branch unpacks exactly one.  The call fails before anything
    is rendered; with a point as coordinate the error is the ValueError of
    the unpacking. *)
Theorem ellipse_CORNERS_never_returns (SINCOS : list (R * R)) (args : list pyval)
        (mode : pymode) (st : State) :
  or_default mode (_ellipse_mode st) = Some "CORNERS" ->
  (exists e : exn, ellipse SINCOS args mode st = (Raise e, st)) /\
  (forall (x y : R) (a b : pyval),
      ellipse SINCOS [Tup [Num x; Num y]; a; b] mode st
      = (Raise (ValueError "too many values to unpack (expected 1)"), st) /\
      ellipse SINCOS [Num x; Num y; a; b] mode st
      = (Raise (ValueError "too many values to unpack (expected 1)"), st)).
Proof.
  intros Hmode. split.
  - destruct args as [|a [|b [|c [|d [|e rest]]]]];
      try (eexists; reflexivity).
    + unfold ellipse, bind, get, ret, lift, raise. rewrite Hmode.
      cbn [mode_eq String.eqb Ascii.eqb Bool.eqb andb].
      destruct (Point_star a) as [p|e]; eexists; reflexivity.
    + unfold ellipse, bind, get, ret, lift, raise. rewrite Hmode.
      cbn [mode_eq String.eqb Ascii.eqb Bool.eqb andb].
      destruct (Point_star (Tup [a; b])) as [p|e]; eexists; reflexivity.
  - intros x y a b.
    split; unfold ellipse, bind, get, ret, lift, raise; rewrite Hmode; reflexivity.
Qed.

Lemma ellipse_CORNERS_never_returns_witness :
  let st := sketch_state identity_matrix ROUND 1 in
  or_default (Some "CORNERS") (_ellipse_mode st) = Some "CORNERS" /\
  ellipse (sincos_table 3600) [Num 0; Num 0; Num 4; Num 6] (Some "CORNERS") st
  = (Raise (ValueError "too many values to unpack (expected 1)"), st).
Proof.
  intros st. split; [reflexivity|].
  destruct (ellipse_CORNERS_never_returns (sincos_table 3600) [] (Some "CORNERS") st
              eq_refl) as [_ H].
  destruct (H 0%R 0%R (Num 4) (Num 6)) as [_ H2]. exact H2.
Defined.

(** ** The tessellation: when it returns, and what it returns *)

Lemma py_int_neg (x : R) : (x < 0)%R -> py_int x = - Int_part (- x).
Proof.
  intros Hx. unfold py_int. destruct (Rlt_dec x 0) as [_|H]; [reflexivity|lra].
Qed.

(** [int()] is monotone over all the reals. *)
Lemma py_int_mono (x y : R) : (x <= y)%R -> py_int x <= py_int y.
Proof.
  intros Hxy.
  destruct (Rlt_le_dec x 0) as [Hx|Hx]; destruct (Rlt_le_dec y 0) as [Hy|Hy].
  - rewrite (py_int_neg x Hx), (py_int_neg y Hy).
    pose proof (py_int_le (- y) (- x) ltac:(lra)) as H.
    rewrite !py_int_nonneg in H by lra. lia.
  - rewrite (py_int_neg x Hx).
    pose proof (py_int_ge_0 (- x) ltac:(lra)) as H1.
    rewrite py_int_nonneg in H1 by lra.
    pose proof (py_int_ge_0 y Hy). lia.
  - lra.
  - apply py_int_le. lra.
Qed.

Section TessellationResults.
Local Open Scope R_scope.

Variable SINCOS : list (R * R).

Lemma angle_index_mono (a b : R) :
  a <= b -> (angle_index SINCOS a <= angle_index SINCOS b)%Z.
Proof.
  intros Hab. unfold angle_index. apply py_int_mono.
  pose proof PI_RGT_0 as Hpi.
  assert (HL : 0 <= IZR (sclen SINCOS)) by (apply IZR_le; unfold sclen; lia).
  apply Rmult_le_compat_r; [exact HL|].
  unfold Rdiv. apply Rmult_le_compat_r; [|exact Hab].
  apply Rlt_le, Rinv_0_lt_compat. lra.
Qed.

Lemma Arc__tessellate_when_table_suffices (tm : matrix) (center radii : Point)
      (start_angle stop_angle : R) (mode : pymode) :
  (arc_acc tm center radii <= sclen SINCOS)%Z ->
  Arc__tessellate SINCOS tm center radii start_angle stop_angle mode
  = Ok (arc_vertices SINCOS tm center radii start_angle stop_angle mode).
Proof.
  intros Hlen.
  pose proof (arc_acc_range tm center radii) as Hacc.
  assert (Hinc : (0 < arc_inc SINCOS tm center radii)%Z).
  { unfold arc_inc. apply Z.div_str_pos. lia. }
  assert (Hpos : (0 < sclen SINCOS)%Z) by lia.
  unfold Arc__tessellate.
  fold (arc_acc tm center radii).
  rewrite (py_int_div (sclen SINCOS) (arc_acc tm center radii)) by lia.
  fold (arc_inc SINCOS tm center radii).
  fold (angle_index SINCOS start_angle) (angle_index SINCOS stop_angle).
  rewrite (py_range_pos _ _ _ Hinc). cbn [rbind].
  rewrite (tess_loop_total _ _ _ _ _ _ _ Hpos). cbn [rbind].
  rewrite (arc_vertex_total _ _ _ _ _ _ Hpos). cbn [rbind].
  unfold arc_vertices, arc_closure, arc_body, arc_indices, arc_prefix.
  rewrite map_app. cbn [map]. rewrite app_assoc.
  set (vs := (_ ++ _) ++ [_]).
  destruct (is_chord_or_pie mode); [|rewrite app_nil_r; reflexivity].
  rewrite (py_getitem_nth vs 0%Z []).
  - cbn [rbind]. destruct vs; reflexivity.
  - subst vs. rewrite !length_app. cbn [List.length]. lia.
Qed.

(** X9.  The tessellation returns exactly when the sine/cosine table has at
    least as many entries as the subdivision count of the arc: then it
    yields the vertices of [arc_vertices]; with a shorter table the stride
    is 0 and [range] raises its ValueError, whatever the angles and the
    closure mode. *)
Theorem tessellation_needs_table (tm : matrix) (center radii : Point)
        (start_angle stop_angle : R) (mode : pymode) :
  ((arc_acc tm center radii <= sclen SINCOS)%Z ->
   Arc__tessellate SINCOS tm center radii start_angle stop_angle mode
   = Ok (arc_vertices SINCOS tm center radii start_angle stop_angle mode)) /\
  ((sclen SINCOS < arc_acc tm center radii)%Z ->
   Arc__tessellate SINCOS tm center radii start_angle stop_angle mode
   = Raise (ValueError "range() arg 3 must not be zero")).
Proof.
  split; [apply Arc__tessellate_when_table_suffices|].
  intros Hshort.
  pose proof (arc_acc_range tm center radii) as Hacc.
  assert (Hlen : (0 <= sclen SINCOS)%Z) by (unfold sclen; lia).
  unfold Arc__tessellate. fold (arc_acc tm center radii).
  rewrite (py_int_div (sclen SINCOS) (arc_acc tm center radii)) by lia.
  rewrite Z.div_small by lia. reflexivity.
Qed.

End TessellationResults.

Lemma tessellation_needs_table_witness :
  (arc_acc identity_matrix (mkPoint 0 0 0) (mkPoint (5 / 2) (5 / 2) 0)
   <= sclen (sincos_table 20)) /\
  (sclen (sincos_table 20)
   < arc_acc (scale_matrix 100) (mkPoint 0 0 0) (mkPoint (5 / 2) (5 / 2) 0)) /\
  (exists vs : list vertex,
     Arc__tessellate (sincos_table 20) identity_matrix (mkPoint 0 0 0)
                     (mkPoint (5 / 2) (5 / 2) 0) 0%R PI (Some "OPEN") = Ok vs) /\
  Arc__tessellate (sincos_table 20) (scale_matrix 100) (mkPoint 0 0 0)
                  (mkPoint (5 / 2) (5 / 2) 0) 0%R PI (Some "OPEN")
  = Raise (ValueError "range() arg 3 must not be zero").
Proof.
  assert (H1 : arc_acc identity_matrix (mkPoint 0 0 0) (mkPoint (5 / 2) (5 / 2) 0)
               <= sclen (sincos_table 20)).
  { rewrite circle5_identity_acc, sclen_sincos_table. lia. }
  assert (H2 : sclen (sincos_table 20)
               < arc_acc (scale_matrix 100) (mkPoint 0 0 0) (mkPoint (5 / 2) (5 / 2) 0)).
  { rewrite circle5_scale100_acc, sclen_sincos_table. lia. }
  split; [exact H1|]. split; [exact H2|]. split.
  - eexists.
    apply (tessellation_needs_table (sincos_table 20) identity_matrix (mkPoint 0 0 0)
             (mkPoint (5 / 2) (5 / 2) 0) 0%R PI (Some "OPEN")). exact H1.
  - apply (tessellation_needs_table (sincos_table 20) (scale_matrix 100) (mkPoint 0 0 0)
             (mkPoint (5 / 2) (5 / 2) 0) 0%R PI (Some "OPEN")). exact H2.
Defined.

Section ArcShapes.
Local Open Scope R_scope.

Variable SINCOS : list (R * R).

(** X10.  An arc whose stop angle does not exceed its start angle (a zero
    or negative span) is degenerate: the walk over the table is empty and
    the only vertex on the ellipse is the one at the stop angle, so an OPEN
    arc has 1 vertex, a CHORD arc the same vertex twice, an arc with unset
    mode the centre and the vertex, and a PIE arc centre, vertex, centre. *)
Theorem degenerate_span (tm : matrix) (center radii : Point)
        (start_angle stop_angle : R) (mode : pymode) :
  (arc_acc tm center radii <= sclen SINCOS)%Z ->
  stop_angle <= start_angle ->
  let v := arc_point SINCOS (p_x center) (p_y center) (p_x radii) (p_y radii)
                     (angle_index SINCOS stop_angle) in
  let c := [p_x center; p_y center; 0] in
  Arc__tessellate SINCOS tm center radii start_angle stop_angle mode
  = Ok (if is_pie_or_unset mode
        then (if is_chord_or_pie mode then [c; v; c] else [c; v])
        else (if is_chord_or_pie mode then [v; v] else [v])).
Proof.
  intros Hlen Hspan v c.
  rewrite (Arc__tessellate_when_table_suffices SINCOS tm center radii _ _ mode Hlen).
  pose proof (arc_acc_range tm center radii) as Hacc.
  unfold arc_vertices, arc_prefix, arc_closure, arc_body, arc_indices.
  rewrite range_list_empty.
  - destruct (is_pie_or_unset mode), (is_chord_or_pie mode); reflexivity.
  - unfold arc_inc. apply Z.div_str_pos. lia.
  - apply angle_index_mono. exact Hspan.
Qed.

(** The number of vertices of an arc. *)
Lemma arc_vertices_length (tm : matrix) (center radii : Point)
      (start_angle stop_angle : R) (mode : pymode) :
  (arc_acc tm center radii <= sclen SINCOS)%Z ->
  Z.of_nat (List.length (arc_vertices SINCOS tm center radii start_angle stop_angle mode))
  = ((if is_pie_or_unset mode then 1 else 0)
     + Z.max 0 (ceil_div (angle_index SINCOS stop_angle - angle_index SINCOS start_angle)
                         (arc_inc SINCOS tm center radii))
     + 1
     + (if is_chord_or_pie mode then 1 else 0))%Z.
Proof.
  intros Hlen.
  pose proof (arc_acc_range tm center radii) as Hacc.
  assert (Hinc : (0 < arc_inc SINCOS tm center radii)%Z).
  { unfold arc_inc. apply Z.div_str_pos. lia. }
  unfold arc_vertices, arc_prefix, arc_closure, arc_body, arc_indices.
  rewrite !length_app, length_map, length_app, range_list_length by exact Hinc.
  destruct (is_pie_or_unset mode), (is_chord_or_pie mode); cbn [List.length]; lia.
Qed.

(** X11.  An arc within one turn (0 <= start <= stop <= 2 pi) has at least
    one and at most [2 * acc + 2] vertices (402 at most), where [acc] is
    its subdivision count: the vertex count is the fan origin (PIE or
    unset), one vertex per stride of [L // acc] table entries between the
    two table indices, the vertex at the stop angle, and the closing vertex
    (CHORD or PIE). *)
Theorem arc_vertex_count (tm : matrix) (center radii : Point)
        (start_angle stop_angle : R) (mode : pymode) :
  (arc_acc tm center radii <= sclen SINCOS)%Z ->
  0 <= start_angle <= stop_angle ->
  stop_angle <= PI * 2 ->
  exists vs : list vertex,
    Arc__tessellate SINCOS tm center radii start_angle stop_angle mode = Ok vs /\
    Z.of_nat (List.length vs)
    = ((if is_pie_or_unset mode then 1 else 0)
       + ceil_div (angle_index SINCOS stop_angle - angle_index SINCOS start_angle)
                  (sclen SINCOS / arc_acc tm center radii)
       + 1
       + (if is_chord_or_pie mode then 1 else 0))%Z /\
    (1 <= Z.of_nat (List.length vs) <= 2 * arc_acc tm center radii + 2)%Z /\
    (Z.of_nat (List.length vs) <= 402)%Z.
Proof.
  intros Hlen [Hs Hse] He.
  pose proof (arc_acc_range tm center radii) as Hacc.
  assert (Hinc : (0 < arc_inc SINCOS tm center radii)%Z).
  { unfold arc_inc. apply Z.div_str_pos. lia. }
  exists (arc_vertices SINCOS tm center radii start_angle stop_angle mode).
  split; [apply Arc__tessellate_when_table_suffices; exact Hlen|].
  rewrite (arc_vertices_length tm center radii start_angle stop_angle mode Hlen).
  pose proof (angle_index_mono SINCOS 0 start_angle Hs) as H0.
  rewrite angle_index_zero in H0.
  pose proof (angle_index_mono SINCOS start_angle stop_angle Hse) as H1.
  pose proof (angle_index_mono SINCOS stop_angle (PI * 2) He) as H2.
  rewrite angle_index_full_turn in H2.
  set (s := angle_index SINCOS start_angle) in *.
  set (e := angle_index SINCOS stop_angle) in *.
  pose proof (ceil_div_spec (e - s) _ Hinc) as [Hc1 Hc2].
  pose proof (ceil_div_spec (sclen SINCOS) _ Hinc) as [Hd1 Hd2].
  pose proof (stride_count_bounds (sclen SINCOS) (arc_acc tm center radii)
                                  ltac:(lia)) as [_ Hb].
  fold (arc_inc SINCOS tm center radii) in Hb |- *.
  set (inc := arc_inc SINCOS tm center radii) in *.
  set (n := ceil_div (e - s) inc) in *.
  set (N := ceil_div (sclen SINCOS) inc) in *.
  assert (Hn0 : (0 <= n)%Z) by nia.
  assert (HnN : (n <= N)%Z) by nia.
  rewrite (Z.max_r 0 n Hn0).
  destruct (is_pie_or_unset mode), (is_chord_or_pie mode); repeat split; lia.
Qed.

End ArcShapes.

Lemma degenerate_span_witness :
  (arc_acc identity_matrix (mkPoint 0 0 0) (mkPoint 1 1 0) <= sclen (sincos_table 3600)) /\
  (PI <= PI)%R /\
  Arc__tessellate (sincos_table 3600) identity_matrix (mkPoint 0 0 0) (mkPoint 1 1 0)
                  PI PI (Some "PIE")
  = Ok [[0; 0; 0]%R;
        arc_point (sincos_table 3600) 0 0 1 1 (angle_index (sincos_table 3600) PI);
        [0; 0; 0]%R].
Proof.
  assert (H1 : arc_acc identity_matrix (mkPoint 0 0 0) (mkPoint 1 1 0)
               <= sclen (sincos_table 3600)).
  { pose proof (arc_acc_range identity_matrix (mkPoint 0 0 0) (mkPoint 1 1 0)).
    rewrite sclen_sincos_table. lia. }
  assert (H2 : (PI <= PI)%R) by lra.
  split; [exact H1|]. split; [exact H2|].
  exact (degenerate_span (sincos_table 3600) identity_matrix (mkPoint 0 0 0)
                         (mkPoint 1 1 0) PI PI (Some "PIE") H1 H2).
Defined.

Lemma arc_vertex_count_witness :
  (arc_acc identity_matrix (mkPoint 0 0 0) (mkPoint 1 1 0) <= sclen (sincos_table 3600)) /\
  (0 <= 0 <= PI)%R /\
  (PI <= PI * 2)%R /\
  exists vs : list vertex,
    Arc__tessellate (sincos_table 3600) identity_matrix (mkPoint 0 0 0) (mkPoint 1 1 0)
                    0%R PI (Some "PIE") = Ok vs /\
    (1 <= Z.of_nat (List.length vs) <= 402).
Proof.
  assert (H1 : arc_acc identity_matrix (mkPoint 0 0 0) (mkPoint 1 1 0)
               <= sclen (sincos_table 3600)).
  { pose proof (arc_acc_range identity_matrix (mkPoint 0 0 0) (mkPoint 1 1 0)).
    rewrite sclen_sincos_table. lia. }
  pose proof PI_RGT_0 as Hpi.
  assert (H2 : (0 <= 0 <= PI)%R) by lra.
  assert (H3 : (PI <= PI * 2)%R) by lra.
  split; [exact H1|]. split; [exact H2|]. split; [exact H3|].
  destruct (arc_vertex_count (sincos_table 3600) identity_matrix (mkPoint 0 0 0)
              (mkPoint 1 1 0) 0%R PI (Some "PIE") H1 H2 H3)
    as (vs & Hrun & _ & Hb & Hmax).
  exists vs. split; [exact Hrun|]. lia.
Defined.

(** ** Where the vertices of an arc lie *)

Lemma py_getitem_In {A : Type} (l : list A) (i : Z) (a : A) :
  py_getitem l i = Ok a -> In a l.
Proof.
  unfold py_getitem.
  destruct ((_ <? 0) || (_ <=? _))%bool; [discriminate|].
  destruct (nth_error l _) as [b|] eqn:E; [|discriminate].
  intros [= <-]. apply (nth_error_In _ _ E).
Qed.

Section ArcGeometry.
Local Open Scope R_scope.

Variable SINCOS : list (R * R).

Lemma arc_vertex_flat (c1x c1y rx ry : R) (idx : Z) (v : vertex) :
  arc_vertex SINCOS c1x c1y rx ry idx = Ok v ->
  exists vx vy : R, v = [vx; vy; 0].
Proof.
  unfold arc_vertex.
  destruct (py_mod idx (sclen SINCOS)) as [i|e]; [|discriminate].
  cbn [rbind]. destruct (py_getitem SINCOS i) as [sc|e]; [|discriminate].
  cbn [rbind]. intros [= <-]. eexists. eexists. reflexivity.
Qed.

Lemma tess_loop_flat (c1x c1y rx ry : R) (idxs : list Z) :
  forall vs vs' : list vertex,
    tess_loop SINCOS c1x c1y rx ry idxs vs = Ok vs' ->
    Forall (fun v => exists vx vy : R, v = [vx; vy; 0]) vs ->
    Forall (fun v => exists vx vy : R, v = [vx; vy; 0]) vs'.
Proof.
  induction idxs as [|idx rest IH]; intros vs vs'; cbn [tess_loop].
  - intros [= <-] H. exact H.
  - destruct (arc_vertex SINCOS c1x c1y rx ry idx) as [v|e] eqn:E; [|discriminate].
    cbn [rbind]. intros Hrun Hvs. apply (IH _ _ Hrun).
    apply Forall_app. split; [exact Hvs|].
    constructor; [apply (arc_vertex_flat _ _ _ _ _ _ E)|constructor].
Qed.

(** X12.  Whatever the table, the transform and the inputs, every vertex a
    tessellation returns is a triple whose third component is 0: the z of
    the centre is dropped, for the fan origin too. *)
Theorem arc_vertices_are_flat (tm : matrix) (center radii : Point)
        (start_angle stop_angle : R) (mode : pymode) (vs : list vertex) :
  Arc__tessellate SINCOS tm center radii start_angle stop_angle mode = Ok vs ->
  vs <> [] /\
  Forall (fun v => exists vx vy : R, v = [vx; vy; 0]) vs.
Proof.
  unfold Arc__tessellate.
  destruct (py_range _ _ _) as [idxs|e]; [|discriminate]. cbn [rbind].
  destruct (tess_loop SINCOS _ _ _ _ idxs _) as [body|e] eqn:Hloop; [|discriminate].
  cbn [rbind].
  destruct (arc_vertex SINCOS _ _ _ _ _) as [v|e] eqn:Hv; [|discriminate].
  cbn [rbind].
  assert (Hflat : Forall (fun v => exists vx vy : R, v = [vx; vy; 0]) (body ++ [v])).
  { apply Forall_app. split.
    - apply (tess_loop_flat _ _ _ _ _ _ _ Hloop).
      destruct (is_pie_or_unset mode); repeat constructor.
      eexists. eexists. reflexivity.
    - constructor; [apply (arc_vertex_flat _ _ _ _ _ _ Hv)|constructor]. }
  destruct (is_chord_or_pie mode).
  - destruct (py_getitem (body ++ [v]) 0%Z) as [v0|e] eqn:H0; [|discriminate].
    cbn [rbind]. intros [= <-]. split.
    + intros H. apply app_eq_nil in H. destruct H as [_ H]. discriminate H.
    + apply Forall_app. split; [exact Hflat|].
      constructor; [|constructor].
      apply py_getitem_In in H0.
      rewrite Forall_forall in Hflat. apply Hflat. exact H0.
  - intros [= <-]. split; [|exact Hflat].
    intros H. apply app_eq_nil in H. destruct H as [_ H]. discriminate H.
Qed.

End ArcGeometry.

Lemma arc_vertices_are_flat_witness :
  exists vs : list vertex,
    Arc__tessellate (sincos_table 3600) identity_matrix (mkPoint 0 0 7) (mkPoint 1 1 0)
                    PI 0%R None = Ok vs /\
    Forall (fun v => exists vx vy : R, v = [vx; vy; 0%R]) vs.
Proof.
  assert (Hlen : MAX_POINT_ACCURACY <= sclen (sincos_table 3600)).
  { rewrite sclen_sincos_table. unfold MAX_POINT_ACCURACY. lia. }
  eexists. split.
  - apply (Arc__tessellate_total (sincos_table 3600) identity_matrix (mkPoint 0 0 7)
             (mkPoint 1 1 0) PI 0%R None Hlen).
  - apply (arc_vertices_are_flat (sincos_table 3600) identity_matrix (mkPoint 0 0 7)
             (mkPoint 1 1 0) PI 0%R None).
    apply (Arc__tessellate_total (sincos_table 3600) identity_matrix (mkPoint 0 0 7)
             (mkPoint 1 1 0) PI 0%R None Hlen).
Defined.

Section OnTheEllipse.
Local Open Scope R_scope.

Lemma ellipse_point_equation (n : nat) (center radii : Point) (idx : Z) :
  exists vx vy : R,
    ellipse_point n center radii idx = [vx; vy; 0] /\
    p_y radii * p_y radii * ((vx - p_x center) * (vx - p_x center))
    + p_x radii * p_x radii * ((vy - p_y center) * (vy - p_y center))
    = p_x radii * p_x radii * (p_y radii * p_y radii).
Proof.
  unfold ellipse_point.
  set (t := 2 * PI * IZR idx / INR n).
  exists (p_x center + p_x radii * cos t), (p_y center + p_y radii * sin t).
  split; [reflexivity|].
  pose proof (sin2_cos2 t) as H. unfold Rsqr in H.
  replace (p_x center + p_x radii * cos t - p_x center) with (p_x radii * cos t) by ring.
  replace (p_y center + p_y radii * sin t - p_y center) with (p_y radii * sin t) by ring.
  transitivity (p_x radii * p_x radii * (p_y radii * p_y radii)
                * (sin t * sin t + cos t * cos t)); [ring|].
  rewrite H. ring.
Qed.

(** X13.  Over a true sine/cosine table of [n >= 200] entries, every vertex
    that the tessellation places for a table index lies exactly on the
    ellipse with the given centre and radii:
    ry^2 (vx - cx)^2 + rx^2 (vy - cy)^2 = rx^2 ry^2.  The returned list is
    the fan origin (if any), these vertices, and the closing vertex (if
    any). *)
Theorem arc_vertices_on_ellipse (n : nat) (tm : matrix) (center radii : Point)
        (start_angle stop_angle : R) (mode : pymode) :
  (200 <= n)%nat ->
  let body := arc_body (sincos_table n) tm center radii start_angle stop_angle in
  Arc__tessellate (sincos_table n) tm center radii start_angle stop_angle mode
  = Ok ((arc_prefix center mode ++ body)
        ++ arc_closure (hd [] (arc_prefix center mode ++ body)) mode) /\
  body <> [] /\
  Forall (fun v =>
            exists vx vy : R,
              v = [vx; vy; 0] /\
              p_y radii * p_y radii * ((vx - p_x center) * (vx - p_x center))
              + p_x radii * p_x radii * ((vy - p_y center) * (vy - p_y center))
              = p_x radii * p_x radii * (p_y radii * p_y radii))
         body.
Proof.
  intros Hn body.
  assert (Hlen : (MAX_POINT_ACCURACY <= sclen (sincos_table n))%Z).
  { rewrite sclen_sincos_table. unfold MAX_POINT_ACCURACY. lia. }
  split; [apply (Arc__tessellate_total _ tm center radii _ _ mode Hlen)|].
  subst body. unfold arc_body, arc_indices. split.
  - rewrite map_app. cbn [map]. intros H.
    apply app_eq_nil in H. destruct H as [_ H]. discriminate H.
  - apply Forall_forall. intros v Hin. apply in_map_iff in Hin.
    destruct Hin as (idx & <- & _).
    rewrite (arc_point_on_ellipse n ltac:(lia) center radii idx).
    apply ellipse_point_equation.
Qed.


End OnTheEllipse.

Lemma arc_vertices_on_ellipse_witness :
  (200 <= 3600)%nat /\
  arc_body (sincos_table 3600) identity_matrix (mkPoint 1 2 0) (mkPoint 3 4 0) 0%R PI
  <> [].
Proof.
  assert (Hn : (200 <= 3600)%nat) by lia.
  split; [exact Hn|].
  destruct (arc_vertices_on_ellipse 3600 identity_matrix (mkPoint 1 2 0)
              (mkPoint 3 4 0) 0%R PI (Some "OPEN") Hn) as (_ & Hne & _).
  exact Hne.
Defined.

(** ** Every ellipse is a closed polygon *)

Section ClosedEllipses.
Local Open Scope R_scope.

Variable SINCOS : list (R * R).

Lemma Arc__tessellate_short_table (tm : matrix) (center radii : Point)
      (start_angle stop_angle : R) (mode : pymode) :
  (sclen SINCOS < arc_acc tm center radii)%Z ->
  Arc__tessellate SINCOS tm center radii start_angle stop_angle mode
  = Raise (ValueError "range() arg 3 must not be zero").
Proof.
  intros Hshort.
  pose proof (arc_acc_range tm center radii) as Hacc.
  assert (Hlen : (0 <= sclen SINCOS)%Z) by (unfold sclen; lia).
  unfold Arc__tessellate. fold (arc_acc tm center radii).
  rewrite (py_int_div (sclen SINCOS) (arc_acc tm center radii)) by lia.
  rewrite Z.div_small by lia. reflexivity.
Qed.

Lemma full_turn_is_closed (tm : matrix) (center radii : Point) (vs : list vertex) :
  Arc__tessellate SINCOS tm center radii 0 (PI * 2) (Some "CHORD") = Ok vs ->
  closed_full_turn SINCOS (Shape TESS vs []).
Proof.
  intros Hrun.
  pose proof (arc_acc_range tm center radii) as Hacc.
  destruct (Z.lt_ge_cases (sclen SINCOS) (arc_acc tm center radii)) as [Hshort|Hlen].
  { rewrite (Arc__tessellate_short_table tm center radii _ _ _ Hshort) in Hrun.
    discriminate Hrun. }
  rewrite (Arc__tessellate_when_table_suffices SINCOS tm center radii _ _ _ Hlen) in Hrun.
  injection Hrun as <-.
  unfold closed_full_turn. cbn [shape_type children vertices].
  split; [reflexivity|]. split; [reflexivity|].
  split; [apply (chord_first_is_last SINCOS tm center radii 0 (PI * 2))|].
  exists (arc_acc tm center radii).
  split; [exact Hacc|]. split; [exact Hlen|].
  rewrite (arc_vertices_length SINCOS tm center radii 0 (PI * 2) (Some "CHORD") Hlen).
  rewrite angle_index_zero, angle_index_full_turn, Z.sub_0_r.
  unfold arc_inc.
  pose proof (stride_count_bounds (sclen SINCOS) (arc_acc tm center radii)
                                  ltac:(lia)) as Hb.
  cbn [is_pie_or_unset is_chord_or_pie mode_eq String.eqb Ascii.eqb Bool.eqb orb].
  split; lia.
Qed.

Lemma ellipse_returns_closed (args : list pyval) (mode : pymode)
      (st : State) (sh : PShape) (st' : State) :
  ellipse SINCOS args mode st = (Ok sh, st') ->
  closed_full_turn SINCOS sh.
Proof.
  destruct args as [|a [|b [|c [|d [|e rest]]]]]; try discriminate.
  all: unfold ellipse, arc, _draw_on_return, Arc, bind, get, ret, raise, lift;
    repeat (cbn [unpack1 unpack2 as_num];
            match goal with
            | |- context [match Point_star ?x with _ => _ end] =>
                destruct (Point_star x)
            | |- context [match as_num ?x with _ => _ end] => destruct (as_num x)
            | |- context [if mode_eq ?m ?s then _ else _] => destruct (mode_eq m s)
            end);
    cbn [unpack1 unpack2 as_num]; try discriminate.
  all: match goal with
       | |- context [Arc__tessellate SINCOS ?tm ?c ?r ?a ?b ?m] =>
           destruct (Arc__tessellate SINCOS tm c r a b m) as [vs|err] eqn:Hrun
       end; try discriminate.
  all: cbn [draw_shape render bind ret]; intros H; injection H as <- <-.
  all: apply (full_turn_is_closed _ _ _ _ Hrun).
Qed.

(** X15.  Every shape that [ellipse] or [circle] returns, in whatever mode
    and calling convention, is a childless tessellated polygon that is
    closed (its first and last vertices are equal) and has
    [ceil(L / (L // acc)) + 2] vertices for a table of [L] entries and a
    subdivision count [acc] in 20..200, hence at least 22 and at most 401
    vertices. *)
Theorem ellipses_are_closed (args : list pyval) (mode : pymode) (st : State) :
  (forall (sh : PShape) (st' : State),
      ellipse SINCOS args mode st = (Ok sh, st') ->
      closed_full_turn SINCOS sh /\
      (22 <= Z.of_nat (List.length (vertices sh)) <= 401)%Z) /\
  (forall (sh : PShape) (st' : State),
      circle SINCOS args mode st = (Ok sh, st') ->
      closed_full_turn SINCOS sh /\
      (22 <= Z.of_nat (List.length (vertices sh)) <= 401)%Z).
Proof.
  assert (Hbound : forall sh, closed_full_turn SINCOS sh ->
                      (22 <= Z.of_nat (List.length (vertices sh)) <= 401)%Z).
  { intros sh (_ & _ & _ & acc & Hacc & _ & _ & Hb). lia. }
  split; intros sh st' Hrun.
  - pose proof (ellipse_returns_closed args mode st sh st' Hrun) as H.
    split; [exact H|apply Hbound; exact H].
  - assert (H : closed_full_turn SINCOS sh).
    { revert Hrun.
      destruct args as [|a [|b [|c [|d rest]]]]; try discriminate.
      all: unfold circle; unfold bind at 1 2; unfold get, ret, raise;
        case_inputs; try discriminate; apply ellipse_returns_closed. }
    split; [exact H|apply Hbound; exact H].
Qed.

End ClosedEllipses.

Lemma ellipses_are_closed_witness :
  let st := sketch_state identity_matrix ROUND 1 in
  exists (sh : PShape) (st' : State),
    circle (sincos_table 3600) [Num 0; Num 0; Num 5] None st = (Ok sh, st') /\
    hd [] (vertices sh) = last (vertices sh) [] /\
    22 <= Z.of_nat (List.length (vertices sh)) <= 401.
Proof.
  intros st.
  assert (Hlen : MAX_POINT_ACCURACY <= sclen (sincos_table 3600)).
  { rewrite sclen_sincos_table. unfold MAX_POINT_ACCURACY. lia. }
  pose proof (circle_CENTER_shape (sincos_table 3600) (Tup [Num 0; Num 0])
                (mkPoint 0 0 0) 5 None st Hlen eq_refl eq_refl) as Hrun.
  cbv zeta in Hrun.
  eexists. eexists.
  assert (Hrun' : circle (sincos_table 3600) [Num 0; Num 0; Num 5] None st
                  = circle (sincos_table 3600) [Tup [Num 0; Num 0]; Num 5] None st)
    by reflexivity.
  rewrite Hrun'. split; [exact Hrun|].
  destruct (ellipses_are_closed (sincos_table 3600) [Tup [Num 0; Num 0]; Num 5] None st)
    as [_ Hcircle].
  destruct (Hcircle _ _ Hrun) as ((_ & _ & Hclosed & _) & Hcount).
  split; [exact Hclosed|exact Hcount].
Defined.

(** ** The stored modes are defaults, and nothing more *)

Section StoredModes.

Variable SINCOS : list (R * R).

Ltac case_inputs_reduced :=
  repeat (cbn [unpack1 unpack2 as_num _rect_mode _ellipse_mode with_modes
                 renderer];
          match goal with
          | |- context [match Point_star ?x with _ => _ end] =>
              destruct (Point_star x)
          | |- context [match as_num ?x with _ => _ end] => destruct (as_num x)
          | |- context [if mode_eq ?m ?s then _ else _] => destruct (mode_eq m s)
          end).

Lemma quad_frame (args : list pyval) (rm em : pymode) (st : State) :
  quad args (with_modes rm em st) = reframe rm em (quad args st).
Proof.
  unfold quad, _draw_on_return, bind, ret, raise, lift, reframe.
  destruct args as [|a [|b [|c [|d [|e [|f [|g [|h [|i rest]]]]]]]]];
    case_inputs_reduced; reflexivity.
Qed.

Lemma rect_frame (args : list pyval) (mode mode' rm em : pymode) (st : State) :
  or_default mode rm = or_default mode' (_rect_mode st) ->
  rect args mode (with_modes rm em st) = reframe rm em (rect args mode' st).
Proof.
  intros Hmode. unfold rect.
  destruct args as [|a [|b [|c [|d [|e rest]]]]]; try reflexivity.
  all: unfold bind, get, ret, raise, lift;
    cbn [_rect_mode with_modes]; rewrite Hmode;
    case_inputs_reduced; try reflexivity; apply quad_frame.
Qed.

Lemma or_default_twice (mode d : pymode) :
  or_default (or_default mode d) d = or_default mode d.
Proof. destruct mode; [reflexivity|]. cbn. destruct d; reflexivity. Qed.

Lemma square_frame (args : list pyval) (mode mode' rm em : pymode) (st : State) :
  or_default mode rm = or_default mode' (_rect_mode st) ->
  square args mode (with_modes rm em st) = reframe rm em (square args mode' st).
Proof.
  intros Hmode. unfold square.
  destruct args as [|a [|b [|c [|d rest]]]]; try reflexivity.
  all: unfold bind at 1 2 3 4; unfold get, ret, raise;
    cbn [_rect_mode with_modes]; rewrite Hmode;
    case_inputs_reduced; try reflexivity;
    apply rect_frame; rewrite or_default_twice; rewrite <- Hmode;
    apply or_default_twice.
Qed.

Lemma arc_frame (args : list pyval) (mode emode emode' rm em : pymode) (st : State) :
  or_default emode em = or_default emode' (_ellipse_mode st) ->
  arc SINCOS args mode emode (with_modes rm em st)
  = reframe rm em (arc SINCOS args mode emode' st).
Proof.
  intros Hmode.
  unfold arc, _draw_on_return, Arc, bind, get, ret, raise, lift, reframe.
  destruct args as [|a [|b [|c [|d [|e [|f [|g rest]]]]]]]; try reflexivity.
  all: cbn [_ellipse_mode with_modes]; rewrite Hmode;
    case_inputs_reduced; try reflexivity;
    cbn [with_modes renderer];
    match goal with
    | |- context [Arc__tessellate SINCOS ?tm ?c ?r ?x ?y ?m] =>
        destruct (Arc__tessellate SINCOS tm c r x y m)
    end; reflexivity.
Qed.

Lemma ellipse_frame (args : list pyval) (mode mode' rm em : pymode) (st : State) :
  or_default mode em = or_default mode' (_ellipse_mode st) ->
  ellipse SINCOS args mode (with_modes rm em st)
  = reframe rm em (ellipse SINCOS args mode' st).
Proof.
  intros Hmode. unfold ellipse.
  destruct args as [|a [|b [|c [|d [|e rest]]]]]; try reflexivity.
  all: unfold bind, get, ret, raise, lift;
    cbn [_ellipse_mode with_modes]; rewrite Hmode;
    case_inputs_reduced; try reflexivity;
    apply arc_frame; try reflexivity;
    rewrite or_default_twice; rewrite <- Hmode; apply or_default_twice.
Qed.

Lemma circle_frame (args : list pyval) (mode mode' rm em : pymode) (st : State) :
  or_default mode em = or_default mode' (_ellipse_mode st) ->
  circle SINCOS args mode (with_modes rm em st)
  = reframe rm em (circle SINCOS args mode' st).
Proof.
  intros Hmode. unfold circle.
  destruct args as [|a [|b [|c [|d rest]]]]; try reflexivity.
  all: unfold bind at 1 2 3 4; unfold get, ret, raise;
    cbn [_ellipse_mode with_modes]; rewrite Hmode;
    case_inputs_reduced; try reflexivity;
    apply ellipse_frame; rewrite or_default_twice; rewrite <- Hmode;
    apply or_default_twice.
Qed.

(** X16.  The stored modes are defaults and nothing more.  Setting a mode
    and then calling a constructor without a mode gives the outcome of
    calling it with that mode; an explicit mode wins over whatever was
    stored; and each setter leaves the other family of constructors alone
    ([ellipse_mode] does not affect [rect] and [square], [rect_mode] does
    not affect [ellipse], [circle] and [arc]).  Outcomes are compared up to
    the stored modes themselves ([reframe]). *)
Theorem stored_modes_are_defaults (args : list pyval) (m : string)
        (mode arc_mode new : pymode) (st : State) :
  let rm := _rect_mode st in
  let em := _ellipse_mode st in
  bind (rect_mode (Some m)) (fun _ => rect args None) st
  = reframe (Some m) em (rect args (Some m) st) /\
  bind (rect_mode (Some m)) (fun _ => square args None) st
  = reframe (Some m) em (square args (Some m) st) /\
  bind (ellipse_mode (Some m)) (fun _ => ellipse SINCOS args None) st
  = reframe rm (Some m) (ellipse SINCOS args (Some m) st) /\
  bind (ellipse_mode (Some m)) (fun _ => circle SINCOS args None) st
  = reframe rm (Some m) (circle SINCOS args (Some m) st) /\
  bind (ellipse_mode (Some m)) (fun _ => arc SINCOS args arc_mode None) st
  = reframe rm (Some m) (arc SINCOS args arc_mode (Some m) st) /\
  bind (rect_mode new) (fun _ => rect args (Some m)) st
  = reframe new em (rect args (Some m) st) /\
  bind (rect_mode new) (fun _ => square args (Some m)) st
  = reframe new em (square args (Some m) st) /\
  bind (ellipse_mode new) (fun _ => ellipse SINCOS args (Some m)) st
  = reframe rm new (ellipse SINCOS args (Some m) st) /\
  bind (ellipse_mode new) (fun _ => circle SINCOS args (Some m)) st
  = reframe rm new (circle SINCOS args (Some m) st) /\
  bind (ellipse_mode new) (fun _ => arc SINCOS args arc_mode (Some m)) st
  = reframe rm new (arc SINCOS args arc_mode (Some m) st) /\
  bind (ellipse_mode new) (fun _ => rect args mode) st
  = reframe rm new (rect args mode st) /\
  bind (ellipse_mode new) (fun _ => square args mode) st
  = reframe rm new (square args mode st) /\
  bind (rect_mode new) (fun _ => ellipse SINCOS args mode) st
  = reframe new em (ellipse SINCOS args mode st) /\
  bind (rect_mode new) (fun _ => circle SINCOS args mode) st
  = reframe new em (circle SINCOS args mode st) /\
  bind (rect_mode new) (fun _ => arc SINCOS args arc_mode mode) st
  = reframe new em (arc SINCOS args arc_mode mode st).
Proof.
  intros rm em.
  assert (Hr : forall v, rect_mode v st = (Ok tt, with_modes v em st)) by reflexivity.
  assert (He : forall v, ellipse_mode v st = (Ok tt, with_modes rm v st)) by reflexivity.
  repeat match goal with |- _ /\ _ => split end;
    unfold bind at 1; rewrite ?Hr, ?He;
    first [ apply rect_frame | apply square_frame | apply ellipse_frame
          | apply circle_frame | apply arc_frame ];
    reflexivity.
Qed.

End StoredModes.

(** ** The walk over the table *)

Lemma range_list_nth (start stop step : Z) (k : nat) :
  0 < step ->
  (k < List.length (range_list start stop step))%nat ->
  nth_error (range_list start stop step) k = Some (start + Z.of_nat k * step) /\
  start + Z.of_nat k * step < stop.
Proof.
  intros Hstep Hk. rewrite range_list_length in Hk by exact Hstep.
  unfold range_list. rewrite (range_len_pos _ _ _ Hstep).
  rewrite nth_error_map, nth_error_seq.
  destruct (Nat.ltb_spec k (Z.to_nat (ceil_div (stop - start) step))) as [_|H]; [|lia].
  cbn [option_map Nat.add]. split; [reflexivity|].
  pose proof (ceil_div_spec (stop - start) step Hstep) as [Hc _].
  nia.
Qed.

(** The indices of the reference walk: an arithmetic progression below
    the stop index, then the stop index. *)
Lemma arc_indices_walk (SINCOS : list (R * R)) (tm : matrix) (center radii : Point)
        (start_angle stop_angle : R) :
  arc_acc tm center radii <= sclen SINCOS ->
  let s := angle_index SINCOS start_angle in
  let e := angle_index SINCOS stop_angle in
  let inc := arc_inc SINCOS tm center radii in
  let indices := arc_indices SINCOS tm center radii start_angle stop_angle in
  let n := Z.to_nat (ceil_div (e - s) inc) in
  0 < inc /\
  List.length indices = S n /\
  (forall k : nat,
      (k < n)%nat ->
      nth_error indices k = Some (s + Z.of_nat k * inc) /\
      s + Z.of_nat k * inc < e) /\
  nth_error indices n = Some e /\
  last indices 0 = e /\
  (s < e -> e - inc <= s + (Z.of_nat n - 1) * inc < e).
Proof.
  intros Hlen s e inc indices n.
  pose proof (arc_acc_range tm center radii) as Hacc.
  assert (Hinc : 0 < inc) by (subst inc; unfold arc_inc; apply Z.div_str_pos; lia).
  assert (Hn : List.length (range_list s e inc) = n)
    by (apply range_list_length; exact Hinc).
  subst indices. unfold arc_indices. fold s e inc.
  split; [exact Hinc|]. split; [rewrite length_app, Hn; cbn; lia|].
  split; [|split; [|split]].
  - intros k Hk.
    destruct (range_list_nth s e inc k Hinc ltac:(lia)) as [Hnth Hlt].
    split; [|exact Hlt].
    rewrite nth_error_app1 by lia. exact Hnth.
  - rewrite nth_error_app2 by lia. rewrite Hn, Nat.sub_diag. reflexivity.
  - apply last_last.
  - intros Hse.
    pose proof (ceil_div_spec (e - s) inc Hinc) as [Hc1 Hc2].
    assert (Hpos : 0 < ceil_div (e - s) inc) by nia.
    subst n. rewrite Z2Nat.id by lia. nia.
Qed.

(** X17.  What [Arc._tessellate] returns is, between the fan origin and
    the closing vertex, the list of the vertices that [arc_vertex] builds
    for the table indices [s, s + inc, s + 2 inc, ...] lying strictly below
    the stop index [e], followed by the vertex for [e] itself, where [s] and
    [e] are [int(angle / (2 pi) * len(SINCOS))] for the start and stop angle
    and [inc] is [int(len(SINCOS) / acc)]: the walk never passes the stop
    angle, the last vertex on the ellipse is at the stop index exactly, and
    the stride before it is at most [inc] entries long. *)
Theorem arc_walk (SINCOS : list (R * R)) (tm : matrix) (center radii : Point)
        (start_angle stop_angle : R) (mode : pymode) :
  arc_acc tm center radii <= sclen SINCOS ->
  let c1x := p_x center in
  let c1y := p_y center in
  let rx := p_x radii in
  let ry := p_y radii in
  let acc := point_accuracy (projected_size tm c1x c1y rx ry) in
  let inc := py_int (IZR (sclen SINCOS) / IZR acc) in
  let s := py_int ((start_angle / (PI * 2)) * IZR (sclen SINCOS)) in
  let e := py_int ((stop_angle / (PI * 2)) * IZR (sclen SINCOS)) in
  let n := Z.to_nat (ceil_div (e - s) inc) in
  let prefix := if is_pie_or_unset mode then [[c1x; c1y; 0%R]] else [] in
  exists body : list vertex,
    Arc__tessellate SINCOS tm center radii start_angle stop_angle mode
    = Ok ((prefix ++ body)
          ++ (if is_chord_or_pie mode then [hd [] (prefix ++ body)] else [])) /\
    0 < inc /\
    List.length body = S n /\
    (forall k : nat,
        (k < n)%nat ->
        s + Z.of_nat k * inc < e /\
        exists v : vertex,
          nth_error body k = Some v /\
          arc_vertex SINCOS c1x c1y rx ry (s + Z.of_nat k * inc) = Ok v) /\
    (exists v : vertex,
        nth_error body n = Some v /\
        last body [] = v /\
        arc_vertex SINCOS c1x c1y rx ry e = Ok v) /\
    (s < e -> e - inc <= s + (Z.of_nat n - 1) * inc < e).
Proof.
  intros Hlen c1x c1y rx ry acc inc s e n prefix.
  pose proof (arc_acc_range tm center radii) as Hacc.
  assert (Hpos : 0 < sclen SINCOS) by lia.
  assert (Hinc_eq : inc = arc_inc SINCOS tm center radii).
  { subst inc acc. unfold arc_inc, arc_acc. apply py_int_div; [lia|].
    fold (arc_acc tm center radii). lia. }
  destruct (arc_indices_walk SINCOS tm center radii start_angle stop_angle Hlen)
    as (Hinc & Hlength & Hstrides & Hstop & Hlast & Hgap).
  fold s e in Hlength, Hstrides, Hstop, Hlast, Hgap.
  unfold angle_index in Hlength, Hstrides, Hstop, Hlast, Hgap.
  fold s e in Hlength, Hstrides, Hstop, Hlast, Hgap.
  rewrite <- Hinc_eq in Hinc, Hlength, Hstrides, Hstop, Hgap.
  fold n in Hlength, Hstrides, Hstop, Hgap.
  exists (arc_body SINCOS tm center radii start_angle stop_angle).
  split; [|split; [exact Hinc|split; [|split; [|split; [|exact Hgap]]]]].
  - rewrite (Arc__tessellate_when_table_suffices SINCOS tm center radii _ _ mode Hlen).
    reflexivity.
  - unfold arc_body. rewrite length_map. exact Hlength.
  - intros k Hk. destruct (Hstrides k Hk) as [Hnth Hlt].
    split; [exact Hlt|].
    exists (arc_point SINCOS c1x c1y rx ry (s + Z.of_nat k * inc)).
    split; [|apply arc_vertex_total; exact Hpos].
    unfold arc_body. rewrite nth_error_map, Hnth. reflexivity.
  - exists (arc_point SINCOS c1x c1y rx ry e).
    split; [|split; [|apply arc_vertex_total; exact Hpos]].
    + unfold arc_body. rewrite nth_error_map, Hstop. reflexivity.
    + unfold arc_body, arc_indices. rewrite map_app. cbn [map]. apply last_last.
Qed.

Lemma arc_walk_witness :
  arc_acc identity_matrix (mkPoint 0 0 0) (mkPoint 1 1 0) <= sclen (sincos_table 3600) /\
  exists body : list vertex,
    Arc__tessellate (sincos_table 3600) identity_matrix (mkPoint 0 0 0) (mkPoint 1 1 0)
                    0%R (PI * 2)%R (Some "OPEN")
    = Ok body /\
    arc_vertex (sincos_table 3600) 0 0 1 1 3600 = Ok (last body []).
Proof.
  assert (H1 : arc_acc identity_matrix (mkPoint 0 0 0) (mkPoint 1 1 0)
               <= sclen (sincos_table 3600)).
  { pose proof (arc_acc_range identity_matrix (mkPoint 0 0 0) (mkPoint 1 1 0)).
    rewrite sclen_sincos_table. lia. }
  split; [exact H1|].
  destruct (arc_walk (sincos_table 3600) identity_matrix (mkPoint 0 0 0)
              (mkPoint 1 1 0) 0%R (PI * 2)%R (Some "OPEN") H1)
    as (body & Hrun & _ & _ & _ & (v & _ & Hlast & Hv) & _).
  cbv zeta in Hrun, Hlast, Hv. cbn [p_x p_y] in Hv.
  exists body. split.
  - rewrite Hrun. cbn [is_pie_or_unset is_chord_or_pie mode_eq String.eqb Ascii.eqb
                         Bool.eqb orb app]. rewrite app_nil_r. reflexivity.
  - rewrite Hlast.
    change (py_int (PI * 2 / (PI * 2) * IZR (sclen (sincos_table 3600))))
      with (angle_index (sincos_table 3600) (PI * 2)) in Hv.
    rewrite angle_index_full_turn, sclen_sincos_table in Hv. exact Hv.
Defined.

(** ** bezier and curve at the edge of the resolution *)

Section CurveEdges.

Variables bezier_point curve_point :
  pyval -> pyval -> pyval -> pyval -> R -> result (list R).

(** X18.  With control points of a supported arity, a resolution of 0 makes
    [bezier] and [curve] raise ZeroDivisionError (at t = 0 / 0, before the
    evaluator is asked), and a negative resolution makes them return, and
    render, a LINE_STRIP shape without vertices; in both cases the
    evaluator is never consulted. *)
Theorem curves_at_degenerate_resolution (args : list pyval) (st : State) :
  split_control_points args <> None ->
  (bezier_resolution st = 0 ->
   bezier bezier_point args st = (Raise ZeroDivisionError, st)) /\
  (curve_resolution st = 0 ->
   curve curve_point args st = (Raise ZeroDivisionError, st)) /\
  (bezier_resolution st < 0 ->
   bezier bezier_point args st
   = (Ok (Shape LINE_STRIP [] []), after_render (Shape LINE_STRIP [] []) st)) /\
  (curve_resolution st < 0 ->
   curve curve_point args st
   = (Ok (Shape LINE_STRIP [] []), after_render (Shape LINE_STRIP [] []) st)).
Proof.
  intros Hsplit.
  destruct (split_control_points args) as [[[[a b] c] d]|] eqn:E; [|contradiction].
  repeat match goal with |- _ /\ _ => split end; intros Hres.
  - unfold bezier, _draw_on_return, control_points, bind, get, ret, lift.
    rewrite E, Hres. reflexivity.
  - unfold curve, _draw_on_return, control_points, bind, get, ret, lift.
    rewrite E, Hres. reflexivity.
  - unfold bezier. apply draw_on_return_ok.
    unfold control_points, bind, get, ret, lift. rewrite E.
    rewrite py_range_pos by lia. rewrite range_list_empty by lia. reflexivity.
  - unfold curve. apply draw_on_return_ok.
    unfold control_points, bind, get, ret, lift. rewrite E.
    rewrite py_range_pos by lia. rewrite range_list_empty by lia. reflexivity.
Qed.

End CurveEdges.

Lemma curves_at_degenerate_resolution_witness :
  let args := [Num 0; Num 0; Num 1; Num 2; Num 3; Num 2; Num 4; Num 0] in
  let st := initial_state (fresh_renderer identity_matrix ROUND 1) 0 (-3) in
  split_control_points args <> None /\
  bezier_resolution st = 0 /\
  curve_resolution st < 0 /\
  bezier cubic_bezier_point args st = (Raise ZeroDivisionError, st) /\
  fst (curve catmull_rom_point args st) = Ok (Shape LINE_STRIP [] []).
Proof.
  intros args st.
  assert (H1 : split_control_points args <> None) by discriminate.
  assert (H2 : bezier_resolution st = 0) by reflexivity.
  assert (H3 : curve_resolution st < 0) by (cbn; lia).
  split; [exact H1|]. split; [exact H2|]. split; [exact H3|].
  destruct (curves_at_degenerate_resolution cubic_bezier_point catmull_rom_point
              args st H1) as (Hb & _ & _ & Hc).
  split; [exact (Hb H2)|]. rewrite (Hc H3). reflexivity.
Defined.

(** ** create_shape *)

Section CreateShapeFacts.

Variable SINCOS : list (R * R).
Variable generic_shape : PShape.

Lemma lookup_unknown_kind (s : string) :
  ~ In s shape_kinds ->
  lookup_kind (Some s) (shape_map SINCOS generic_shape) = None.
Proof.
  intros Hs. unfold shape_kinds in Hs. cbn [In] in Hs.
  unfold shape_map. cbn [lookup_kind kind_eqb].
  repeat match goal with
         | |- context [String.eqb s ?k] =>
             destruct (String.eqb_spec s k) as [->|_]; [exfalso; tauto|]
         end.
  reflexivity.
Qed.

(** X19.  [create_shape] looks the kind up and calls what it finds with the
    same arguments: without a kind it returns the generic shape and renders
    nothing; for a kind that is not one of the nine names it raises
    KeyError before anything else happens; for each of the nine names the
    outcome is that of the constructor of that name, so the shape that is
    returned has already been rendered once (and a failing call has
    rendered nothing). *)
Theorem create_shape_dispatch (kind : pymode) (args : list pyval) (kw : kwargs)
        (mode emode : pymode) (st : State) :
  create_shape SINCOS generic_shape None args kw st = Called (Ok generic_shape, st) /\
  (forall s : string,
      kind = Some s -> ~ In s shape_kinds ->
      create_shape SINCOS generic_shape kind args kw st = KeyError) /\
  (forall s : string,
      kind = Some s -> In s shape_kinds ->
      exists out : result PShape * State,
        create_shape SINCOS generic_shape kind args kw st = Called out /\
        drawn_once st out) /\
  create_shape SINCOS generic_shape (Some "rect") args (mkKwargs (Some mode) None) st
  = Called (rect args mode st) /\
  create_shape SINCOS generic_shape (Some "square") args (mkKwargs (Some mode) None) st
  = Called (square args mode st) /\
  create_shape SINCOS generic_shape (Some "ellipse") args (mkKwargs (Some mode) None) st
  = Called (ellipse SINCOS args mode st) /\
  create_shape SINCOS generic_shape (Some "circle") args (mkKwargs (Some mode) None) st
  = Called (circle SINCOS args mode st) /\
  create_shape SINCOS generic_shape (Some "arc") args
               (mkKwargs (Some mode) (Some emode)) st
  = Called (arc SINCOS args mode emode st) /\
  create_shape SINCOS generic_shape (Some "line") args no_kwargs st
  = Called (line args st) /\
  create_shape SINCOS generic_shape (Some "triangle") args no_kwargs st
  = Called (triangle args st) /\
  create_shape SINCOS generic_shape (Some "quad") args no_kwargs st
  = Called (quad args st).
Proof.
  split; [reflexivity|]. split; [|split; [|repeat split; reflexivity]].
  - intros s -> Hs. unfold create_shape.
    rewrite (lookup_unknown_kind s Hs). reflexivity.
  - intros s -> Hs. unfold shape_kinds in Hs. cbn [In] in Hs.
    destruct kw as [km ke].
    repeat (destruct Hs as [<-|Hs]); [..|contradiction];
      eexists; (split; [reflexivity|]);
      cbn [kw_absent kw_value kw_mode kw_ellipse_mode];
      destruct km, ke; cbn [kw_absent andb];
      first [ reflexivity
            | apply arc_drawn_once | apply circle_drawn_once
            | apply ellipse_drawn_once | apply line_drawn_once
            | apply quad_drawn_once | apply rect_drawn_once
            | apply square_drawn_once | apply triangle_drawn_once
            | destruct args as [|x [|y [|z [|w rest]]]];
              first [reflexivity | apply point_drawn_once] ].
Qed.

End CreateShapeFacts.

Lemma create_shape_dispatch_witness :
  let st := sketch_state identity_matrix ROUND 1 in
  let sh := Shape LINES [[0; 0; 0]; [3; 4; 0]]%R [] in
  ~ In "box" shape_kinds /\
  In "line" shape_kinds /\
  create_shape (sincos_table 3600) Geometry (Some "box") [] no_kwargs st = KeyError /\
  create_shape (sincos_table 3600) Geometry (Some "line")
               [Num 0; Num 0; Num 3; Num 4] no_kwargs st
  = Called (Ok sh, after_render sh st).
Proof.
  intros st sh.
  assert (Hbox : ~ In "box" shape_kinds).
  { unfold shape_kinds. cbn [In].
    intros H. repeat (destruct H as [H|H]; [discriminate H|]). exact H. }
  assert (Hline : In "line" shape_kinds) by (unfold shape_kinds; cbn; tauto).
  split; [exact Hbox|]. split; [exact Hline|]. split.
  - destruct (create_shape_dispatch (sincos_table 3600) Geometry (Some "box") []
                no_kwargs None None st) as (_ & Hkey & _).
    exact (Hkey "box" eq_refl Hbox).
  - destruct (create_shape_dispatch (sincos_table 3600) Geometry (Some "line")
                [Num 0; Num 0; Num 3; Num 4] no_kwargs None None st)
      as (_ & _ & _ & _ & _ & _ & _ & _ & Hl & _).
    rewrite Hl. reflexivity.
Defined.
